(* ===== verification/_CoqProject ===== *)
-Q . S2P
Prelude.v
JsValue.v
TsConfig.v
JsonEquiv.v
TsTypes.v
Devkit.v
Generator.v
Trace.v
Mutable.v
Format.v
Runs.v
