(* ===== verification/Prelude.v ===== *)
(** * A verification development of the Nx Vite plugin's [vitest] generator

    Source: [src/packages/vite/src/generators/vitest/vitest-generator.ts]
    (108 lines of TypeScript).  The generator is a plugin of the Nx
    workspace tool.  Given a project name and a small options schema it
    (1) reads the project's configuration, (2) registers or rewrites the
    project's [test] target, (3) runs the Vite [init] generator and keeps
    its install task, (4) writes [vite.config.ts] unless [skipViteConfig],
    (5) scaffolds template files into the project root, (6) patches the
    project's TypeScript configuration files (the part with real logic),
    (7) formats the files, and (8) returns a callback that runs the
    collected install tasks one after the other.

    ** How the files map to the program

    - [Prelude] (this file): the result (exception) monad used for every
      fallible step, association lists (the key order of a JavaScript
      object), counting, the [vitest] hint database and the tactics the
      other files share.

    - [JsValue]: JavaScript values as the generator sees them after the
      host parses a JSON file ([jval]: null, booleans, numbers, strings,
      arrays, objects with their key order), [undefined] as [None], the
      thrown exceptions ([exn]), and the language operations the callbacks
      use: truthiness ([truthy]), property read ([get_prop], a TypeError
      on [null]/[undefined]), strict-mode property write ([set_prop]),
      nullish test for [??=], [Array.prototype.some] ([js_some]) and
      [push] ([js_push]), and decidable equality.

    - [TsConfig]: the two [updateJson] callbacks of [updateTsConfig]
      (lines 58-68 and 78-79/86-88): [updateReferences] adds
      [{ path: './tsconfig.spec.json' }] to [references], and
      [addImportMetaType] pushes ['vitest/importMeta'] onto
      [compilerOptions.types].  Next to them, the abstract operations of
      the spec (section 4.1), [ensureReference] and [ensureListedType],
      over the spec's document model; refinement theorems say where the
      code implements them, and divergence theorems say where it does not.

    - [JsonEquiv]: equality of JSON values up to the order of object
      keys ([jequiv], an [Equivalence] and stdpp [Equiv]), with [Proper]
      instances for the language operations and the two callbacks, and
      the executable test [jequivb] that implies it; [Format] uses them.

    - [TsTypes]: the TypeScript types the tsconfig schema gives the two
      fields the callbacks rewrite ([references?: { path: string }[]],
      [compilerOptions?: { types?: string[] }]) as the decidable check
      [tsconfigTyped], for the type soundness of the callbacks.

    - [Devkit]: the host collaborators the generator calls.  They are code
      of the Nx repository that is not under [src/], so they are modelled
      from the spec (section 6, "External interfaces") and marked so in
      the manifest: the virtual file tree ([Tree], a gmap from paths to
      parsed files), [tree_exists], [readJson], [writeJson], [updateJson]
      (read, apply the callback, write back, section 7's errors),
      [joinPathFragments] (Node's [path.join] normalisation),
      [offsetFromRoot], [readProjectConfiguration] and [runTasksInSerial]
      (section 9: "an explicit ordered list of deferred callbacks with an
      explicit sequential-execution combinator").  The collaborators the
      spec only names ([addOrChangeTestTarget], [initGenerator],
      [writeViteConfig], [generateFiles], [formatFiles],
      [findExistingTargets]) form the interface [Collaborators], with the
      frame laws the generator's theorems rely on: [StepLaws] for the
      steps before [formatFiles], and [CollaboratorLaws], which adds an
      exact law for [formatFiles].

    - [Generator]: [updateTsConfig] (lines 53-93), [createFiles] (95-106)
      and [vitestGenerator] (22-51), written over any instance of the
      collaborator interface, in the result monad, in the order of the
      source.

    - [Trace]: the order of the collaborator calls.  [traced C] is a host
      [C] whose collaborators also log their names to a trace file of the
      tree; [TraceFrame C] says [C]'s own collaborators leave that file
      alone.

    - [Mutable]: the generator over Nx's mutable tree.  In the source
      [tree] is one shared object that [updateJson] and the collaborators
      write into, and an exception leaves in it the writes made before
      the throw.  [mut A] is a state monad whose exceptions keep the
      state ([Tree -> Tree * js A]); each host call ([call], [call_with])
      is atomic; [updateTsConfig_m] and [vitestGenerator_m] translate
      lines 53-93 and 22-51 a second time over it; [discard] is the
      host's flush policy (keep the tree of a run that returned).

    - [Format]: [FormatUpTo], the relaxed law of a [formatFiles] that may
      reorder keys (it keeps the tsconfig files up to [jequiv]), and a
      host whose formatter moves [compilerOptions] first, which satisfies
      it and breaks the exact law.

    - [Runs]: repeated runs.  [run_step] is one successful run with a fixed
      schema, a relation on trees; stdpp's [tc] and [nsteps] are
      several runs.

    ** What the theorems show (claims C1-C35 of the manifest)

    - End to end ([Generator]): a successful run leaves the project's
      tsconfig files exactly as [updateTsConfig] makes them from the input
      tree (a refinement through the collaborators' frame laws); a
      second run keeps [tsconfig.json] but adds another
      ['vitest/importMeta']; a successful run implements the spec's
      [ensureReference] on [tsconfig.json] and, the first time,
      [ensureListedType] on [tsconfig.lib.json] (refinement of the
      Configuration Merger); a project whose [tsconfig.json] is absent
      or not JSON always fails; the callback returned is the init task.
      The [skipViteConfig] guard: with the flag set the run
      is the same whatever the host's [writeViteConfig] does (two hosts
      compared through [with_writeViteConfig]); without it, an error of
      [writeViteConfig] is the run's error.
    - Formatting ([Format]): with a [formatFiles] that may reorder keys,
      the tsconfig files a run leaves are, up to key order, those of a
      tree in which [updateTsConfig]'s updates hold exactly.
    - Repeated runs ([Runs], by induction on [tc] and [nsteps]): after
      any positive number of runs [tsconfig.json] refers [max 1 c] times
      to [./tsconfig.spec.json]; [n] runs add exactly [n] copies of
      ['vitest/importMeta'] to the library's [types]; every tree
      reachable by runs from typed tsconfig files has them typed.
    - Call order ([Trace]): a successful run calls [addOrChangeTestTarget],
      [init], [writeViteConfig] (exactly without [skipViteConfig]),
      [generateFiles] and [formatFiles] in the source's order, each once.
    - The mutable tree ([Mutable]): a run of [vitestGenerator_m] that
      returns leaves the tsconfig files as lines 53-93 update them
      (proved through the lemma that [vitestGenerator] is
      [vitestGenerator_m] seen through [discard]); when a run throws, the project's tsconfig files are either as
      in the input, or only [tsconfig.json] rewritten, or all updated
      ([formatFiles] threw); and the partial state is reachable:
      [tsconfig.json] is rewritten before the types callback throws, so
      spec section 7's "no partial writes" rests on the host's flush.
    - Types ([TsTypes]): on documents whose fields have their declared
      types, both callbacks return (no TypeError; [addImportMetaType]
      once [compilerOptions] is present) and write back well-typed
      documents; [updateTsConfig] keeps the project's three tsconfig
      files well-typed (an invariant of the tree).
    - [updateTsConfig]: its effect on each of the three files
      ([tsconfig.lib.json] wins over [tsconfig.app.json]), that it writes
      nothing else, when it is guaranteed to return (liveness), and its
      [NotFound] and [ParseError] errors.
    - [TsConfig]: both callbacks on every branch (append, no-op,
      TypeError), refinement of the spec's [ensureReference] and
      [ensureListedType] where the code implements them, idempotence and
      the "max one spec reference" invariant of [updateReferences] and
      that it never creates two references with the same [path], and
      the divergences from the
      spec: [addImportMetaType] is not idempotent and duplicates an
      existing entry, a falsy [references] is silently accepted, an array
      [compilerOptions] silently loses the update.
    - [Devkit] (lemmas): read-after-write and frame lemmas for the tree,
      [updateJson] as read-modify-write, the last segment of a joined
      path, [runTasksInSerial] as sequential composition.
    - Witnesses run on [Generator.ReferenceHost], a concrete host whose
      collaborators satisfy the laws (an Nx library [ui] in [libs/ui]).

    ** Modelling choices, bounds and what is not modelled

    - No definition needs fuel: every function is structural.  The only
      loop of the source, [Array.prototype.some], is a structural
      recursion over the array; [runTasksInSerial] recurses on the list.
    - JSON numbers are modelled as integers ([Z]); the generator only
      tests them for truthiness (0 is falsy) and never computes with them.
    - Objects are association lists in key order (what [JSON.stringify]
      writes back); a written key keeps its place, a new key goes last
      (none of the keys involved is an array index).
    - Parsed files are stored as values: serialisation and parsing are
      taken to round-trip (spec section 6); formatting is a collaborator
      that keeps parsed contents.  The devkit's [formatFiles] also sorts
      the keys of [compilerOptions.paths] in the workspace's root
      tsconfig: for a project at the workspace root (an empty root) the exact law of
      [CollaboratorLaws] then fails, while [FormatUpTo] (keys reordered
      only) still holds, so [Format]'s theorem covers that case.
    - [joinPathFragments] follows Node's [path.posix.join], and
      [offsetFromRoot] counts the segments of [path.normalize(dir)], as
      the devkit does; the devkit's backslash and Windows drive-letter
      rewriting is not modelled.
    - The collaborators [addOrChangeTestTarget], [findExistingTargets],
      [writeViteConfig], the [init] generator, [generateFiles] (with the
      template directory [files/]) and [formatFiles] are code outside
      [src/] that the spec only names: they are the [Collaborators]
      interface, and the theorems assume only [CollaboratorLaws] (they
      keep the project's tsconfig files and project roots).
      [vitestSchematic]'s [convertNxGenerator] is not modelled.
    - Asynchrony ([await]) is sequential and is modelled as sequencing in
      the result monad, where a throw aborts the run and its tree is
      dropped; [Mutable] models the shared tree the source mutates and
      proves this view equal to it followed by the host's flush policy.

    - [vitestSchematic] (line 109) wraps the generator with the devkit's
      [convertNxGenerator], an adapter to the Angular devkit's schematic
      API with no logic of this file; it is not modelled.

    ** Left open

    - The trace of a failing run in terms of calls (which collaborators
      ran before the one that threw) is not stated; [Mutable] states what
      a failing run leaves of the tsconfig files, which is what the host
      could persist.
    - The repeated-runs theorems of [Runs] are proved under the exact
      [CollaboratorLaws], not under [FormatUpTo].
    - The [references] entries of other shapes need nothing more: every
      entry but [null] goes through [some_isSpecReference], which the
      refinement of [ensureReference] covers. *)

From stdpp Require Export base list options strings sets.
Local Set Warnings "-clear-no-such-hyp".

Declare Scope vitest_scope.
Delimit Scope vitest_scope with vitest.
Open Scope vitest_scope.

(** ** The result monad: a step either returns or throws. *)

Inductive result (E A : Type) : Type :=
| Ok (a : A)
| Err (e : E).
Arguments Ok {E A} a.
Arguments Err {E A} e.

(** Sequencing: run [m], and on success pass its value to [f]. *)
Definition res_bind {E A B} (m : result E A) (f : A → result E B) : result E B :=
  match m with Ok a => f a | Err e => Err e end.

Notation "x <- m ;; k" := (res_bind m (λ x, k))
  (at level 100, m at next level, right associativity) : vitest_scope.
Notation "m ;; k" := (res_bind m (λ _, k))
  (at level 100, right associativity) : vitest_scope.

#[export] Instance result_ret {E} : MRet (result E) := λ A a, Ok a.
#[export] Instance result_bind {E} : MBind (result E) := λ A B f m, res_bind m f.
#[export] Instance result_fmap {E} : FMap (result E) :=
  λ A B f m, match m with Ok a => Ok (f a) | Err e => Err e end.

#[export] Instance result_eq_dec {E A} `{EqDecision E, EqDecision A} :
  EqDecision (result E A).
Proof. solve_decision. Defined.

Notation "'throw' e" := (Err e) (at level 10) : vitest_scope.

(** Is the computation a success? (decidable, for witnesses) *)
Definition is_ok {E A} (r : result E A) : bool :=
  match r with Ok _ => true | Err _ => false end.

Section ResultLemmas.
Context {E A B : Type}.

Lemma bind_Ok (a : A) (f : A → result E B) : res_bind (Ok a) f = f a.
Proof. reflexivity. Qed.

Lemma bind_Err (e : E) (f : A → result E B) : res_bind (Err e) f = Err e.
Proof. reflexivity. Qed.

Lemma bind_eq_Ok (m : result E A) (f : A → result E B) b :
  res_bind m f = Ok b ↔ ∃ a, m = Ok a ∧ f a = Ok b.
Proof. destruct m; simpl; split; naive_solver. Qed.

Lemma bind_eq_Err (m : result E A) (f : A → result E B) e :
  res_bind m f = Err e ↔ m = Err e ∨ ∃ a, m = Ok a ∧ f a = Err e.
Proof. destruct m; simpl; split; naive_solver. Qed.

Lemma fmap_eq_Ok (m : result E A) (f : A → B) b :
  f <$> m = Ok b ↔ ∃ a, m = Ok a ∧ f a = b.
Proof. destruct m; simpl; split; naive_solver. Qed.
End ResultLemmas.

Create HintDb vitest.
Create Rewrite HintDb vitest_rw.
#[export] Hint Rewrite @bind_Ok @bind_Err : vitest_rw.

(** Decompose every successful res_bind in the hypotheses. *)
Ltac inv_ok :=
  repeat match goal with
  | H : res_bind _ _ = Ok _ |- _ =>
      apply bind_eq_Ok in H as (? & ? & ?)
  | H : _ <$> _ = Ok _ |- _ =>
      apply fmap_eq_Ok in H as (? & ? & ?)
  | H : Ok _ = Ok _ |- _ => injection H as H
  | H : Err _ = Ok _ |- _ => discriminate H
  | H : Ok _ = Err _ |- _ => discriminate H
  end; subst.

(** ** Association lists: the keys of a JavaScript object, in order.

    [alist_set] is JavaScript's [o[k] = v]: an existing key keeps its
    position and gets the new value, a new key goes to the end. *)

Section Alist.
Context {V : Type}.
Implicit Types (kvs : list (string * V)) (k : string) (v : V).

Fixpoint alist_get k kvs : option V :=
  match kvs with
  | [] => None
  | (k', v') :: rest => if String.eqb k k' then Some v' else alist_get k rest
  end.

Fixpoint alist_set k v kvs : list (string * V) :=
  match kvs with
  | [] => [(k, v)]
  | (k', v') :: rest =>
      if String.eqb k k' then (k', v) :: rest else (k', v') :: alist_set k v rest
  end.

Lemma alist_get_set_eq k v kvs : alist_get k (alist_set k v kvs) = Some v.
Proof.
  induction kvs as [|[k' v'] rest IH]; simpl; [by rewrite String.eqb_refl|].
  destruct (String.eqb_spec k k') as [->|Hne]; simpl;
    [by rewrite String.eqb_refl|].
  by rewrite (proj2 (String.eqb_neq _ _) Hne).
Qed.

Lemma alist_get_set_ne k k2 v kvs :
  k ≠ k2 → alist_get k2 (alist_set k v kvs) = alist_get k2 kvs.
Proof.
  intros Hne. induction kvs as [|[k' v'] rest IH]; simpl.
  - by rewrite (proj2 (String.eqb_neq k2 k) (not_eq_sym Hne)).
  - destruct (String.eqb_spec k k') as [->|]; simpl.
    + by rewrite (proj2 (String.eqb_neq k2 k') (not_eq_sym Hne)).
    + by rewrite IH.
Qed.

Lemma alist_get_In k v kvs : alist_get k kvs = Some v → (k, v) ∈ kvs.
Proof.
  induction kvs as [|[k' v'] rest IH]; simpl; [done|].
  destruct (String.eqb_spec k k') as [->|]; intros H;
    [injection H as ->; constructor | constructor; auto].
Qed.

Lemma alist_set_id k v kvs : alist_get k kvs = Some v → alist_set k v kvs = kvs.
Proof.
  induction kvs as [|[k' v'] rest IH]; simpl; [done|].
  destruct (String.eqb_spec k k') as [->|]; intros H;
    [by injection H as -> | by rewrite IH].
Qed.

Lemma alist_set_set k v1 v2 kvs :
  alist_set k v2 (alist_set k v1 kvs) = alist_set k v2 kvs.
Proof.
  induction kvs as [|[k' v'] rest IH]; simpl; [by rewrite String.eqb_refl|].
  destruct (String.eqb_spec k k') as [->|Hne]; simpl.
  - by rewrite String.eqb_refl.
  - by rewrite (proj2 (String.eqb_neq _ _) Hne), IH.
Qed.

End Alist.

#[export] Hint Rewrite @alist_get_set_eq @alist_set_set : vitest_rw.

(** ** Counting the elements of a list that pass a test. *)

Fixpoint count_if {A} (p : A → bool) (l : list A) : nat :=
  match l with
  | [] => 0
  | x :: rest => (if p x then 1 else 0) + count_if p rest
  end.

Lemma count_if_app {A} (p : A → bool) (l1 l2 : list A) :
  count_if p (l1 ++ l2) = count_if p l1 + count_if p l2.
Proof. induction l1 as [|x l1 IH]; simpl; [done|]. rewrite IH. lia. Qed.

Lemma count_if_zero {A} (p : A → bool) (l : list A) :
  count_if p l = 0 ↔ Forall (λ x, p x = false) l.
Proof.
  induction l as [|x l IH]; simpl; [split; auto|].
  rewrite Forall_cons, <- IH. destruct (p x); split; naive_solver lia.
Qed.

#[export] Hint Rewrite @count_if_app : vitest_rw.
