(* ===== verification/JsValue.v ===== *)
(** * JavaScript values as the generator's JSON callbacks see them

    [updateJson] hands its callback the value [JSON.parse] built from the
    file: null, booleans, numbers, strings, arrays and objects (with their
    key order, which [JSON.stringify] writes back).  [undefined], which a
    property read returns for a missing key, is [None : option jval].
    This file has that value model, the exceptions the callbacks can
    throw, and the JavaScript operations lines 59-79 of the generator use,
    with their strict-mode semantics (the compiled module is strict). *)

From Stdlib Require Import ZArith.
From S2P Require Import Prelude.
Local Set Warnings "-clear-no-such-hyp".

(** ** Values *)

Unset Elimination Schemes.
Inductive jval : Type :=
| JNull
| JBool (b : bool)
| JNum (n : Z)
| JStr (s : string)
| JArr (xs : list jval)
| JObj (kvs : list (string * jval)).
Set Elimination Schemes.

(** Induction through the arrays and the values of objects. *)
Section jval_ind.
Context (P : jval → Prop)
  (Hnull : P JNull) (Hbool : ∀ b, P (JBool b)) (Hnum : ∀ n, P (JNum n))
  (Hstr : ∀ s, P (JStr s))
  (Harr : ∀ xs, Forall P xs → P (JArr xs))
  (Hobj : ∀ kvs, Forall (P ∘ snd) kvs → P (JObj kvs)).

Fixpoint jval_ind (v : jval) : P v :=
  match v with
  | JNull => Hnull
  | JBool b => Hbool b
  | JNum n => Hnum n
  | JStr s => Hstr s
  | JArr xs =>
      Harr xs ((fix go (l : list jval) : Forall P l :=
                  match l with
                  | [] => Forall_nil_2 _
                  | x :: rest => Forall_cons_2 _ x rest (jval_ind x) (go rest)
                  end) xs)
  | JObj kvs =>
      Hobj kvs ((fix go (l : list (string * jval)) : Forall (P ∘ snd) l :=
                   match l with
                   | [] => Forall_nil_2 _
                   | kv :: rest => Forall_cons_2 _ kv rest (jval_ind kv.2) (go rest)
                   end) kvs)
  end.
End jval_ind.

(** ** Exceptions *)

(** The TypeErrors of the JavaScript engine the callbacks can raise. *)
Inductive type_error : Type :=
| ReadOfNullish (prop : string)     (** [Cannot read properties of undefined (reading 'prop')] *)
| SetOnNullish (prop : string)      (** [Cannot set properties of null (setting 'prop')] *)
| NotAFunction (meth : string)      (** [x.meth is not a function] *)
| CreateOnPrimitive (prop : string). (** [Cannot create property 'prop' on string '...'] *)

(** What a [throw] in the generator or in a host function carries. *)
Inductive exn : Type :=
| TypeError (te : type_error)
| NotFound (path : string)          (** devkit [readJson]: [Cannot find <path>] *)
| ParseError (path : string)        (** devkit [parseJson] on a file that is not JSON *)
| ProjectNotFound (name : string)   (** [readProjectConfiguration] on an unknown project *)
| HostError (msg : string).         (** any error a collaborator throws *)

#[export] Instance type_error_eq_dec : EqDecision type_error.
Proof. solve_decision. Defined.
#[export] Instance exn_eq_dec : EqDecision exn.
Proof. solve_decision. Defined.

(** A JavaScript computation that returns an [A] or throws. *)
Abbreviation js A := (result exn A).

(** ** Operations of the language *)

(** [if (v)]: ToBoolean. *)
Definition truthy (v : option jval) : bool :=
  match v with
  | None | Some JNull => false
  | Some (JBool b) => b
  | Some (JNum n) => negb (Z.eqb n 0)
  | Some (JStr s) => negb (String.eqb s "")
  | Some (JArr _) | Some (JObj _) => true
  end.

(** The test of [a ??= b]: [a] is [null] or [undefined]. *)
Definition nullish (v : option jval) : bool :=
  match v with None | Some JNull => true | Some _ => false end.

(** [v === s] for a string literal [s]. *)
Definition strict_eq_str (v : option jval) (s : string) : bool :=
  match v with Some (JStr s') => String.eqb s' s | _ => false end.

(** [v.k]: reading an own data property.  Arrays and primitives have no
    own property of the names the generator reads ([references], [path],
    [compilerOptions], [types]), so the read yields [undefined]. *)
Definition get_prop (v : option jval) (k : string) : js (option jval) :=
  match v with
  | None | Some JNull => throw (TypeError (ReadOfNullish k))
  | Some (JObj kvs) => Ok (alist_get k kvs)
  | Some _ => Ok None
  end.

(** [o.k = x] in strict mode, returning the updated receiver.  A named
    property set on an array is not an index, so [JSON.stringify] drops
    it: the serialised array is unchanged. *)
Definition set_prop (o : option jval) (k : string) (x : jval) : js jval :=
  match o with
  | None | Some JNull => throw (TypeError (SetOnNullish k))
  | Some (JObj kvs) => Ok (JObj (alist_set k x kvs))
  | Some (JArr xs) => Ok (JArr xs)
  | Some _ => throw (TypeError (CreateOnPrimitive k))
  end.

(** The loop of [Array.prototype.some]: the callback runs on the elements
    in order and the loop stops at the first [true]; an exception of the
    callback propagates. *)
Fixpoint some_list (p : jval → js bool) (xs : list jval) : js bool :=
  match xs with
  | [] => Ok false
  | x :: rest => b <- p x ;; if b then Ok true else some_list p rest
  end.

(** [recv.some(p)]: only an array has the method. *)
Definition js_some (recv : option jval) (p : jval → js bool) : js bool :=
  match recv with
  | Some (JArr xs) => some_list p xs
  | None | Some JNull => throw (TypeError (ReadOfNullish "some"))
  | Some _ => throw (TypeError (NotAFunction "some"))
  end.

(** [recv.push(x)], returning the mutated array. *)
Definition js_push (recv : option jval) (x : jval) : js jval :=
  match recv with
  | Some (JArr xs) => Ok (JArr (xs ++ [x]))
  | None | Some JNull => throw (TypeError (ReadOfNullish "push"))
  | Some _ => throw (TypeError (NotAFunction "push"))
  end.

(** [{ ...target, ...src }]: the keys of [src] assigned in order onto
    [target] (an existing key keeps its place). *)
Definition obj_spread (target src : list (string * jval)) : list (string * jval) :=
  fold_left (λ acc kv, alist_set kv.1 kv.2 acc) src target.

(** ** Decidable equality *)
Fixpoint jval_eqb (a b : jval) : bool :=
  match a, b with
  | JNull, JNull => true
  | JBool x, JBool y => Bool.eqb x y
  | JNum x, JNum y => Z.eqb x y
  | JStr x, JStr y => String.eqb x y
  | JArr xs, JArr ys =>
      (fix go (xs ys : list jval) : bool :=
         match xs, ys with
         | [], [] => true
         | x :: xs', y :: ys' => jval_eqb x y && go xs' ys'
         | _, _ => false
         end) xs ys
  | JObj xs, JObj ys =>
      (fix go (xs ys : list (string * jval)) : bool :=
         match xs, ys with
         | [], [] => true
         | (k, x) :: xs', (k', y) :: ys' =>
             String.eqb k k' && jval_eqb x y && go xs' ys'
         | _, _ => false
         end) xs ys
  | _, _ => false
  end.

Lemma jval_eqb_eq a b : jval_eqb a b = true ↔ a = b.
Proof.
  revert b; induction a as [| | | |xs IH|kvs IH] using jval_ind;
    intros [| | | |ys|kvs']; simpl; try (split; congruence).
  - rewrite Bool.eqb_true_iff. split; congruence.
  - rewrite Z.eqb_eq. split; congruence.
  - rewrite String.eqb_eq. split; congruence.
  - revert ys; induction IH as [|x xs Hx _ IHxs]; intros [|y ys];
      try (split; congruence).
    rewrite andb_true_iff, Hx, IHxs. split; [intros [-> [=->]]|intros [=-> ->]]; done.
  - revert kvs'; induction IH as [|[k x] kvs Hx _ IHkvs]; intros [|[k' y] kvs'];
      try (split; congruence).
    simpl in Hx. rewrite !andb_true_iff, String.eqb_eq, Hx, IHkvs.
    split; [intros [[-> ->] [=->]]|intros [=-> -> ->]]; done.
Qed.

#[export] Instance jval_eq_dec : EqDecision jval.
Proof.
  intros a b. destruct (jval_eqb a b) eqn:E.
  - left. by apply jval_eqb_eq.
  - right. intros ?%jval_eqb_eq. congruence.
Defined.

(** ** Lemmas on the operations *)

Lemma some_list_false p xs :
  some_list p xs = Ok false ↔ Forall (λ x, p x = Ok false) xs.
Proof.
  induction xs as [|x xs IH]; simpl; [split; auto|].
  rewrite Forall_cons, <- IH. unfold res_bind.
  destruct (p x) as [[]|]; split; naive_solver.
Qed.

Lemma some_list_true p xs :
  some_list p xs = Ok true ↔
  ∃ pre x post, xs = pre ++ x :: post ∧ Forall (λ y, p y = Ok false) pre ∧ p x = Ok true.
Proof.
  induction xs as [|x xs IH]; simpl.
  - split; [by intros [=]|]. intros ([|??] & ? & ? & Heq & _); discriminate Heq.
  - unfold res_bind. destruct (p x) as [[]|] eqn:Hpx.
    + split; [intros _; by exists [], x, xs|done].
    + rewrite IH. split.
      * intros (pre & y & post & -> & Hpre & Hy).
        exists (x :: pre), y, post. split_and!; [done|by constructor|done].
      * intros ([|x' pre] & y & post & [= -> ->] & Hpre & Hy); [congruence|].
        apply Forall_cons in Hpre as [_ Hpre]. by exists pre, y, post.
    + split; [done|]. intros ([|x' pre] & y & post & [= -> ->] & Hpre & Hy);
        [congruence|]. apply Forall_cons in Hpre as [Hx _]. congruence.
Qed.

Lemma some_list_app p xs ys :
  some_list p (xs ++ ys) = (b <- some_list p xs ;; if b then Ok true else some_list p ys).
Proof.
  induction xs as [|x xs IH]; simpl; [done|].
  unfold res_bind at 1 3. destruct (p x) as [[]|]; done.
Qed.

Lemma get_prop_obj kvs k : get_prop (Some (JObj kvs)) k = Ok (alist_get k kvs).
Proof. done. Qed.

Lemma set_prop_obj kvs k x : set_prop (Some (JObj kvs)) k x = Ok (JObj (alist_set k x kvs)).
Proof. done. Qed.

#[export] Hint Rewrite get_prop_obj set_prop_obj : vitest_rw.
