(* ===== verification/TsConfig.v ===== *)
(** * The tsconfig callbacks of [updateTsConfig]

    [updateTsConfig] (vitest-generator.ts, lines 53-93) passes two
    callbacks to the host's [updateJson]:
    - lines 58-68, on [<root>/tsconfig.json]: add the project reference
      [{ path: './tsconfig.spec.json' }] unless one is there
      ([updateReferences]);
    - lines 78-79 (and the same text at 86-88), on [tsconfig.lib.json] or
      [tsconfig.app.json]: [(json.compilerOptions.types ??= []).push(
      'vitest/importMeta')] ([addImportMetaType]).
    The callbacks mutate the parsed object in place and return it; the
    model returns the updated value, writing a mutation of a nested
    object back along the path that reaches it (the parsed value has no
    other alias).

    Module [Spec] holds the spec's operations of section 4.1
    ([ensureReference], [ensureListedType]) over the same values, for the
    refinement and divergence theorems. *)

From Stdlib Require Import ZArith.
From S2P Require Import Prelude JsValue.
Local Set Warnings "-clear-no-such-hyp".

(** The string literals of the source. *)
Definition tsconfigSpecPath : string := "./tsconfig.spec.json".
Definition vitestImportMeta : string := "vitest/importMeta".

(** [{ path: './tsconfig.spec.json' }] (line 63-65). *)
Definition specReference : jval := JObj [("path", JStr tsconfigSpecPath)].

(** [(r) => r.path === './tsconfig.spec.json'] (line 61). *)
Definition isSpecReference (r : jval) : js bool :=
  p <- get_prop (Some r) "path" ;;
  Ok (strict_eq_str p tsconfigSpecPath).

(** The callback of lines 58-68.  [json.references] is read three times,
    as in the source: for the truthiness test, for [.some] and for
    [.push]. *)
Definition updateReferences (json : jval) : js jval :=
  refs <- get_prop (Some json) "references" ;;
  if truthy refs then
    refs1 <- get_prop (Some json) "references" ;;
    found <- js_some refs1 isSpecReference ;;
    if found then Ok json
    else
      refs2 <- get_prop (Some json) "references" ;;
      arr <- js_push refs2 specReference ;;
      set_prop (Some json) "references" arr
  else Ok json.

(** The callback of lines 78-79 (and 86-88):
    [(json.compilerOptions.types ??= []).push('vitest/importMeta')].
    When [types] is nullish, [??=] stores a fresh empty array and [push]
    fills that same array. *)
Definition addImportMetaType (json : jval) : js jval :=
  co <- get_prop (Some json) "compilerOptions" ;;
  types <- get_prop co "types" ;;
  if nullish types then
    co1 <- set_prop co "types" (JArr []) ;;
    arr <- js_push (Some (JArr [])) (JStr vitestImportMeta) ;;
    co2 <- set_prop (Some co1) "types" arr ;;
    set_prop (Some json) "compilerOptions" co2
  else
    arr <- js_push types (JStr vitestImportMeta) ;;
    co2 <- set_prop co "types" arr ;;
    set_prop (Some json) "compilerOptions" co2.

(** ** The spec's configuration merger (spec section 4.1) *)
Module Spec.
(** Section 7: a document whose targeted field has the wrong shape. *)
Inductive merge_error : Type := MalformedDocument.

(** A ReferenceEntry whose [path] is [p]. *)
Definition refers_to (p : string) (r : jval) : bool :=
  match r with
  | JObj kvs => strict_eq_str (alist_get "path" kvs) p
  | _ => false
  end.

(** [ensureReference(doc, referencePath)]: no-op when [references] is
    absent, append-if-absent when it is a Sequence, MalformedDocument
    otherwise. *)
Definition ensureReference (doc : jval) (p : string) : result merge_error jval :=
  match doc with
  | JObj kvs =>
      match alist_get "references" kvs with
      | None => Ok doc
      | Some (JArr refs) =>
          if existsb (refers_to p) refs then Ok doc
          else Ok (JObj (alist_set "references"
                           (JArr (refs ++ [JObj [("path", JStr p)]])) kvs))
      | Some _ => Err MalformedDocument
      end
  | _ => Err MalformedDocument
  end.

(** [ensureListedType(doc, fieldPath, typeName)]: follow the mappings of
    [fieldPath]; at its last key create the sequence if absent, then
    append [typeName] unless it is already an element. *)
Fixpoint ensureListedType (doc : jval) (path : list string) (t : string)
    : result merge_error jval :=
  match path, doc with
  | [k], JObj kvs =>
      match alist_get k kvs with
      | None => Ok (JObj (alist_set k (JArr [JStr t]) kvs))
      | Some (JArr xs) =>
          if existsb (jval_eqb (JStr t)) xs then Ok doc
          else Ok (JObj (alist_set k (JArr (xs ++ [JStr t])) kvs))
      | Some _ => Err MalformedDocument
      end
  | k :: rest, JObj kvs =>
      match alist_get k kvs with
      | Some sub =>
          sub' <- ensureListedType sub rest t ;;
          Ok (JObj (alist_set k sub' kvs))
      | None => Err MalformedDocument
      end
  | _, _ => Err MalformedDocument
  end.
End Spec.

(** ** Shared lemmas *)

(** The [path] of a reference entry ([undefined] for a non-object). *)
Definition refPath (r : jval) : option jval :=
  match r with JObj kvs => alist_get "path" kvs | _ => None end.

(** How many references of a list point at [./tsconfig.spec.json]. *)
Definition specRefCount (refs : list jval) : nat :=
  count_if (Spec.refers_to tsconfigSpecPath) refs.

(** The shape under which the spec's [ensureReference] is defined:
    [references] absent, or an array whose elements are not [null]. *)
Definition referencesWellShaped (kvs : list (string * jval)) : Prop :=
  match alist_get "references" kvs with
  | None => True
  | Some (JArr refs) => Forall (λ r, r ≠ JNull) refs
  | Some _ => False
  end.

Lemma isSpecReference_refers r b :
  isSpecReference r = Ok b → Spec.refers_to tsconfigSpecPath r = b.
Proof. destruct r; cbn; intros H; inversion H; done. Qed.

Lemma isSpecReference_nonnull r :
  r ≠ JNull → isSpecReference r = Ok (Spec.refers_to tsconfigSpecPath r).
Proof. destruct r; done. Qed.

Lemma some_isSpecReference refs :
  Forall (λ r, r ≠ JNull) refs →
  some_list isSpecReference refs = Ok (existsb (Spec.refers_to tsconfigSpecPath) refs).
Proof.
  induction 1 as [|r refs Hr _ IH]; [done|]. simpl.
  rewrite isSpecReference_nonnull by done. simpl.
  by destruct (Spec.refers_to _ r).
Qed.

Lemma some_isSpecReference_false refs :
  some_list isSpecReference refs = Ok false → specRefCount refs = 0.
Proof.
  intros Hs%some_list_false. apply count_if_zero.
  eapply Forall_impl; [exact Hs|]. intros r. apply isSpecReference_refers.
Qed.

Lemma some_isSpecReference_true refs :
  some_list isSpecReference refs = Ok true → 1 ≤ specRefCount refs.
Proof.
  intros (pre & r & post & -> & _ & Hr)%some_list_true.
  unfold specRefCount. rewrite count_if_app. simpl.
  rewrite (isSpecReference_refers r true Hr). lia.
Qed.

(** The callback on an object, with the reads of [references] done. *)
Lemma updateReferences_obj kvs :
  updateReferences (JObj kvs) =
    let r := alist_get "references" kvs in
    if truthy r then
      found <- js_some r isSpecReference ;;
      if found then Ok (JObj kvs)
      else arr <- js_push r specReference ;; Ok (JObj (alist_set "references" arr kvs))
    else Ok (JObj kvs).
Proof. reflexivity. Qed.

(** Any other value but [null] has no [references]: nothing happens. *)
Lemma updateReferences_nonobj d :
  d ≠ JNull → (∀ kvs, d ≠ JObj kvs) → updateReferences d = Ok d.
Proof. destruct d as [| | | | |kvs]; intros H1 H2; try done. by destruct (H2 kvs). Qed.

(** The two outcomes of a successful run on an object. *)
Lemma updateReferences_obj_ok kvs d' :
  updateReferences (JObj kvs) = Ok d' →
  d' = JObj kvs ∧ (∀ refs, alist_get "references" kvs = Some (JArr refs) →
                    some_list isSpecReference refs = Ok true)
  ∨ ∃ refs, alist_get "references" kvs = Some (JArr refs) ∧
            some_list isSpecReference refs = Ok false ∧
            d' = JObj (alist_set "references" (JArr (refs ++ [specReference])) kvs).
Proof.
  rewrite updateReferences_obj. simpl.
  destruct (truthy _) eqn:Ht; [|intros [=<-]; left; split; [done|]; intros refs Hr; by rewrite Hr in Ht].
  destruct (alist_get "references" kvs) as [[| | | |refs|]|] eqn:Hr;
    simpl; try (intros [=]; fail).
  unfold res_bind. destruct (some_list _ refs) as [[]|] eqn:Hs; intros H; inv_ok.
  - left. split; [done|]. intros ? [=<-]. done.
  - right. by exists refs.
Qed.

(** ** [updateReferences]: behaviour, refinement, invariant, errors *)

Lemma updateReferences_ensureReference kvs :
  referencesWellShaped kvs →
  ∃ d, Spec.ensureReference (JObj kvs) tsconfigSpecPath = Ok d ∧
       updateReferences (JObj kvs) = Ok d.
Proof.
  unfold referencesWellShaped. rewrite updateReferences_obj. simpl.
  destruct (alist_get "references" kvs) as [[| | | |refs|]|];
    intros Hshape; try done; [|eauto].
  simpl. rewrite some_isSpecReference by done. simpl.
  destruct existsb; eauto.
Qed.

(** C6 (refinement) On a [tsconfig.json] object whose [references] is
    absent or an array without [null] elements, the callback of lines
    58-68 computes exactly the spec's
    [ensureReference(doc, './tsconfig.spec.json')]: the document is
    unchanged when [references] is absent or already has the entry, and
    otherwise the entry is appended at the end of [references]. *)
Theorem updateReferences_refines_ensureReference kvs :
  referencesWellShaped kvs →
  ∃ d, Spec.ensureReference (JObj kvs) tsconfigSpecPath = Ok d ∧
       updateReferences (JObj kvs) = Ok d.
Proof. apply updateReferences_ensureReference. Qed.

Lemma updateReferences_refines_ensureReference_witness :
  referencesWellShaped [("references", JArr [JObj [("path", JStr "./tsconfig.lib.json")]])] ∧
  ∃ d, Spec.ensureReference
         (JObj [("references", JArr [JObj [("path", JStr "./tsconfig.lib.json")]])])
         tsconfigSpecPath = Ok d ∧
       updateReferences (JObj [("references", JArr [JObj [("path", JStr "./tsconfig.lib.json")]])]) = Ok d.
Proof.
  assert (H : referencesWellShaped [("references", JArr [JObj [("path", JStr "./tsconfig.lib.json")]])])
    by (simpl; repeat constructor; discriminate).
  split; [exact H | exact (updateReferences_refines_ensureReference _ H)].
Defined.

Lemma updateReferences_rerun d d' :
  updateReferences d = Ok d' → updateReferences d' = Ok d'.
Proof.
  destruct (decide (d = JNull)) as [->|Hnn]; [by intros [=]|].
  destruct d as [| | | | |kvs];
    try (rewrite updateReferences_nonobj by done; intros [=<-];
         by apply updateReferences_nonobj).
  intros H. destruct (updateReferences_obj_ok _ _ H)
    as [[-> _] | (refs & Hr & Hs & ->)]; [done|].
  rewrite updateReferences_obj, alist_get_set_eq. simpl.
  rewrite some_list_app, Hs. reflexivity.
Qed.

(** C7 (idempotence, spec section 8) Running the callback of lines 58-68
    on its own output changes nothing: a second [nx g vitest] leaves
    [tsconfig.json] as the first one wrote it. *)
Theorem updateReferences_idempotent d d' :
  updateReferences d = Ok d' → updateReferences d' = Ok d'.
Proof. apply updateReferences_rerun. Qed.

Lemma updateReferences_idempotent_witness :
  updateReferences (JObj [("references", JArr [])]) = Ok (JObj [("references", JArr [specReference])]) ∧
  updateReferences (JObj [("references", JArr [specReference])]) = Ok (JObj [("references", JArr [specReference])]).
Proof.
  assert (H : updateReferences (JObj [("references", JArr [])]) =
              Ok (JObj [("references", JArr [specReference])])) by reflexivity.
  split; [exact H | exact (updateReferences_idempotent _ _ H)].
Defined.

Lemma updateReferences_count kvs refs d' :
  alist_get "references" kvs = Some (JArr refs) →
  updateReferences (JObj kvs) = Ok d' →
  ∃ refs', d' = JObj (alist_set "references" (JArr refs') kvs) ∧
           specRefCount refs' = max 1 (specRefCount refs).
Proof.
  intros Hr [[-> Htrue] | (refs0 & Hr0 & Hs & ->)]%updateReferences_obj_ok.
  - exists refs. rewrite alist_set_id by done. split; [done|].
    pose proof (some_isSpecReference_true _ (Htrue _ Hr)). lia.
  - rewrite Hr in Hr0. injection Hr0 as <-.
    exists (refs ++ [specReference]). split; [done|].
    pose proof (some_isSpecReference_false _ Hs) as H0.
    unfold specRefCount in *. rewrite count_if_app. simpl. lia.
Qed.

(** C23 (invariant, spec section 3) When [references] is an array, a
    successful run leaves an array that refers to [./tsconfig.spec.json]
    [max 1 n] times, where [n] is how often the input did: the entry is
    added exactly when it is missing, and existing entries are kept. *)
Theorem updateReferences_spec_reference_count kvs refs d' :
  alist_get "references" kvs = Some (JArr refs) →
  updateReferences (JObj kvs) = Ok d' →
  ∃ refs', d' = JObj (alist_set "references" (JArr refs') kvs) ∧
           specRefCount refs' = max 1 (specRefCount refs).
Proof. apply updateReferences_count. Qed.

Lemma updateReferences_spec_reference_count_witness :
  alist_get "references" [("extends", JStr "../../tsconfig.base.json");
                          ("references", JArr [JObj [("path", JStr "./tsconfig.lib.json")]])] =
    Some (JArr [JObj [("path", JStr "./tsconfig.lib.json")]]) ∧
  ∃ refs', JObj [("extends", JStr "../../tsconfig.base.json");
                 ("references", JArr [JObj [("path", JStr "./tsconfig.lib.json")]; specReference])] =
           JObj (alist_set "references" (JArr refs')
                   [("extends", JStr "../../tsconfig.base.json");
                    ("references", JArr [JObj [("path", JStr "./tsconfig.lib.json")]])]) ∧
           specRefCount refs' = max 1 (specRefCount [JObj [("path", JStr "./tsconfig.lib.json")]]).
Proof.
  split; [reflexivity|].
  apply (updateReferences_spec_reference_count
           [("extends", JStr "../../tsconfig.base.json");
            ("references", JArr [JObj [("path", JStr "./tsconfig.lib.json")]])]
           [JObj [("path", JStr "./tsconfig.lib.json")]]); reflexivity.
Defined.

Lemma refPath_spec_not_in refs :
  specRefCount refs = 0 → Some (JStr tsconfigSpecPath) ∉ map refPath refs.
Proof.
  intros H0%count_if_zero Hin. apply list_elem_of_fmap in Hin as (r & Hr & Hin).
  rewrite Forall_forall in H0. specialize (H0 r Hin).
  destruct r as [| | | | |kvs]; try discriminate. simpl in *.
  rewrite <- Hr in H0. vm_compute in H0. discriminate.
Qed.

(** C24 (invariant, spec section 3) [updateReferences] never creates two
    entries with the same [path]: when the paths of the [references]
    array are pairwise distinct before a successful run, they are after
    it, since the entry is appended only when no element has the path
    [./tsconfig.spec.json]. *)
Theorem updateReferences_no_duplicate_paths kvs refs d' :
  alist_get "references" kvs = Some (JArr refs) → NoDup (map refPath refs) →
  updateReferences (JObj kvs) = Ok d' →
  ∃ refs', d' = JObj (alist_set "references" (JArr refs') kvs) ∧ NoDup (map refPath refs').
Proof.
  intros Hr Hnd [[-> _] | (refs0 & Hr0 & Hs & ->)]%updateReferences_obj_ok.
  - exists refs. by rewrite alist_set_id.
  - rewrite Hr in Hr0. injection Hr0 as <-. exists (refs ++ [specReference]). split; [done|].
    rewrite map_app. apply NoDup_app. split_and!; [done| |by apply NoDup_singleton].
    intros x Hx ->%list_elem_of_singleton. revert Hx.
    by apply refPath_spec_not_in, some_isSpecReference_false.
Qed.

Lemma updateReferences_no_duplicate_paths_witness :
  alist_get "references" [("references", JArr [JObj [("path", JStr "./tsconfig.lib.json")]])] =
    Some (JArr [JObj [("path", JStr "./tsconfig.lib.json")]]) ∧
  NoDup (map refPath [JObj [("path", JStr "./tsconfig.lib.json")]]) ∧
  ∃ refs', JObj [("references", JArr [JObj [("path", JStr "./tsconfig.lib.json")]; specReference])] =
           JObj (alist_set "references" (JArr refs')
                   [("references", JArr [JObj [("path", JStr "./tsconfig.lib.json")]])]) ∧
           NoDup (map refPath refs').
Proof.
  assert (Hnd : NoDup (map refPath [JObj [("path", JStr "./tsconfig.lib.json")]]))
    by (simpl; apply NoDup_singleton).
  split; [reflexivity|]. split; [exact Hnd|].
  apply (updateReferences_no_duplicate_paths
           [("references", JArr [JObj [("path", JStr "./tsconfig.lib.json")]])]
           [JObj [("path", JStr "./tsconfig.lib.json")]]); [reflexivity|exact Hnd|reflexivity].
Defined.

(** C28 (divergence from spec sections 4.1 and 8) When [references] holds
    a falsy scalar ([null], [false], [0] or [""]), the guard
    [json.references && ...] of line 60 skips the update and the file is
    written back unchanged, where the spec's [ensureReference] signals
    MalformedDocument for a [references] that is not a Sequence. *)
Theorem updateReferences_accepts_falsy_references kvs v :
  alist_get "references" kvs = Some v → truthy (Some v) = false →
  updateReferences (JObj kvs) = Ok (JObj kvs) ∧
  Spec.ensureReference (JObj kvs) tsconfigSpecPath = Err Spec.MalformedDocument.
Proof.
  intros Hr Ht. rewrite updateReferences_obj. cbn [Spec.ensureReference]. simpl.
  rewrite Hr, Ht. split; [done|]. destruct v; simpl in *; congruence.
Qed.

Lemma updateReferences_accepts_falsy_references_witness :
  alist_get "references" [("references", JBool false)] = Some (JBool false) ∧
  truthy (Some (JBool false)) = false ∧
  updateReferences (JObj [("references", JBool false)]) = Ok (JObj [("references", JBool false)]) ∧
  Spec.ensureReference (JObj [("references", JBool false)]) tsconfigSpecPath = Err Spec.MalformedDocument.
Proof.
  split; [reflexivity|]. split; [reflexivity|].
  apply (updateReferences_accepts_falsy_references _ (JBool false)); reflexivity.
Defined.

(** C29 (error) A truthy [references] that is not an array (a non-empty
    string, a number, [true] or an object) has no [.some] method: the
    callback throws [TypeError: json.references.some is not a function],
    so [updateJson] and the whole generator fail. *)
Theorem updateReferences_non_array_throws kvs v :
  alist_get "references" kvs = Some v → truthy (Some v) = true → (∀ xs, v ≠ JArr xs) →
  updateReferences (JObj kvs) = Err (TypeError (NotAFunction "some")).
Proof.
  intros Hr Ht Hna. rewrite updateReferences_obj. simpl. rewrite Hr, Ht.
  destruct v as [| | | |xs|]; try done. by destruct (Hna xs).
Qed.

Lemma updateReferences_non_array_throws_witness :
  alist_get "references" [("references", JObj [])] = Some (JObj []) ∧
  truthy (Some (JObj [])) = true ∧ (∀ xs, JObj [] ≠ JArr xs) ∧
  updateReferences (JObj [("references", JObj [])]) = Err (TypeError (NotAFunction "some")).
Proof.
  assert (Hna : ∀ xs, JObj [] ≠ JArr xs) by discriminate.
  split; [reflexivity|]. split; [reflexivity|]. split; [exact Hna|].
  apply (updateReferences_non_array_throws _ (JObj [])); [reflexivity|reflexivity|exact Hna].
Defined.

(** C30 (error) A [null] entry of [references] met by [.some] before any
    entry for [./tsconfig.spec.json] makes the arrow function of line 61
    read [null.path]: the callback throws a TypeError. *)
Theorem updateReferences_null_reference_throws kvs pre post :
  alist_get "references" kvs = Some (JArr (pre ++ JNull :: post)) →
  Forall (λ r, r ≠ JNull ∧ Spec.refers_to tsconfigSpecPath r = false) pre →
  updateReferences (JObj kvs) = Err (TypeError (ReadOfNullish "path")).
Proof.
  intros Hr Hpre. rewrite updateReferences_obj. simpl. rewrite Hr. simpl.
  rewrite some_list_app, some_isSpecReference
    by (eapply Forall_impl; [exact Hpre|]; naive_solver).
  assert (existsb (Spec.refers_to tsconfigSpecPath) pre = false) as ->.
  { apply not_true_iff_false. rewrite existsb_exists.
    intros (r & Hin & Hr'). rewrite List.Forall_forall in Hpre.
    destruct (Hpre r Hin) as [_ Hf]. congruence. }
  reflexivity.
Qed.

Lemma updateReferences_null_reference_throws_witness :
  alist_get "references" [("references", JArr ([JObj []] ++ JNull :: [specReference]))] =
    Some (JArr ([JObj []] ++ JNull :: [specReference])) ∧
  Forall (λ r, r ≠ JNull ∧ Spec.refers_to tsconfigSpecPath r = false) [JObj []] ∧
  updateReferences (JObj [("references", JArr ([JObj []] ++ JNull :: [specReference]))]) =
    Err (TypeError (ReadOfNullish "path")).
Proof.
  assert (Hpre : Forall (λ r, r ≠ JNull ∧ Spec.refers_to tsconfigSpecPath r = false) [JObj []])
    by (repeat constructor; discriminate).
  split; [reflexivity|]. split; [exact Hpre|].
  apply (updateReferences_null_reference_throws _ [JObj []] [specReference]); [reflexivity|exact Hpre].
Defined.

(** ** [addImportMetaType]: behaviour, refinement and divergence *)

(** [types ?? []] as a list. *)
Definition typesList (t : option jval) : list jval :=
  match t with Some (JArr l) => l | _ => [] end.

(** How many ['vitest/importMeta'] entries [compilerOptions.types] has. *)
Definition importMetaCount (j : jval) : nat :=
  match j with
  | JObj kvs =>
      match alist_get "compilerOptions" kvs with
      | Some (JObj co) => count_if (jval_eqb (JStr vitestImportMeta)) (typesList (alist_get "types" co))
      | _ => 0
      end
  | _ => 0
  end.

(** The document after ['vitest/importMeta'] is added to a [types] list. *)
Definition withTypes (kvs co : list (string * jval)) (ts : list jval) : jval :=
  JObj (alist_set "compilerOptions" (JObj (alist_set "types" (JArr ts) co)) kvs).

(** The callback when [compilerOptions] is an object. *)
Lemma addImportMetaType_obj kvs co :
  alist_get "compilerOptions" kvs = Some (JObj co) →
  addImportMetaType (JObj kvs) =
    match alist_get "types" co with
    | None | Some JNull => Ok (withTypes kvs co [JStr vitestImportMeta])
    | Some (JArr ts) => Ok (withTypes kvs co (ts ++ [JStr vitestImportMeta]))
    | Some _ => Err (TypeError (NotAFunction "push"))
    end.
Proof.
  intros Hco. unfold addImportMetaType, withTypes. simpl. rewrite Hco. simpl.
  destruct (alist_get "types" co) as [[]|]; simpl; by rewrite ?alist_set_set.
Qed.

Lemma importMetaCount_withTypes kvs co ts :
  importMetaCount (withTypes kvs co ts) = count_if (jval_eqb (JStr vitestImportMeta)) ts.
Proof. unfold withTypes. simpl. by rewrite !alist_get_set_eq. Qed.

Lemma importMetaCount_obj kvs co :
  alist_get "compilerOptions" kvs = Some (JObj co) →
  importMetaCount (JObj kvs) =
    count_if (jval_eqb (JStr vitestImportMeta)) (typesList (alist_get "types" co)).
Proof. intros Hco. simpl. by rewrite Hco. Qed.

(** One successful run on a document whose [compilerOptions] is an object
    adds exactly one ['vitest/importMeta']. *)
Lemma addImportMetaType_adds_one kvs co j' :
  alist_get "compilerOptions" kvs = Some (JObj co) →
  addImportMetaType (JObj kvs) = Ok j' →
  importMetaCount j' = S (importMetaCount (JObj kvs)) ∧
  ∃ ts, j' = withTypes kvs co ts.
Proof.
  intros Hco. rewrite (addImportMetaType_obj _ _ Hco), (importMetaCount_obj _ _ Hco).
  destruct (alist_get "types" co) as [[| | | |ts|]|]; intros H; inv_ok; try discriminate;
    rewrite importMetaCount_withTypes; simpl;
    rewrite ?count_if_app; simpl; (split; [lia|eauto]).
Qed.

Lemma addImportMetaType_types kvs co :
  alist_get "compilerOptions" kvs = Some (JObj co) →
  (nullish (alist_get "types" co) = true ∨ ∃ ts, alist_get "types" co = Some (JArr ts)) →
  addImportMetaType (JObj kvs) =
    Ok (withTypes kvs co (typesList (alist_get "types" co) ++ [JStr vitestImportMeta])).
Proof.
  intros Hco Ht. rewrite (addImportMetaType_obj _ _ Hco).
  destruct Ht as [Hn | (ts & ->)]; [|done].
  by destruct (alist_get "types" co) as [[]|].
Qed.

(** C8 (functional) When [compilerOptions] is an object and [types] is
    absent, [null] or an array, line 78 ends with [types] equal to the old
    list (or [[]] when nullish) followed by ['vitest/importMeta'],
    with every other key of [compilerOptions] and of the document kept
    in place. *)
Theorem addImportMetaType_appends kvs co :
  alist_get "compilerOptions" kvs = Some (JObj co) →
  (nullish (alist_get "types" co) = true ∨ ∃ ts, alist_get "types" co = Some (JArr ts)) →
  addImportMetaType (JObj kvs) =
    Ok (withTypes kvs co (typesList (alist_get "types" co) ++ [JStr vitestImportMeta])).
Proof. apply addImportMetaType_types. Qed.

Lemma addImportMetaType_appends_witness :
  alist_get "compilerOptions" [("compilerOptions", JObj [("types", JArr [JStr "node"])])] =
    Some (JObj [("types", JArr [JStr "node"])]) ∧
  addImportMetaType (JObj [("compilerOptions", JObj [("types", JArr [JStr "node"])])]) =
    Ok (withTypes [("compilerOptions", JObj [("types", JArr [JStr "node"])])]
                  [("types", JArr [JStr "node"])] [JStr "node"; JStr vitestImportMeta]).
Proof.
  split; [reflexivity|].
  apply (addImportMetaType_appends _ [("types", JArr [JStr "node"])]); [reflexivity|].
  right. exists [JStr "node"]. reflexivity.
Defined.

Lemma addImportMetaType_twice kvs co j' :
  alist_get "compilerOptions" kvs = Some (JObj co) →
  addImportMetaType (JObj kvs) = Ok j' →
  importMetaCount j' = S (importMetaCount (JObj kvs)) ∧
  ∃ j'', addImportMetaType j' = Ok j'' ∧
         importMetaCount j'' = S (importMetaCount j') ∧ j'' ≠ j'.
Proof.
  intros Hco H. destruct (addImportMetaType_adds_one _ _ _ Hco H) as [Hc1 [ts ->]].
  split; [done|].
  pose (co' := alist_set "types" (JArr ts) co).
  pose (kvs' := alist_set "compilerOptions" (JObj co') kvs).
  assert (Hco' : alist_get "compilerOptions" kvs' = Some (JObj co'))
    by apply alist_get_set_eq.
  assert (H2 : addImportMetaType (JObj kvs') =
               Ok (withTypes kvs' co' (ts ++ [JStr vitestImportMeta]))).
  { rewrite (addImportMetaType_obj _ _ Hco'). unfold co'. by rewrite alist_get_set_eq. }
  exists (withTypes kvs' co' (ts ++ [JStr vitestImportMeta])). split; [exact H2|].
  destruct (addImportMetaType_adds_one _ _ _ Hco' H2) as [Hc2 _].
  split; [exact Hc2|]. intros Heq.
  change (withTypes kvs co ts) with (JObj kvs') in Heq. rewrite Heq in Hc2. lia.
Qed.

(** C9 (divergence from spec sections 3, 4.1 and 8: not idempotent) On a
    document whose [compilerOptions] is an object, every successful run
    of the callback of line 78 adds one more ['vitest/importMeta'] to
    [types], and a second run succeeds again and changes the document:
    [push] is unconditional, where the spec's [ensureListedType] appends
    only an absent type. *)
Theorem addImportMetaType_not_idempotent kvs co j' :
  alist_get "compilerOptions" kvs = Some (JObj co) →
  addImportMetaType (JObj kvs) = Ok j' →
  importMetaCount j' = S (importMetaCount (JObj kvs)) ∧
  ∃ j'', addImportMetaType j' = Ok j'' ∧
         importMetaCount j'' = S (importMetaCount j') ∧ j'' ≠ j'.
Proof. apply addImportMetaType_twice. Qed.

Lemma addImportMetaType_not_idempotent_witness :
  alist_get "compilerOptions" [("compilerOptions", JObj [])] = Some (JObj []) ∧
  addImportMetaType (JObj [("compilerOptions", JObj [])]) =
    Ok (JObj [("compilerOptions", JObj [("types", JArr [JStr vitestImportMeta])])]) ∧
  importMetaCount (JObj [("compilerOptions", JObj [("types", JArr [JStr vitestImportMeta])])]) =
    S (importMetaCount (JObj [("compilerOptions", JObj [])])) ∧
  ∃ j'', addImportMetaType (JObj [("compilerOptions", JObj [("types", JArr [JStr vitestImportMeta])])]) = Ok j'' ∧
         importMetaCount j'' =
           S (importMetaCount (JObj [("compilerOptions", JObj [("types", JArr [JStr vitestImportMeta])])])) ∧
         j'' ≠ JObj [("compilerOptions", JObj [("types", JArr [JStr vitestImportMeta])])].
Proof.
  assert (H1 : alist_get "compilerOptions" [("compilerOptions", JObj [])] = Some (JObj []))
    by reflexivity.
  assert (H2 : addImportMetaType (JObj [("compilerOptions", JObj [])]) =
               Ok (JObj [("compilerOptions", JObj [("types", JArr [JStr vitestImportMeta])])]))
    by reflexivity.
  split; [exact H1|]. split; [exact H2|].
  exact (addImportMetaType_not_idempotent _ _ _ H1 H2).
Defined.

(** The spec's [ensureListedType] at the path [compilerOptions.types]. *)
Lemma ensureListedType_compilerOptions_types kvs co t :
  alist_get "compilerOptions" kvs = Some (JObj co) →
  Spec.ensureListedType (JObj kvs) ["compilerOptions"; "types"] t =
    match alist_get "types" co with
    | None => Ok (withTypes kvs co [JStr t])
    | Some (JArr xs) =>
        if existsb (jval_eqb (JStr t)) xs then Ok (JObj kvs)
        else Ok (withTypes kvs co (xs ++ [JStr t]))
    | Some _ => Err Spec.MalformedDocument
    end.
Proof.
  intros Hco. simpl. rewrite Hco. simpl. unfold withTypes.
  destruct (alist_get "types" co) as [[| | | |xs|]|]; try done.
  destruct existsb; [|done]. simpl. by rewrite alist_set_id.
Qed.

Lemma addImportMetaType_ensureListedType kvs co :
  alist_get "compilerOptions" kvs = Some (JObj co) →
  (alist_get "types" co = None ∨
   ∃ ts, alist_get "types" co = Some (JArr ts) ∧
         existsb (jval_eqb (JStr vitestImportMeta)) ts = false) →
  ∃ d, Spec.ensureListedType (JObj kvs) ["compilerOptions"; "types"] vitestImportMeta = Ok d ∧
       addImportMetaType (JObj kvs) = Ok d.
Proof.
  intros Hco Ht. rewrite (ensureListedType_compilerOptions_types _ _ _ Hco),
    (addImportMetaType_obj _ _ Hco).
  destruct Ht as [-> | (ts & -> & ->)]; eauto.
Qed.

(** C25 (refinement) When [compilerOptions] is an object and [types] is
    absent or an array without ['vitest/importMeta'], the callback of
    line 78 computes the spec's
    [ensureListedType(doc, 'compilerOptions.types', 'vitest/importMeta')]. *)
Theorem addImportMetaType_refines_ensureListedType kvs co :
  alist_get "compilerOptions" kvs = Some (JObj co) →
  (alist_get "types" co = None ∨
   ∃ ts, alist_get "types" co = Some (JArr ts) ∧
         existsb (jval_eqb (JStr vitestImportMeta)) ts = false) →
  ∃ d, Spec.ensureListedType (JObj kvs) ["compilerOptions"; "types"] vitestImportMeta = Ok d ∧
       addImportMetaType (JObj kvs) = Ok d.
Proof. apply addImportMetaType_ensureListedType. Qed.

Lemma addImportMetaType_refines_ensureListedType_witness :
  alist_get "compilerOptions" [("compilerOptions", JObj [])] = Some (JObj []) ∧
  ∃ d, Spec.ensureListedType (JObj [("compilerOptions", JObj [])]) ["compilerOptions"; "types"]
         vitestImportMeta = Ok d ∧
       addImportMetaType (JObj [("compilerOptions", JObj [])]) = Ok d.
Proof.
  split; [reflexivity|].
  apply (addImportMetaType_refines_ensureListedType _ []); [reflexivity|by left].
Defined.

(** C26 (divergence from spec section 4.1) When [types] already lists
    ['vitest/importMeta'], the spec's [ensureListedType] leaves the
    document unchanged while the callback of line 78 appends a duplicate
    entry. *)
Theorem addImportMetaType_duplicates_listed_type kvs co ts :
  alist_get "compilerOptions" kvs = Some (JObj co) →
  alist_get "types" co = Some (JArr ts) →
  existsb (jval_eqb (JStr vitestImportMeta)) ts = true →
  Spec.ensureListedType (JObj kvs) ["compilerOptions"; "types"] vitestImportMeta = Ok (JObj kvs) ∧
  addImportMetaType (JObj kvs) = Ok (withTypes kvs co (ts ++ [JStr vitestImportMeta])) ∧
  withTypes kvs co (ts ++ [JStr vitestImportMeta]) ≠ JObj kvs.
Proof.
  intros Hco Hts Hin.
  rewrite (ensureListedType_compilerOptions_types _ _ _ Hco),
    (addImportMetaType_obj _ _ Hco), Hts, Hin.
  split_and!; [done|done|]. intros Heq.
  assert (Hc := importMetaCount_withTypes kvs co (ts ++ [JStr vitestImportMeta])).
  rewrite Heq, (importMetaCount_obj _ _ Hco), Hts, count_if_app in Hc. simpl in Hc. lia.
Qed.

Lemma addImportMetaType_duplicates_listed_type_witness :
  alist_get "compilerOptions" [("compilerOptions", JObj [("types", JArr [JStr vitestImportMeta])])] =
    Some (JObj [("types", JArr [JStr vitestImportMeta])]) ∧
  alist_get "types" [("types", JArr [JStr vitestImportMeta])] = Some (JArr [JStr vitestImportMeta]) ∧
  existsb (jval_eqb (JStr vitestImportMeta)) [JStr vitestImportMeta] = true ∧
  Spec.ensureListedType (JObj [("compilerOptions", JObj [("types", JArr [JStr vitestImportMeta])])])
    ["compilerOptions"; "types"] vitestImportMeta =
    Ok (JObj [("compilerOptions", JObj [("types", JArr [JStr vitestImportMeta])])]) ∧
  addImportMetaType (JObj [("compilerOptions", JObj [("types", JArr [JStr vitestImportMeta])])]) =
    Ok (withTypes [("compilerOptions", JObj [("types", JArr [JStr vitestImportMeta])])]
                  [("types", JArr [JStr vitestImportMeta])]
                  ([JStr vitestImportMeta] ++ [JStr vitestImportMeta])) ∧
  withTypes [("compilerOptions", JObj [("types", JArr [JStr vitestImportMeta])])]
            [("types", JArr [JStr vitestImportMeta])]
            ([JStr vitestImportMeta] ++ [JStr vitestImportMeta]) ≠
    JObj [("compilerOptions", JObj [("types", JArr [JStr vitestImportMeta])])].
Proof.
  split; [reflexivity|]. split; [reflexivity|]. split; [reflexivity|].
  apply addImportMetaType_duplicates_listed_type; reflexivity.
Defined.

Lemma addImportMetaType_type_errors kvs :
  (alist_get "compilerOptions" kvs = None →
   addImportMetaType (JObj kvs) = Err (TypeError (ReadOfNullish "types"))) ∧
  (∀ v, alist_get "compilerOptions" kvs = Some v →
        (∃ b, v = JBool b) ∨ (∃ n, v = JNum n) ∨ (∃ s, v = JStr s) →
        addImportMetaType (JObj kvs) = Err (TypeError (CreateOnPrimitive "types"))) ∧
  (∀ co v, alist_get "compilerOptions" kvs = Some (JObj co) →
           alist_get "types" co = Some v → nullish (Some v) = false → (∀ l, v ≠ JArr l) →
           addImportMetaType (JObj kvs) = Err (TypeError (NotAFunction "push"))).
Proof.
  split_and!.
  - intros Hco. unfold addImportMetaType. simpl. by rewrite Hco.
  - intros v Hco Hv. unfold addImportMetaType. simpl. rewrite Hco.
    by destruct Hv as [[b ->]|[[n ->]|[s ->]]].
  - intros co v Hco Hts Hn Hna. rewrite (addImportMetaType_obj _ _ Hco), Hts.
    destruct v as [| | | |l|]; try done. by destruct (Hna l).
Qed.

(** C31 (error, spec gap) Without [compilerOptions] the callback throws
    [TypeError: Cannot read properties of undefined (reading 'types')];
    with a [compilerOptions] that is a boolean, number or string the
    strict-mode assignment of [??=] throws; with a [types] that is neither
    nullish nor an array, [.push] is not a function. *)
Theorem addImportMetaType_throws kvs :
  (alist_get "compilerOptions" kvs = None →
   addImportMetaType (JObj kvs) = Err (TypeError (ReadOfNullish "types"))) ∧
  (∀ v, alist_get "compilerOptions" kvs = Some v →
        (∃ b, v = JBool b) ∨ (∃ n, v = JNum n) ∨ (∃ s, v = JStr s) →
        addImportMetaType (JObj kvs) = Err (TypeError (CreateOnPrimitive "types"))) ∧
  (∀ co v, alist_get "compilerOptions" kvs = Some (JObj co) →
           alist_get "types" co = Some v → nullish (Some v) = false → (∀ l, v ≠ JArr l) →
           addImportMetaType (JObj kvs) = Err (TypeError (NotAFunction "push"))).
Proof. apply addImportMetaType_type_errors. Qed.

Lemma addImportMetaType_throws_witness :
  alist_get "compilerOptions" [("extends", JStr "./tsconfig.json")] = None ∧
  addImportMetaType (JObj [("extends", JStr "./tsconfig.json")]) =
    Err (TypeError (ReadOfNullish "types")) ∧
  addImportMetaType (JObj [("compilerOptions", JBool true)]) =
    Err (TypeError (CreateOnPrimitive "types")) ∧
  addImportMetaType (JObj [("compilerOptions", JObj [("types", JStr "node")])]) =
    Err (TypeError (NotAFunction "push")).
Proof.
  split_and!; [reflexivity| | |].
  - apply (proj1 (addImportMetaType_throws _)). reflexivity.
  - apply (proj1 (proj2 (addImportMetaType_throws _)) (JBool true)); [reflexivity|left; eauto].
  - apply (proj2 (proj2 (addImportMetaType_throws _)) [("types", JStr "node")] (JStr "node"));
      [reflexivity..|intros l; discriminate].
Defined.

Lemma addImportMetaType_array_noop kvs xs :
  alist_get "compilerOptions" kvs = Some (JArr xs) →
  addImportMetaType (JObj kvs) = Ok (JObj kvs).
Proof.
  intros Hco. unfold addImportMetaType. simpl. rewrite Hco. simpl.
  by rewrite alist_set_id.
Qed.

(** C32 (spec gap) When [compilerOptions] is an array, [??=] stores the new
    [types] array as a named property of that array, which
    [JSON.stringify] drops: the callback succeeds and the file is written
    back unchanged, without ['vitest/importMeta']. *)
Theorem addImportMetaType_array_compilerOptions kvs xs :
  alist_get "compilerOptions" kvs = Some (JArr xs) →
  addImportMetaType (JObj kvs) = Ok (JObj kvs).
Proof. apply addImportMetaType_array_noop. Qed.

Lemma addImportMetaType_array_compilerOptions_witness :
  alist_get "compilerOptions" [("compilerOptions", JArr [])] = Some (JArr []) ∧
  addImportMetaType (JObj [("compilerOptions", JArr [])]) = Ok (JObj [("compilerOptions", JArr [])]).
Proof.
  split; [reflexivity|]. apply (addImportMetaType_array_compilerOptions _ []). reflexivity.
Defined.

