(* ===== verification/JsonEquiv.v ===== *)
(** * JSON values up to the order of object keys

    A parsed tsconfig and the same file with its keys in another order
    are the same configuration: [JSON.parse] keeps key order, but nothing
    the generator or TypeScript reads depends on it.  [jequiv] is that
    equality: arrays element by element, objects key by key (each key
    reads, through [alist_get], equivalent values or is absent on both
    sides).  It is an [Equivalence] ([Equiv] of stdpp, written [≡]); the
    JavaScript operations of [JsValue] are [Proper] for it, and so are
    both callbacks of [TsConfig]: key order cannot change what they do.
    [jequivb] is a boolean test that implies [jequiv], for concrete
    documents. *)

From stdpp Require Import list.
From S2P Require Import Prelude JsValue TsConfig.
Local Set Warnings "-clear-no-such-hyp -register-all".

(** ** The relation *)

Inductive jequiv : jval → jval → Prop :=
| jequiv_null : jequiv JNull JNull
| jequiv_bool b : jequiv (JBool b) (JBool b)
| jequiv_num n : jequiv (JNum n) (JNum n)
| jequiv_str s : jequiv (JStr s) (JStr s)
| jequiv_arr xs ys : Forall2 jequiv xs ys → jequiv (JArr xs) (JArr ys)
| jequiv_obj kvs1 kvs2 :
    (∀ k, option_Forall2 jequiv (alist_get k kvs1) (alist_get k kvs2)) →
    jequiv (JObj kvs1) (JObj kvs2).

#[export] Instance jval_equiv : Equiv jval := jequiv.

(** Results: the same error, or equivalent values. *)
Inductive res_rel {E A} (R : relation A) : relation (result E A) :=
| res_rel_ok a b : R a b → res_rel R (Ok a) (Ok b)
| res_rel_err e : res_rel R (Err e) (Err e).

(** A boolean test for concrete documents: arrays element by element,
    every entry of the first object matched by the value the second reads
    at its key, and every key of the second read by the first. *)
Fixpoint jequivb (a b : jval) {struct a} : bool :=
  match a, b with
  | JNull, JNull => true
  | JBool x, JBool y => Bool.eqb x y
  | JNum x, JNum y => Z.eqb x y
  | JStr x, JStr y => String.eqb x y
  | JArr xs, JArr ys =>
      (fix go (xs ys : list jval) : bool :=
         match xs, ys with
         | [], [] => true
         | x :: xs', y :: ys' => jequivb x y && go xs' ys'
         | _, _ => false
         end) xs ys
  | JObj kvs1, JObj kvs2 =>
      (fix go (l : list (string * jval)) : bool :=
         match l with
         | [] => true
         | (k, v) :: l' =>
             match alist_get k kvs2 with Some w => jequivb v w | None => false end && go l'
         end) kvs1 &&
      forallb (λ kv, bool_decide (is_Some (alist_get kv.1 kvs1))) kvs2
  | _, _ => false
  end.

(** ** [jequiv] is an equivalence *)

Lemma jequiv_refl a : jequiv a a.
Proof.
  induction a as [| | | |xs IH|kvs IH] using jval_ind; constructor.
  - induction IH; by constructor.
  - intros k. destruct (alist_get k kvs) as [v|] eqn:Hk; constructor.
    apply alist_get_In in Hk. rewrite Forall_forall in IH. by apply (IH (k, v)).
Qed.

(** The value of a key of an object, with the induction hypothesis of its
    entries. *)
Lemma Forall_alist_get (P : jval → Prop) kvs k v :
  Forall (P ∘ snd) kvs → alist_get k kvs = Some v → P v.
Proof. intros HP Hk%alist_get_In. rewrite Forall_forall in HP. by apply (HP (k, v)). Qed.

Lemma jequiv_sym a b : jequiv a b → jequiv b a.
Proof.
  revert b. induction a as [|x|x|x|xs IH|kvs IH] using jval_ind;
    intros b Hab; inversion Hab as [| | | |? ys Hxy|? kvs2 Hk]; subst; clear Hab; try constructor.
  - revert ys Hxy. induction IH as [|x xs Hx IH' IHxs]; intros ys Hxy;
      inversion Hxy; subst; constructor; auto.
  - intros k. specialize (Hk k). inversion Hk as [v w Hvw Hv Hw|]; constructor.
    by apply (Forall_alist_get (λ v, ∀ b, jequiv v b → jequiv b v) kvs k v).
Qed.

Lemma jequiv_trans a b c : jequiv a b → jequiv b c → jequiv a c.
Proof.
  revert b c. induction a as [|x|x|x|xs IH|kvs IH] using jval_ind;
    intros b c Hab Hbc; inversion Hab as [| | | |? ys Hxy|? kvs2 Hk]; subst;
    inversion Hbc as [| | | |? zs Hyz|? kvs3 Hk']; subst; clear Hab Hbc; try constructor.
  - revert ys zs Hxy Hyz. induction IH as [|x xs Hx IH' IHxs]; intros ys zs Hxy Hyz;
      inversion Hxy; subst; inversion Hyz; subst; constructor; eauto.
  - intros k. specialize (Hk k). specialize (Hk' k).
    inversion Hk as [v w Hvw Hv Hw|Hv Hw]; rewrite <- Hw in Hk';
      inversion Hk' as [? u Hwu|]; subst; constructor.
    by apply (Forall_alist_get (λ v, ∀ b c, jequiv v b → jequiv b c → jequiv v c) kvs k v IH
                (eq_sym Hv) w u).
Qed.

#[export] Instance jequiv_equivalence : Equivalence jequiv.
Proof. split; red; [apply jequiv_refl|apply jequiv_sym|apply jequiv_trans]. Qed.

#[export] Instance res_rel_equivalence {E A} (R : relation A) :
  Equivalence R → Equivalence (@res_rel E A R).
Proof.
  intros HR. split.
  - intros [a|e]; constructor; reflexivity.
  - intros m1 m2 [a b Hab|e]; constructor; by symmetry.
  - intros m1 m2 m3 [a b Hab|e] H23; inversion H23; subst; constructor; by etransitivity.
Qed.

Lemma jequivb_entries kvs1 kvs2 :
  (fix go (l : list (string * jval)) : bool :=
     match l with
     | [] => true
     | (k, v) :: l' =>
         match alist_get k kvs2 with Some w => jequivb v w | None => false end && go l'
     end) kvs1 =
  forallb (λ kv, match alist_get kv.1 kvs2 with Some w => jequivb kv.2 w | None => false end) kvs1.
Proof. induction kvs1 as [|[k v] l IH]; simpl; [done|]. by rewrite IH. Qed.

Lemma jequivb_sound a b : jequivb a b = true → jequiv a b.
Proof.
  revert b. induction a as [|x|x|x|xs IH|kvs1 IH] using jval_ind;
    intros [|y|y|y|ys|kvs2] H; simpl in H; try discriminate.
  - constructor.
  - apply Bool.eqb_prop in H as ->. constructor.
  - apply Z.eqb_eq in H as ->. constructor.
  - apply String.eqb_eq in H as ->. constructor.
  - constructor. revert ys H. induction IH as [|x xs Hx _ IHxs]; intros [|y ys] H;
      try discriminate; constructor; apply andb_true_iff in H as [H1 H2]; auto.
  - rewrite jequivb_entries in H. apply andb_true_iff in H as [Hent Hback].
    rewrite forallb_forall in Hent, Hback. constructor. intros k.
    destruct (alist_get k kvs1) as [v|] eqn:Hk1.
    + pose proof (alist_get_In _ _ _ Hk1) as Hin%list_elem_of_In.
      specialize (Hent _ Hin). simpl in Hent.
      destruct (alist_get k kvs2) as [w|]; [|discriminate]. constructor.
      by apply (Forall_alist_get (λ v, ∀ b, jequivb v b = true → jequiv v b) kvs1 k v).
    + destruct (alist_get k kvs2) as [w|] eqn:Hk2; [|constructor].
      apply alist_get_In, list_elem_of_In, Hback, bool_decide_eq_true in Hk2.
      simpl in Hk2. rewrite Hk1 in Hk2. by destruct Hk2.
Qed.

(** ** The result monad respects the relations *)

Lemma res_bind_rel {E A B} (RA : relation A) (RB : relation B)
    (m1 m2 : result E A) f g :
  res_rel RA m1 m2 → (∀ a b, RA a b → res_rel RB (f a) (g b)) →
  res_rel RB (res_bind m1 f) (res_bind m2 g).
Proof. intros [a b Hab|e] Hfg; simpl; [by apply Hfg|constructor]. Qed.

Lemma res_rel_eq {E A} (m1 m2 : result E A) : res_rel eq m1 m2 ↔ m1 = m2.
Proof. split; [by intros [? ? ->|]|intros ->; destruct m2; by constructor]. Qed.

(** ** The operations of the language respect key order *)

Lemma jequiv_obj_get kvs1 kvs2 k :
  jequiv (JObj kvs1) (JObj kvs2) → option_Forall2 jequiv (alist_get k kvs1) (alist_get k kvs2).
Proof. inversion 1; subst. auto. Qed.

Lemma jequiv_obj_set kvs1 kvs2 k v1 v2 :
  jequiv (JObj kvs1) (JObj kvs2) → jequiv v1 v2 →
  jequiv (JObj (alist_set k v1 kvs1)) (JObj (alist_set k v2 kvs2)).
Proof.
  intros Hkvs Hv. constructor. intros k'. destruct (decide (k = k')) as [<-|Hne].
  - rewrite !alist_get_set_eq. by constructor.
  - rewrite !alist_get_set_ne by done. by apply jequiv_obj_get.
Qed.

#[export] Instance get_prop_proper :
  Proper (option_Forall2 jequiv ==> eq ==> res_rel (option_Forall2 jequiv)) get_prop.
Proof.
  intros o1 o2 [a b Hab|] k ? <-; [|constructor].
  inversion Hab; subst; repeat constructor. by apply jequiv_obj_get.
Qed.

#[export] Instance set_prop_proper :
  Proper (option_Forall2 jequiv ==> eq ==> jequiv ==> res_rel jequiv) set_prop.
Proof.
  intros o1 o2 [a b Hab|] k ? <- x1 x2 Hx; [|constructor].
  inversion Hab; subst; try constructor; [done|]. by apply jequiv_obj_set.
Qed.

#[export] Instance js_push_proper :
  Proper (option_Forall2 jequiv ==> jequiv ==> res_rel jequiv) js_push.
Proof.
  intros o1 o2 [a b Hab|] x1 x2 Hx; [|constructor].
  inversion Hab; subst; try constructor. constructor. apply Forall2_app; [done|by constructor].
Qed.

#[export] Instance truthy_proper : Proper (option_Forall2 jequiv ==> eq) truthy.
Proof. intros o1 o2 [a b Hab|]; [|done]. by inversion Hab. Qed.

#[export] Instance nullish_proper : Proper (option_Forall2 jequiv ==> eq) nullish.
Proof. intros o1 o2 [a b Hab|]; [|done]. by inversion Hab. Qed.

#[export] Instance strict_eq_str_proper : Proper (option_Forall2 jequiv ==> eq ==> eq) strict_eq_str.
Proof. intros o1 o2 [a b Hab|] s ? <-; [|done]. by inversion Hab. Qed.

Lemma some_list_proper p q xs ys :
  (∀ a b, jequiv a b → p a = q b) → Forall2 jequiv xs ys → some_list p xs = some_list q ys.
Proof.
  intros Hpq Hxy. induction Hxy as [|x y xs ys Hxy _ IH]; [done|]. simpl.
  rewrite (Hpq x y Hxy). destruct (q y) as [[]|]; simpl; auto.
Qed.

Lemma js_some_proper p q o1 o2 :
  (∀ a b, jequiv a b → p a = q b) → option_Forall2 jequiv o1 o2 → js_some o1 p = js_some o2 q.
Proof.
  intros Hpq [a b Hab|]; [|done].
  inversion Hab; subst; try done. by apply some_list_proper.
Qed.

Lemma isSpecReference_proper a b : jequiv a b → isSpecReference a = isSpecReference b.
Proof.
  intros Hab. apply res_rel_eq. unfold isSpecReference.
  eapply res_bind_rel; [apply get_prop_proper; by constructor|].
  intros p1 p2 Hp. rewrite (strict_eq_str_proper _ _ Hp _ _ eq_refl). by constructor.
Qed.

(** One step of a callback: the operation is [Proper], the rest follows. *)
Ltac rel_step :=
  eapply res_bind_rel;
  [ first [ apply get_prop_proper | apply set_prop_proper | apply js_push_proper ];
    try (by constructor); try done; try reflexivity
  | intros ?? ? ].

(** ** The callbacks respect key order *)

Lemma updateReferences_respects j1 j2 :
  jequiv j1 j2 → res_rel jequiv (updateReferences j1) (updateReferences j2).
Proof.
  intros Hj. unfold updateReferences. rel_step.
  match goal with H : option_Forall2 _ ?r1 ?r2 |- _ => rewrite (truthy_proper r1 r2 H) end.
  destruct (truthy _); [|by constructor].
  rel_step.
  match goal with H : option_Forall2 _ ?r1 ?r2 |- _ =>
    rewrite (js_some_proper isSpecReference isSpecReference r1 r2 isSpecReference_proper H) end.
  destruct (js_some _ _) as [[]|e]; rewrite ?bind_Ok, ?bind_Err; cbv beta iota;
    [by constructor| |constructor].
  rel_step. rel_step. by apply set_prop_proper; [constructor| |].
Qed.

Lemma addImportMetaType_respects j1 j2 :
  jequiv j1 j2 → res_rel jequiv (addImportMetaType j1) (addImportMetaType j2).
Proof.
  intros Hj. unfold addImportMetaType. rel_step. rel_step.
  match goal with H : option_Forall2 _ ?t1 ?t2 |- _ => rewrite (nullish_proper t1 t2 H) end.
  destruct (nullish _).
  - rel_step. rel_step. rel_step. by apply set_prop_proper; [constructor| |].
  - rel_step. rel_step. by apply set_prop_proper; [constructor| |].
Qed.

#[export] Instance updateReferences_proper :
  Proper ((≡) ==> res_rel (≡)) updateReferences := updateReferences_respects.

#[export] Instance addImportMetaType_proper :
  Proper ((≡) ==> res_rel (≡)) addImportMetaType := addImportMetaType_respects.

