(* ===== verification/TsTypes.v ===== *)
(** * The declared types of the tsconfig fields the callbacks touch

    TypeScript's schema of [tsconfig.json] gives the two fields the
    callbacks of [updateTsConfig] rewrite a type:
    [references?: { path: string }[]] and
    [compilerOptions?: { types?: string[] }].  [tsconfigTyped] checks a
    parsed value against that type (an absent optional field is
    accepted).  The theorems of this file are type soundness for the two
    callbacks of [TsConfig]: on a well-typed document neither throws (for
    [addImportMetaType], once [compilerOptions] is present, as line 78
    dereferences it) and both return a well-typed document. *)

From S2P Require Import Prelude JsValue TsConfig.
Local Set Warnings "-clear-no-such-hyp".

(** ** The types *)

Definition isJStr (v : jval) : bool :=
  match v with JStr _ => true | _ => false end.

(** An optional field: absent, or present with the type [P]. *)
Definition optTyped (P : jval → bool) (v : option jval) : bool :=
  match v with None => true | Some x => P x end.

(** [T[]]. *)
Definition arrayOf (P : jval → bool) (v : jval) : bool :=
  match v with JArr xs => forallb P xs | _ => false end.

(** [{ path: string }]. *)
Definition referenceTyped (r : jval) : bool :=
  match r with
  | JObj kvs => match alist_get "path" kvs with Some p => isJStr p | None => false end
  | _ => false
  end.

(** [{ types?: string[] }]. *)
Definition compilerOptionsTyped (co : jval) : bool :=
  match co with JObj kvs => optTyped (arrayOf isJStr) (alist_get "types" kvs) | _ => false end.

(** [{ references?: { path: string }[]; compilerOptions?: { types?: string[] } }]. *)
Definition tsconfigTyped (j : jval) : bool :=
  match j with
  | JObj kvs =>
      optTyped (arrayOf referenceTyped) (alist_get "references" kvs) &&
      optTyped compilerOptionsTyped (alist_get "compilerOptions" kvs)
  | _ => false
  end.

(** ** Lemmas *)

Lemma referenceTyped_nonnull refs :
  forallb referenceTyped refs = true → Forall (λ r, r ≠ JNull) refs.
Proof.
  rewrite forallb_forall, List.Forall_forall. intros H r Hr ->. by apply H in Hr.
Qed.

Lemma specReference_typed : referenceTyped specReference = true.
Proof. reflexivity. Qed.

Lemma tsconfigTyped_obj kvs :
  tsconfigTyped (JObj kvs) = true ↔
  optTyped (arrayOf referenceTyped) (alist_get "references" kvs) = true ∧
  optTyped compilerOptionsTyped (alist_get "compilerOptions" kvs) = true.
Proof. apply andb_true_iff. Qed.

(** Setting a field to a value of its type keeps the document typed. *)
Lemma tsconfigTyped_set_references kvs refs :
  tsconfigTyped (JObj kvs) = true → forallb referenceTyped refs = true →
  tsconfigTyped (JObj (alist_set "references" (JArr refs) kvs)) = true.
Proof.
  rewrite !tsconfigTyped_obj. intros [_ Hco] Hr.
  by rewrite alist_get_set_eq, alist_get_set_ne.
Qed.

Lemma tsconfigTyped_withTypes kvs co ts :
  tsconfigTyped (JObj kvs) = true → forallb isJStr ts = true →
  tsconfigTyped (withTypes kvs co ts) = true.
Proof.
  unfold withTypes. rewrite !tsconfigTyped_obj. intros [Hr _] Hts.
  rewrite alist_get_set_ne, alist_get_set_eq by done. simpl.
  by rewrite alist_get_set_eq.
Qed.

#[export] Hint Resolve referenceTyped_nonnull specReference_typed
  tsconfigTyped_set_references tsconfigTyped_withTypes : vitest.

(** ** Type soundness of the callbacks *)

(** C19 (type) The callback of lines 58-68 is type-sound: on a
    [tsconfig.json] whose [references] and [compilerOptions] have their
    declared types, it does not throw, and what it writes back has them
    too (the appended [{ path: './tsconfig.spec.json' }] is a
    [{ path: string }]). *)
Theorem updateReferences_typed j :
  tsconfigTyped j = true → ∃ j', updateReferences j = Ok j' ∧ tsconfigTyped j' = true.
Proof.
  destruct j as [| | | | |kvs]; try done. intros Hty.
  pose proof Hty as [Hr _]%tsconfigTyped_obj.
  rewrite updateReferences_obj. simpl.
  destruct (alist_get "references" kvs) as [[| | | |refs|]|] eqn:Href; try done; simpl;
    [|by eexists].
  simpl in Hr. rewrite some_isSpecReference by auto with vitest. simpl.
  destruct existsb; simpl; eexists; split; try done.
  apply tsconfigTyped_set_references; [done|]. by rewrite forallb_app, Hr.
Qed.

Lemma updateReferences_typed_witness :
  tsconfigTyped (JObj [("files", JArr []);
                       ("references", JArr [JObj [("path", JStr "./tsconfig.lib.json")]])]) = true ∧
  ∃ j', updateReferences (JObj [("files", JArr []);
                       ("references", JArr [JObj [("path", JStr "./tsconfig.lib.json")]])]) = Ok j' ∧
        tsconfigTyped j' = true.
Proof. split; [reflexivity|]. apply updateReferences_typed. reflexivity. Defined.

(** C20 (type) The callback of lines 78-79 (and 86-88) is type-sound: on a
    document whose fields have their declared types and whose
    [compilerOptions] is present, it does not throw, and the [types] it
    writes is again a [string[]]. *)
Theorem addImportMetaType_typed kvs co :
  tsconfigTyped (JObj kvs) = true → alist_get "compilerOptions" kvs = Some co →
  ∃ j', addImportMetaType (JObj kvs) = Ok j' ∧ tsconfigTyped j' = true.
Proof.
  intros Hty Hco. pose proof Hty as [_ Hc]%tsconfigTyped_obj.
  rewrite Hco in Hc. destruct co as [| | | | |co]; try done.
  rewrite (addImportMetaType_obj _ _ Hco). simpl in Hc.
  destruct (alist_get "types" co) as [[| | | |ts|]|]; try done;
    eexists; (split; [done|]); apply tsconfigTyped_withTypes; try done.
  simpl in Hc. by rewrite forallb_app, Hc.
Qed.

Lemma addImportMetaType_typed_witness :
  tsconfigTyped (JObj [("extends", JStr "./tsconfig.json");
                       ("compilerOptions", JObj [("types", JArr [JStr "node"])])]) = true ∧
  alist_get "compilerOptions" [("extends", JStr "./tsconfig.json");
                               ("compilerOptions", JObj [("types", JArr [JStr "node"])])] =
    Some (JObj [("types", JArr [JStr "node"])]) ∧
  ∃ j', addImportMetaType (JObj [("extends", JStr "./tsconfig.json");
                                 ("compilerOptions", JObj [("types", JArr [JStr "node"])])]) = Ok j' ∧
        tsconfigTyped j' = true.
Proof.
  split; [reflexivity|]. split; [reflexivity|].
  by apply (addImportMetaType_typed _ (JObj [("types", JArr [JStr "node"])])).
Defined.

(** ** Both callbacks keep a document typed when they return *)

Lemma updateReferences_preserves_typed j j' :
  tsconfigTyped j = true → updateReferences j = Ok j' → tsconfigTyped j' = true.
Proof.
  intros Hty Hrun. destruct j as [| | | | |kvs]; try done.
  pose proof Hty as [Hr _]%tsconfigTyped_obj.
  destruct (updateReferences_obj_ok _ _ Hrun) as [[-> _]|(refs & Href & _ & ->)]; [done|].
  rewrite Href in Hr. simpl in Hr.
  apply tsconfigTyped_set_references; [done|]. by rewrite forallb_app, Hr.
Qed.

Lemma addImportMetaType_preserves_typed j j' :
  tsconfigTyped j = true → addImportMetaType j = Ok j' → tsconfigTyped j' = true.
Proof.
  intros Hty Hrun. destruct j as [| | | | |kvs]; try done.
  pose proof Hty as [_ Hc]%tsconfigTyped_obj.
  destruct (alist_get "compilerOptions" kvs) as [co|] eqn:Hco;
    [|unfold addImportMetaType in Hrun; simpl in Hrun; by rewrite Hco in Hrun].
  destruct co as [| | | | |co]; try done. simpl in Hc.
  rewrite (addImportMetaType_obj _ _ Hco) in Hrun.
  destruct (alist_get "types" co) as [[| | | |ts|]|]; try done; injection Hrun as <-;
    apply tsconfigTyped_withTypes; try done. simpl in Hc. by rewrite forallb_app, Hc.
Qed.
