(* ===== verification/Devkit.v ===== *)
(** * The host: Nx devkit functions and the generator's collaborators

    Everything here is code of the Nx repository outside [src/]
    ([@nrwl/devkit], [@nrwl/workspace], [../../utils/generator-utils],
    [../init/init]), modelled from the spec's section 6 (the host virtual
    file system and JSON serialisation), section 7 (its errors) and
    section 9 (the serial task runner):
    - [Tree]: the virtual file tree, parsed JSON files as values;
    - [tree_exists], [readJson], [writeJson], [updateJson];
    - [joinPathFragments]: Node's [path.join] of the fragments;
    - [offsetFromRoot]: one ['../'] per segment of a project root;
    - [readProjectConfiguration];
    - [runTasksInSerial]: the sequential combinator of install tasks;
    - the interface [Collaborators] of the steps the generator only
      delegates to, and [CollaboratorLaws], what it needs of them: they
      leave the project's tsconfig files alone. *)

From Stdlib Require Import Ascii.
From stdpp Require Import gmap.
From S2P Require Import Prelude JsValue.
Local Set Warnings "-clear-no-such-hyp".
Local Open Scope string_scope.

(** ** Paths *)

(** [s.split('/')] *)
Fixpoint split_slash (s : string) : list string :=
  match s with
  | EmptyString => [""]
  | String c rest =>
      if Ascii.eqb c "/"%char then "" :: split_slash rest
      else match split_slash rest with
           | [] => [String c ""]
           | seg :: segs => String c seg :: segs
           end
  end.

Definition starts_with_slash (s : string) : bool :=
  match s with String c _ => Ascii.eqb c "/"%char | EmptyString => false end.

Fixpoint ends_with_slash (s : string) : bool :=
  match s with
  | EmptyString => false
  | String c EmptyString => Ascii.eqb c "/"%char
  | String _ rest => ends_with_slash rest
  end.

(** One segment of Node's [normalizeString]; [stack] is reversed. *)
Definition resolve_segment (allowAboveRoot : bool) (stack : list string) (seg : string)
    : list string :=
  if String.eqb seg "" || String.eqb seg "." then stack
  else if String.eqb seg ".." then
    match stack with
    | top :: rest =>
        if String.eqb top ".." then (if allowAboveRoot then ".." :: stack else stack)
        else rest
    | [] => if allowAboveRoot then [".."] else []
    end
  else seg :: stack.

(** Node's [path.posix.normalize]. *)
Definition path_normalize (p : string) : string :=
  if String.eqb p "" then "." else
  let isAbsolute := starts_with_slash p in
  let trailing := ends_with_slash p in
  let body := String.concat "/"
                (rev (fold_left (resolve_segment (negb isAbsolute)) (split_slash p) [])) in
  if String.eqb body "" then
    (if isAbsolute then "/" else if trailing then "./" else ".")
  else
    let body := if trailing then String.append body "/" else body in
    if isAbsolute then String.append "/" body else body.

(** Node's [path.posix.join]: the non-empty fragments joined by ['/'],
    then normalised. *)
Definition joinPathFragments (fragments : list string) : string :=
  match filter (λ f, f ≠ "") fragments with
  | [] => "."
  | f :: fs => path_normalize (fold_left (λ acc x, String.append acc (String.append "/" x)) fs f)
  end.

(** [offsetFromRoot(dir)]: ['../'] for every non-empty segment of
    [normalize(dir).split(sep)] (devkit's [offset-from-root.ts]). *)
Definition offsetFromRoot (fullPathToDir : string) : string :=
  fold_left (λ acc part, if String.eqb part "" then acc else String.append acc "../")
            (split_slash (path_normalize fullPathToDir)) "".

(** ** The tree *)

Inductive file : Type :=
| FJson (v : jval)        (** a file [parseJson] accepts, as its value *)
| FText (s : string).     (** any other file *)

Record TargetConfiguration := { executor : string; targetOptions : jval }.

Record ProjectConfiguration := {
  root : string;
  targets : list (string * TargetConfiguration)
}.

Record Tree := mkTree {
  files : gmap string file;
  projects : gmap string ProjectConfiguration
}.

Definition tree_exists (t : Tree) (p : string) : bool :=
  bool_decide (is_Some (files t !! p)).

(** [readJson(tree, path)]: [Cannot find] when absent, a parse error
    when not JSON. *)
Definition readJson (t : Tree) (p : string) : js jval :=
  match files t !! p with
  | None => throw (NotFound p)
  | Some (FJson v) => Ok v
  | Some (FText _) => throw (ParseError p)
  end.

(** [writeJson(tree, path, value)]. *)
Definition writeJson (t : Tree) (p : string) (v : jval) : Tree :=
  mkTree (<[p := FJson v]> (files t)) (projects t).

(** [updateJson(tree, path, updater)]: read, update, write back. *)
Definition updateJson (t : Tree) (p : string) (updater : jval → js jval) : js Tree :=
  v <- readJson t p ;;
  v' <- updater v ;;
  Ok (writeJson t p v').

(** [readProjectConfiguration(tree, projectName)]. *)
Definition readProjectConfiguration (t : Tree) (name : string) : js ProjectConfiguration :=
  match projects t !! name with
  | Some pc => Ok pc
  | None => throw (ProjectNotFound name)
  end.

(** ** Tasks *)

(** A [GeneratorCallback], run after the tree is flushed, acting on the
    world outside the tree (installing packages). *)
Definition task (W : Type) : Type := W → js W.

(** [runTasksInSerial(...tasks)]: [for (const task of tasks) await task();] *)
Fixpoint runTasksInSerial {W} (tasks : list (task W)) : task W :=
  match tasks with
  | [] => λ w, Ok w
  | t :: rest => λ w, w' <- t w ;; runTasksInSerial rest w'
  end.

(** ** Lemmas on paths *)

(** A file name: non-empty, not [.] or [..], without ['/']. *)
Fixpoint no_slash (s : string) : bool :=
  match s with
  | EmptyString => true
  | String c rest => negb (Ascii.eqb c "/"%char) && no_slash rest
  end.

Definition plain_name (a : string) : bool :=
  negb (String.eqb a "") && negb (String.eqb a ".") && negb (String.eqb a "..") && no_slash a.

Lemma append_nil (y : string) : String.append "" y = y.
Proof. reflexivity. Qed.

Lemma append_cons c (x y : string) : String.append (String c x) y = String c (String.append x y).
Proof. reflexivity. Qed.

Lemma string_app_assoc (x y z : string) :
  String.append (String.append x y) z = String.append x (String.append y z).
Proof. induction x as [|c x IH]; [done|]. by rewrite !append_cons, IH. Qed.

Lemma split_slash_nonempty s : split_slash s ≠ [].
Proof.
  induction s as [|c s IH]; simpl; [done|].
  destruct (Ascii.eqb c _); [done|]. by destruct (split_slash s).
Qed.

Lemma split_slash_no_slash a : no_slash a = true → split_slash a = [a].
Proof.
  induction a as [|c a IH]; simpl; [done|].
  intros [Hc Ha]%andb_true_iff. apply negb_true_iff in Hc. rewrite Hc, IH by done. done.
Qed.

Lemma split_slash_snoc x a :
  no_slash a = true →
  split_slash (String.append x (String.append "/" a)) = (split_slash x ++ [a])%list.
Proof.
  intros Ha. induction x as [|c x IH].
  - rewrite append_nil. simpl. by rewrite split_slash_no_slash.
  - rewrite (append_cons c x). simpl.
    rewrite IH. destruct (Ascii.eqb c _); [done|].
    pose proof (split_slash_nonempty x). by destruct (split_slash x).
Qed.

Lemma ends_with_slash_app x a :
  a ≠ "" → ends_with_slash (String.append x a) = ends_with_slash a.
Proof.
  intros Ha. induction x as [|c x IH]; [done|]. rewrite append_cons. simpl.
  rewrite IH. destruct x; simpl; [by destruct a|done].
Qed.

Lemma ends_with_slash_no_slash a : no_slash a = true → ends_with_slash a = false.
Proof.
  induction a as [|c a IH]; simpl; [done|].
  intros [Hc Ha]%andb_true_iff. apply negb_true_iff in Hc.
  destruct a; [done|]. by apply IH.
Qed.

Lemma concat_snoc (l : list string) a :
  String.concat "/" (l ++ [a])%list =
    match l with [] => a | _ => String.append (String.concat "/" l) (String.append "/" a) end.
Proof.
  induction l as [|x l IH]; [done|]. simpl.
  destruct l as [|y l]; [done|]. rewrite IH. simpl. by rewrite string_app_assoc.
Qed.

Lemma resolve_plain allow stack a :
  plain_name a = true → resolve_segment allow stack a = a :: stack.
Proof.
  unfold plain_name, resolve_segment. intros Ha.
  repeat (apply andb_true_iff in Ha as [Ha ?]). apply negb_true_iff in Ha.
  rewrite Ha. repeat match goal with H : negb _ = true |- _ => apply negb_true_iff in H end.
  by simplify_eq/=; repeat match goal with H : String.eqb _ _ = false |- _ => rewrite H end.
Qed.

Lemma append_eq_empty (x y : string) : String.append x y = "" → x = "" ∧ y = "".
Proof. destruct x; [done|]. by rewrite append_cons. Qed.

Lemma no_slash_starts a : no_slash a = true → starts_with_slash a = false.
Proof. destruct a; simpl; [done|]. intros [?%negb_true_iff _]%andb_true_iff. done. Qed.

Lemma concat_snoc_nonempty (l : list string) a :
  a ≠ "" → String.concat "/" (l ++ [a])%list ≠ "".
Proof.
  intros Ha. rewrite concat_snoc. destruct l; [done|].
  intros (_ & Hy)%append_eq_empty. apply append_eq_empty in Hy as [Hy _]. discriminate.
Qed.

(** The segments of a project root that the join keeps. *)
Definition root_segments (r : string) : list string :=
  if String.eqb r "" then [] else split_slash r.

(** Joining a file name onto a root: the root's resolved segments, then
    the name. *)
Lemma joinPathFragments_plain r a :
  plain_name a = true →
  joinPathFragments [r; a] =
    let abs := starts_with_slash r in
    let body := String.concat "/"
      (rev (fold_left (resolve_segment (negb abs)) (root_segments r) []) ++ [a])%list in
    if abs then String.append "/" body else body.
Proof.
  intros Hplain. pose proof Hplain as Hp.
  unfold plain_name in Hp. apply andb_true_iff in Hp as [Hp Hns].
  apply andb_true_iff in Hp as [Hp _]. apply andb_true_iff in Hp as [Hne _].
  apply negb_true_iff, String.eqb_neq in Hne.
  unfold joinPathFragments, root_segments.
  destruct (String.eqb_spec r "") as [->|Hr].
  - assert (filter (λ f, f ≠ "") [""; a] = [a]) as -> by
      (rewrite !filter_cons, filter_nil; repeat case_decide; first [done | congruence | tauto]).
    simpl. unfold path_normalize. rewrite (proj2 (String.eqb_neq _ _) Hne).
    rewrite no_slash_starts, ends_with_slash_no_slash, split_slash_no_slash by done.
    simpl. rewrite resolve_plain by done. simpl.
    by rewrite (proj2 (String.eqb_neq _ _) Hne).
  - assert (filter (λ f, f ≠ "") [r; a] = [r; a]) as -> by
      (rewrite !filter_cons, filter_nil; repeat case_decide; first [done | congruence | tauto]).
    simpl. unfold path_normalize.
    assert (Hsl : starts_with_slash (String.append r (String.append "/" a)) = starts_with_slash r)
      by (destruct r; done).
    assert (Hen : ends_with_slash (String.append r (String.append "/" a)) = false).
    { rewrite <- string_app_assoc, ends_with_slash_app by done.
      by apply ends_with_slash_no_slash. }
    assert (Hnz : String.eqb (String.append r (String.append "/" a)) "" = false).
    { apply String.eqb_neq. intros (? & _)%append_eq_empty. done. }
    rewrite Hnz, Hsl, Hen, split_slash_snoc, fold_left_app by done. simpl.
    rewrite resolve_plain by done. simpl.
    rewrite (proj2 (String.eqb_neq _ _) (concat_snoc_nonempty _ _ Hne)).
    done.
Qed.

(** The joined path is the name, or some directory, ['/'], the name. *)
Lemma joinPathFragments_shape r a :
  plain_name a = true →
  joinPathFragments [r; a] = a ∨
  ∃ x, joinPathFragments [r; a] = String.append x (String.append "/" a).
Proof.
  intros Ha. rewrite joinPathFragments_plain by done. simpl.
  rewrite concat_snoc. set (l := rev _).
  destruct (starts_with_slash r), l as [|y l]; [right; by exists ""|right|left; done|right].
  - exists (String.append "/" (String.concat "/" (y :: l))). by rewrite string_app_assoc.
  - by exists (String.concat "/" (y :: l)).
Qed.

(** Whatever the project root [r] (relative, absolute,
    with [.] or [..] segments, empty), the path [joinPathFragments(r, a)]
    ends with the segment [a] for a plain file name [a]; hence the
    [tsconfig.json], [tsconfig.lib.json] and [tsconfig.app.json] the
    generator addresses are three different files, and differ from any
    [vite.config.ts] or [tsconfig.spec.json] of any root. *)
Lemma joinPathFragments_basename r a :
  plain_name a = true → last (split_slash (joinPathFragments [r; a])) = Some a.
Proof.
  intros Ha. assert (Hns : no_slash a = true) by
    (unfold plain_name in Ha; by apply andb_true_iff in Ha as [_ ?]).
  destruct (joinPathFragments_shape r a Ha) as [-> | (x & ->)].
  - by rewrite split_slash_no_slash.
  - by rewrite split_slash_snoc, last_snoc.
Qed.

(** Paths that end in different file names differ, whatever the roots. *)
Lemma joinPathFragments_ne r1 r2 a b :
  plain_name a = true → plain_name b = true → a ≠ b →
  joinPathFragments [r1; a] ≠ joinPathFragments [r2; b].
Proof.
  intros Ha Hb Hab Heq. apply Hab.
  pose proof (joinPathFragments_basename r1 a Ha) as H1.
  rewrite Heq, joinPathFragments_basename in H1 by done. congruence.
Qed.

(** ** Lemmas on the tree *)

Lemma readJson_writeJson_eq t p v : readJson (writeJson t p v) p = Ok v.
Proof. unfold readJson, writeJson. simpl. by rewrite lookup_insert_eq. Qed.

Lemma readJson_writeJson_ne t p q v : p ≠ q → readJson (writeJson t p v) q = readJson t q.
Proof. intros Hne. unfold readJson, writeJson. simpl. by rewrite lookup_insert_ne. Qed.

Lemma files_writeJson_ne t p q v : p ≠ q → files (writeJson t p v) !! q = files t !! q.
Proof. intros Hne. simpl. by rewrite lookup_insert_ne. Qed.

Lemma tree_exists_writeJson t p q v :
  tree_exists (writeJson t p v) q = bool_decide (p = q) || tree_exists t q.
Proof.
  unfold tree_exists, writeJson. simpl. rewrite lookup_insert.
  case_decide as Hpq.
  - rewrite (bool_decide_eq_true_2 (p = q)) by done.
    by apply bool_decide_eq_true_2.
  - by rewrite (bool_decide_eq_false_2 (p = q)).
Qed.

Lemma readJson_exists t p v : readJson t p = Ok v → tree_exists t p = true.
Proof.
  unfold readJson, tree_exists. intros H. apply bool_decide_eq_true.
  destruct (files t !! p); [done|discriminate].
Qed.

Lemma readJson_not_exists t p : tree_exists t p = false → readJson t p = Err (NotFound p).
Proof.
  unfold readJson, tree_exists. intros H%bool_decide_eq_false.
  destruct (files t !! p); [by destruct H|done].
Qed.

(** [updateJson] succeeds exactly when the file reads and the callback
    returns, and then writes the callback's result. *)
Lemma updateJson_ok t p f t' :
  updateJson t p f = Ok t' ↔
  ∃ v v', readJson t p = Ok v ∧ f v = Ok v' ∧ t' = writeJson t p v'.
Proof.
  unfold updateJson. split.
  - intros H. inv_ok. eauto.
  - intros (v & v' & Hr & Hf & ->). by rewrite Hr; simpl; rewrite Hf.
Qed.

(** After a successful [updateJson(tree, p, f)], reading
    [p] gives back the callback's result on the file's old contents, and
    every other path reads as before. *)
Lemma readJson_updateJson t p f t' q :
  updateJson t p f = Ok t' →
  readJson t' q = if bool_decide (p = q) then (v <- readJson t p ;; f v) else readJson t q.
Proof.
  intros (v & v' & Hr & Hf & ->)%updateJson_ok. case_bool_decide as Hpq.
  - subst. by rewrite readJson_writeJson_eq, Hr; simpl.
  - by rewrite readJson_writeJson_ne.
Qed.

Lemma files_updateJson_ne t p f t' q :
  updateJson t p f = Ok t' → p ≠ q → files t' !! q = files t !! q.
Proof. intros (v & v' & _ & _ & ->)%updateJson_ok Hne. by apply files_writeJson_ne. Qed.

Lemma tree_exists_updateJson t p f t' q :
  updateJson t p f = Ok t' → tree_exists t' q = tree_exists t q.
Proof.
  intros (v & v' & Hr & _ & ->)%updateJson_ok. rewrite tree_exists_writeJson.
  case_bool_decide; [subst; by rewrite (readJson_exists _ _ _ Hr)|done].
Qed.

Lemma projects_updateJson t p f t' :
  updateJson t p f = Ok t' → projects t' = projects t.
Proof. by intros (v & v' & _ & _ & ->)%updateJson_ok. Qed.

(** ** Lemmas on tasks *)

(** Spec section 9: [runTasksInSerial] is sequential
    composition: running a concatenation of task lists runs the first
    list, then, if it did not fail, the second from the state it left. *)
Lemma runTasksInSerial_app {W} (ts1 ts2 : list (task W)) w :
  runTasksInSerial (ts1 ++ ts2) w = (w' <- runTasksInSerial ts1 w ;; runTasksInSerial ts2 w').
Proof.
  revert w. induction ts1 as [|t ts1 IH]; intros w; simpl; [done|].
  destruct (t w) as [w1|e]; simpl; [apply IH|done].
Qed.

Lemma runTasksInSerial_single {W} (t : task W) w : runTasksInSerial [t] w = t w.
Proof. simpl. by destruct (t w). Qed.

(** ** The generator's options and collaborators *)

(** [VitestGeneratorSchema] (./schema.d.ts): the options the source reads. *)
Record Schema := {
  project : string;
  uiFramework : string;
  inSourceTests : option bool;
  skipViteConfig : option bool
}.

(** [if (options.flag)] on an optional boolean. *)
Definition flagSet (o : option bool) : bool :=
  match o with Some b => b | None => false end.

(** The schema as the object [...options] spreads: its defined keys. *)
Definition schemaFields (s : Schema) : list (string * jval) :=
  [("project", JStr (project s)); ("uiFramework", JStr (uiFramework s))] ++
  match inSourceTests s with Some b => [("inSourceTests", JBool b)] | None => [] end ++
  match skipViteConfig s with Some b => [("skipViteConfig", JBool b)] | None => [] end.

(** [{ ...schema, includeVitest: true }], the options of [writeViteConfig]. *)
Record ViteConfigOptions := { viteSchema : Schema; includeVitest : bool }.

(** The file names the generator patches in a project root. *)
Definition tsconfigNames : list string :=
  ["tsconfig.json"; "tsconfig.lib.json"; "tsconfig.app.json"].

(** [t'] has the same tsconfig files as [t] in every directory. *)
Definition keepsTsconfigs (t t' : Tree) : Prop :=
  ∀ r name, name ∈ tsconfigNames →
    files t' !! joinPathFragments [r; name] = files t !! joinPathFragments [r; name].

(** The steps the generator delegates to: [findExistingTargets],
    [addOrChangeTestTarget], [writeViteConfig] (generator-utils), the
    [init] generator, [generateFiles] and [formatFiles] (devkit), with the
    world its install task acts on and the directory of the compiled
    module ([__dirname]). *)
Class Collaborators := {
  World : Type;
  moduleDir : string;
  findTestTarget : list (string * TargetConfiguration) → option string;
  addOrChangeTestTarget : Tree → Schema → option string → js Tree;
  initGenerator : Tree → string → js (Tree * task World);
  writeViteConfig : Tree → ViteConfigOptions → js Tree;
  generateFiles : Tree → string → string → list (string * jval) → js Tree;
  formatFiles : Tree → js Tree
}.

(** Host [C] with its [writeViteConfig] replaced by [w]: the device by
    which the theorems on the [skipViteConfig] guard compare two hosts. *)
Definition with_writeViteConfig (C : Collaborators) (w : Tree → ViteConfigOptions → js Tree)
    : Collaborators := {|
  World := @World C;
  moduleDir := @moduleDir C;
  findTestTarget := @findTestTarget C;
  addOrChangeTestTarget := @addOrChangeTestTarget C;
  initGenerator := @initGenerator C;
  writeViteConfig := w;
  generateFiles := @generateFiles C;
  formatFiles := @formatFiles C
|}.

(** [t'] keeps the [root] of every project of [t]. *)
Definition keepsRoots (t t' : Tree) : Prop :=
  ∀ name, root <$> projects t' !! name = root <$> projects t !! name.

(** A step that leaves the files the generator patches, and the project
    roots it reads, as they were. *)
Definition frames (t t' : Tree) : Prop := keepsTsconfigs t t' ∧ keepsRoots t t'.

(** What the generator's theorems need of the steps before
    [formatFiles]: none of them rewrites a [tsconfig.json],
    [tsconfig.lib.json] or [tsconfig.app.json] ([generateFiles] as called
    on the generator's own [files/] template directory, which holds
    [tsconfig.spec.json]), and none of them moves a project
    ([addOrChangeTestTarget] rewrites targets only). *)
Class StepLaws `{Collaborators} := {
  addOrChangeTestTarget_frames t s tt t' :
    addOrChangeTestTarget t s tt = Ok t' → frames t t';
  initGenerator_frames t ui t' k :
    initGenerator t ui = Ok (t', k) → frames t t';
  writeViteConfig_frames t o t' :
    writeViteConfig t o = Ok t' → frames t t';
  generateFiles_frames t dst subst t' :
    generateFiles t (joinPathFragments [moduleDir; "files"]) dst subst = Ok t' →
    frames t t'
}.

(** And of [formatFiles]: it reformats without changing the parsed
    contents of the tsconfig files or the project roots ([JsonEquiv] and
    [Format] relax this to "up to key order"). *)
Class CollaboratorLaws `{Collaborators} := {
  collaborator_steps :: StepLaws;
  formatFiles_frames t t' :
    formatFiles t = Ok t' → frames t t'
}.

Lemma frames_refl t : frames t t.
Proof. by split; intros ?. Qed.

Lemma frames_trans t1 t2 t3 : frames t1 t2 → frames t2 t3 → frames t1 t3.
Proof.
  intros [Hk12 Hr12] [Hk23 Hr23]. split.
  - intros r n Hn. by rewrite Hk23, Hk12.
  - intros name. by rewrite Hr23, Hr12.
Qed.

Lemma frames_readJson t t' r name :
  frames t t' → name ∈ tsconfigNames →
  readJson t' (joinPathFragments [r; name]) = readJson t (joinPathFragments [r; name]) ∧
  tree_exists t' (joinPathFragments [r; name]) = tree_exists t (joinPathFragments [r; name]).
Proof. intros [Hk _] Hn. unfold readJson, tree_exists. by rewrite (Hk r name Hn). Qed.

Lemma frames_readProjectConfiguration t t' name pc :
  frames t t' → readProjectConfiguration t name = Ok pc →
  ∃ pc', readProjectConfiguration t' name = Ok pc' ∧ root pc' = root pc.
Proof.
  intros [_ Hr]. unfold readProjectConfiguration. specialize (Hr name).
  destruct (projects t !! name) as [pc0|]; [|done]. intros [=<-].
  destruct (projects t' !! name) as [pc'|]; [|done]. injection Hr as Hr. eauto.
Qed.

(** Writing a file whose name is not a tsconfig name keeps the tsconfig
    files of every root. *)
Lemma insert_keepsTsconfigs t r0 m f :
  plain_name m = true → m ∉ tsconfigNames →
  keepsTsconfigs t (mkTree (<[joinPathFragments [r0; m] := f]> (files t)) (projects t)).
Proof.
  intros Hm Hnot r n Hn. simpl. rewrite lookup_insert_ne; [done|].
  apply joinPathFragments_ne; [done| |by intros ->].
  unfold tsconfigNames in Hn. repeat (apply elem_of_cons in Hn as [->|Hn]; [done|]).
  by apply elem_of_nil in Hn.
Qed.

#[export] Hint Resolve frames_refl frames_trans : vitest.
