(* ===== verification/Generator.v ===== *)
(** * The vitest generator

    [updateTsConfig] (lines 53-93), [createFiles] (95-106) and
    [vitestGenerator] (22-51) of vitest-generator.ts, over any host that
    implements the [Collaborators] interface of [Devkit].  Every step
    runs in the result monad in the order of the source; a throw anywhere
    aborts the run, and the host then writes nothing (spec section 7: no
    partial writes).  The theorems are proved from the collaborators'
    [CollaboratorLaws]; the [skipViteConfig] guard is stated by comparing
    a host with the same host whose [writeViteConfig] is replaced
    ([with_writeViteConfig]); module [ReferenceHost] is a concrete host
    that satisfies the laws, on which the witnesses run. *)

From stdpp Require Import gmap.
From S2P Require Import Prelude JsValue TsConfig TsTypes Devkit.
Local Set Warnings "-clear-no-such-hyp".

Section Generator.
Context `{Collaborators}.

(** Lines 53-93. *)
Definition updateTsConfig (t : Tree) (options : Schema) (projectRoot : string) : js Tree :=
  t1 <- updateJson t (joinPathFragments [projectRoot; "tsconfig.json"]) updateReferences ;;
  if flagSet (inSourceTests options) then
    let tsconfigLibPath := joinPathFragments [projectRoot; "tsconfig.lib.json"] in
    let tsconfigAppPath := joinPathFragments [projectRoot; "tsconfig.app.json"] in
    if tree_exists t1 tsconfigLibPath then
      updateJson t1 (joinPathFragments [projectRoot; "tsconfig.lib.json"]) addImportMetaType
    else if tree_exists t1 tsconfigAppPath then
      updateJson t1 (joinPathFragments [projectRoot; "tsconfig.app.json"]) addImportMetaType
    else Ok t1
  else Ok t1.

(** The substitutions of lines 100-105:
    [{ tmpl: '', ...options, projectRoot, offsetFromRoot: offsetFromRoot(projectRoot) }]. *)
Definition templateSubstitutions (options : Schema) (projectRoot : string)
    : list (string * jval) :=
  alist_set "offsetFromRoot" (JStr (offsetFromRoot projectRoot))
    (alist_set "projectRoot" (JStr projectRoot)
       (obj_spread [("tmpl", JStr "")] (schemaFields options))).

(** Lines 95-106. *)
Definition createFiles (t : Tree) (options : Schema) (projectRoot : string) : js Tree :=
  generateFiles t (joinPathFragments [moduleDir; "files"]) projectRoot
    (templateSubstitutions options projectRoot).

(** Lines 22-51: the tree after the run, and the returned callback. *)
Definition vitestGenerator (t : Tree) (schema : Schema) : js (Tree * task World) :=
  let tasks : list (task World) := [] in
  pc <- readProjectConfiguration t (project schema) ;;
  let testTarget := findTestTarget (targets pc) in
  t1 <- addOrChangeTestTarget t schema testTarget ;;
  init <- initGenerator t1 (uiFramework schema) ;;
  let tasks := tasks ++ [init.2] in
  t2 <- (if negb (flagSet (skipViteConfig schema))
         then writeViteConfig init.1 {| viteSchema := schema; includeVitest := true |}
         else Ok init.1) ;;
  t3 <- createFiles t2 schema (root pc) ;;
  t4 <- updateTsConfig t3 schema (root pc) ;;
  t5 <- formatFiles t4 ;;
  Ok (t5, runTasksInSerial tasks).
End Generator.

(** ** What [updateTsConfig] does to the three files of a root *)

Definition tsconfigPath (r : string) := joinPathFragments [r; "tsconfig.json"].
Definition tsconfigLibPath (r : string) := joinPathFragments [r; "tsconfig.lib.json"].
Definition tsconfigAppPath (r : string) := joinPathFragments [r; "tsconfig.app.json"].

(** File [p] of [t'] is file [p] of [t] passed through callback [f]. *)
Definition fileUpdated (t t' : Tree) (p : string) (f : jval → js jval) : Prop :=
  ∃ v v', readJson t p = Ok v ∧ f v = Ok v' ∧ readJson t' p = Ok v'.

(** The tsconfig files of root [r] in [t'] are those of [t] updated as
    lines 53-93 say: [tsconfig.json] by [updateReferences]; with
    [inSourceTests], [tsconfig.lib.json] by [addImportMetaType] when it
    exists, else [tsconfig.app.json] when it exists; the rest unchanged. *)
Definition tsconfigsUpdated (t t' : Tree) (inSource : bool) (r : string) : Prop :=
  fileUpdated t t' (tsconfigPath r) updateReferences ∧
  (if inSource && tree_exists t (tsconfigLibPath r)
   then fileUpdated t t' (tsconfigLibPath r) addImportMetaType
   else readJson t' (tsconfigLibPath r) = readJson t (tsconfigLibPath r)) ∧
  (if inSource && negb (tree_exists t (tsconfigLibPath r)) && tree_exists t (tsconfigAppPath r)
   then fileUpdated t t' (tsconfigAppPath r) addImportMetaType
   else readJson t' (tsconfigAppPath r) = readJson t (tsconfigAppPath r)).

Lemma tsconfig_ne_lib r : tsconfigPath r ≠ tsconfigLibPath r.
Proof. apply (joinPathFragments_ne r r); done. Qed.
Lemma tsconfig_ne_app r : tsconfigPath r ≠ tsconfigAppPath r.
Proof. apply (joinPathFragments_ne r r); done. Qed.
Lemma lib_ne_app r : tsconfigLibPath r ≠ tsconfigAppPath r.
Proof. apply (joinPathFragments_ne r r); done. Qed.

#[export] Hint Resolve tsconfig_ne_lib tsconfig_ne_app lib_ne_app : vitest.

Lemma fileUpdated_updateJson t t' p f :
  updateJson t p f = Ok t' → fileUpdated t t' p f.
Proof.
  intros (v & v' & Hr & Hf & ->)%updateJson_ok. exists v, v'.
  split_and!; [done|done|apply readJson_writeJson_eq].
Qed.

Lemma fileUpdated_frame t1 t2 t3 p f :
  fileUpdated t1 t2 p f → readJson t3 p = readJson t2 p → fileUpdated t1 t3 p f.
Proof. intros (v & v' & H1 & H2 & H3) H. exists v, v'. by rewrite H. Qed.

(** Updating one file leaves every other file as it was. *)
Lemma readJson_updateJson_ne t p f t' q :
  updateJson t p f = Ok t' → p ≠ q → readJson t' q = readJson t q.
Proof. intros Hu Hne. rewrite (readJson_updateJson _ _ _ _ _ Hu). by case_bool_decide. Qed.

Lemma fileUpdated_pre t0 t1 t2 p f :
  readJson t1 p = readJson t0 p → fileUpdated t1 t2 p f → fileUpdated t0 t2 p f.
Proof. intros H (v & v' & H1 & H2 & H3). exists v, v'. by rewrite <- H. Qed.

Lemma updateTsConfig_effect t o r t' :
  updateTsConfig t o r = Ok t' → tsconfigsUpdated t t' (flagSet (inSourceTests o)) r.
Proof.
  unfold updateTsConfig. fold (tsconfigPath r).
  destruct (updateJson t (tsconfigPath r) updateReferences) as [t1|e] eqn:H1;
    simpl; [intros H|discriminate].
  pose proof (fileUpdated_updateJson _ _ _ _ H1) as Hts.
  assert (Hlib1 : readJson t1 (tsconfigLibPath r) = readJson t (tsconfigLibPath r))
    by (eapply readJson_updateJson_ne; [exact H1|apply tsconfig_ne_lib]).
  assert (Happ1 : readJson t1 (tsconfigAppPath r) = readJson t (tsconfigAppPath r))
    by (eapply readJson_updateJson_ne; [exact H1|apply tsconfig_ne_app]).
  assert (Hex : ∀ q, tree_exists t1 q = tree_exists t q)
    by (intros q; eapply tree_exists_updateJson; exact H1).
  unfold tsconfigsUpdated. rewrite <- !Hex. revert H.
  destruct (flagSet (inSourceTests o)); simpl; [|intros [=<-]; done].
  fold (tsconfigLibPath r) (tsconfigAppPath r).
  destruct (tree_exists t1 (tsconfigLibPath r)); simpl; intros H.
  - split_and!.
    + eapply fileUpdated_frame; [exact Hts|].
      eapply readJson_updateJson_ne; [exact H|]. intros Heq. by apply (tsconfig_ne_lib r).
    + eapply fileUpdated_pre; [exact Hlib1|]. by apply fileUpdated_updateJson.
    + rewrite <- Happ1. eapply readJson_updateJson_ne; [exact H|apply lib_ne_app].
  - revert H. destruct (tree_exists t1 (tsconfigAppPath r)); simpl; intros H;
      [|injection H as <-; done].
    split_and!.
    + eapply fileUpdated_frame; [exact Hts|].
      eapply readJson_updateJson_ne; [exact H|]. intros Heq. by apply (tsconfig_ne_app r).
    + rewrite <- Hlib1. eapply readJson_updateJson_ne; [exact H|].
      intros Heq. by apply (lib_ne_app r).
    + eapply fileUpdated_pre; [exact Happ1|]. by apply fileUpdated_updateJson.
Qed.

(** C5 (functional) [updateTsConfig] (lines 53-93), when it returns,
    has applied [updateReferences] to [tsconfig.json] and, with
    [inSourceTests], [addImportMetaType] to [tsconfig.lib.json] if it
    exists and otherwise to [tsconfig.app.json] if that exists (so the
    library file wins when both exist); the other of the two is left as
    it was. *)
Theorem updateTsConfig_updates t o r t' :
  updateTsConfig t o r = Ok t' → tsconfigsUpdated t t' (flagSet (inSourceTests o)) r.
Proof. apply updateTsConfig_effect. Qed.

Lemma updateTsConfig_frame t o r t' :
  updateTsConfig t o r = Ok t' →
  projects t' = projects t ∧
  ∀ q, q ≠ tsconfigPath r → q ≠ tsconfigLibPath r → q ≠ tsconfigAppPath r →
       files t' !! q = files t !! q.
Proof.
  unfold updateTsConfig. fold (tsconfigPath r) (tsconfigLibPath r) (tsconfigAppPath r).
  destruct (updateJson t (tsconfigPath r) updateReferences) as [t1|e] eqn:H1;
    simpl; [|discriminate].
  assert (Hstep : ∀ p t2, updateJson t1 p addImportMetaType = Ok t2 →
            (∀ q, q ≠ tsconfigPath r → q ≠ p → files t2 !! q = files t !! q) ∧
            projects t2 = projects t).
  { intros p t2 H2. split.
    - intros q Hq1 Hq2. rewrite (files_updateJson_ne _ _ _ _ _ H2) by congruence.
      by rewrite (files_updateJson_ne _ _ _ _ _ H1) by congruence.
    - by rewrite (projects_updateJson _ _ _ _ H2), (projects_updateJson _ _ _ _ H1). }
  assert (Hbase : (∀ q, q ≠ tsconfigPath r → files t1 !! q = files t !! q) ∧
                  projects t1 = projects t).
  { split; [|by eapply projects_updateJson].
    intros q Hq. rewrite (files_updateJson_ne _ _ _ _ _ H1) by congruence. done. }
  repeat case_match; intros Hres; try (injection Hres as <-);
    try (destruct (Hstep _ _ Hres) as [Hf Hp]); try destruct Hbase as [Hf Hp];
    (split; [done|]); intros q Hq1 Hq2 Hq3; by apply Hf.
Qed.

(** C27 (safety) [updateTsConfig] writes no file but the three tsconfig
    files of the project root, and leaves the project configurations
    alone. *)
Theorem updateTsConfig_only_tsconfigs t o r t' :
  updateTsConfig t o r = Ok t' →
  projects t' = projects t ∧
  ∀ q, q ≠ tsconfigPath r → q ≠ tsconfigLibPath r → q ≠ tsconfigAppPath r →
       files t' !! q = files t !! q.
Proof. apply updateTsConfig_frame. Qed.

Lemma updateTsConfig_only_tsconfigs_witness :
  updateTsConfig (mkTree {[ "tsconfig.json" := FJson (JObj []) ]} ∅)
    {| project := "app"; uiFramework := "none"; inSourceTests := None; skipViteConfig := None |} "" =
    Ok (mkTree {[ "tsconfig.json" := FJson (JObj []) ]} ∅) ∧
  projects (mkTree {[ "tsconfig.json" := FJson (JObj []) ]} ∅) =
    projects (mkTree {[ "tsconfig.json" := FJson (JObj []) ]} ∅) ∧
  ∀ q, q ≠ tsconfigPath "" → q ≠ tsconfigLibPath "" → q ≠ tsconfigAppPath "" →
       files (mkTree {[ "tsconfig.json" := FJson (JObj []) ]} ∅) !! q =
       files (mkTree {[ "tsconfig.json" := FJson (JObj []) ]} ∅) !! q.
Proof.
  assert (H : updateTsConfig (mkTree {[ "tsconfig.json" := FJson (JObj []) ]} ∅)
    {| project := "app"; uiFramework := "none"; inSourceTests := None; skipViteConfig := None |} "" =
    Ok (mkTree {[ "tsconfig.json" := FJson (JObj []) ]} ∅)).
  { vm_compute. reflexivity. }
  split; [exact H|]. exact (updateTsConfig_only_tsconfigs _ _ _ _ H).
Defined.

(** The three tsconfig files of root [r] that exist have their declared
    types. *)
Definition tsconfigsTyped (t : Tree) (r : string) : Prop :=
  ∀ p j, p ∈ [tsconfigPath r; tsconfigLibPath r; tsconfigAppPath r] →
         readJson t p = Ok j → tsconfigTyped j = true.

(** A file rewritten by a callback that keeps documents typed stays typed. *)
Lemma fileUpdated_typed t t' p f :
  (∀ j j', tsconfigTyped j = true → f j = Ok j' → tsconfigTyped j' = true) →
  (∀ j, readJson t p = Ok j → tsconfigTyped j = true) →
  fileUpdated t t' p f → ∀ j, readJson t' p = Ok j → tsconfigTyped j = true.
Proof.
  intros Hf Ht (v & v' & Hr & Hv & Hr') j Hj. rewrite Hr' in Hj. injection Hj as <-.
  eapply Hf; [|exact Hv]. by apply Ht.
Qed.

Lemma updateTsConfig_typed t o r t' :
  tsconfigsTyped t r → updateTsConfig t o r = Ok t' → tsconfigsTyped t' r.
Proof.
  intros Hty (Hts & Hlib & Happ)%updateTsConfig_effect.
  assert (Hin : ∀ p, p ∈ [tsconfigPath r; tsconfigLibPath r; tsconfigAppPath r] →
                 ∀ j, readJson t p = Ok j → tsconfigTyped j = true) by (intros p Hp j; by apply Hty).
  intros p j Hp. pose proof Hp as Hp'.
  repeat (apply elem_of_cons in Hp' as [->|Hp']); [| | |by apply elem_of_nil in Hp'].
  - eapply fileUpdated_typed; [exact updateReferences_preserves_typed| |exact Hts].
    apply Hin. set_solver.
  - destruct (flagSet (inSourceTests o) && tree_exists t (tsconfigLibPath r)).
    + eapply fileUpdated_typed; [exact addImportMetaType_preserves_typed| |exact Hlib].
      apply Hin. set_solver.
    + rewrite Hlib. apply Hin. set_solver.
  - destruct (flagSet (inSourceTests o) && negb (tree_exists t (tsconfigLibPath r)) &&
              tree_exists t (tsconfigAppPath r)).
    + eapply fileUpdated_typed; [exact addImportMetaType_preserves_typed| |exact Happ].
      apply Hin. set_solver.
    + rewrite Happ. apply Hin. set_solver.
Qed.

(** C21 (invariant) [updateTsConfig] keeps the project's tsconfig files
    well-typed: when [tsconfig.json], [tsconfig.lib.json] and
    [tsconfig.app.json] have the declared types of [references] and
    [compilerOptions.types] before the call, they have them after it. *)
Theorem updateTsConfig_preserves_typed t o r t' :
  tsconfigsTyped t r → updateTsConfig t o r = Ok t' → tsconfigsTyped t' r.
Proof. apply updateTsConfig_typed. Qed.

(** C33 (error, spec gap and spec section 7) [updateTsConfig] fails
    with the error of reading [tsconfig.json] when it cannot read it:
    [NotFound] when the project has none, [ParseError] when it is not
    JSON.  [updateJson] reads the file unconditionally (line 58), unlike
    [tsconfig.lib.json] and [tsconfig.app.json], which the source guards
    with [tree.exists]. *)
Theorem updateTsConfig_unreadable_tsconfig t o r e :
  readJson t (tsconfigPath r) = Err e → updateTsConfig t o r = Err e.
Proof.
  intros He. unfold updateTsConfig. fold (tsconfigPath r).
  unfold updateJson. by rewrite He.
Qed.

Lemma updateTsConfig_unreadable_tsconfig_witness :
  readJson (mkTree {[ "libs/a/tsconfig.json" := FText "{ references: [" ]} ∅) (tsconfigPath "libs/a") =
    Err (ParseError "libs/a/tsconfig.json") ∧
  updateTsConfig (mkTree {[ "libs/a/tsconfig.json" := FText "{ references: [" ]} ∅)
    {| project := "a"; uiFramework := "none"; inSourceTests := Some true; skipViteConfig := None |}
    "libs/a" = Err (ParseError "libs/a/tsconfig.json").
Proof.
  assert (H : readJson (mkTree {[ "libs/a/tsconfig.json" := FText "{ references: [" ]} ∅)
                (tsconfigPath "libs/a") = Err (ParseError "libs/a/tsconfig.json"))
    by (vm_compute; reflexivity).
  split; [exact H|]. exact (updateTsConfig_unreadable_tsconfig _ _ _ _ H).
Defined.

(** A file the types callback patches without throwing. *)
Definition typesPatchable (j : jval) : Prop :=
  ∃ kvs co, j = JObj kvs ∧ alist_get "compilerOptions" kvs = Some (JObj co) ∧
    (nullish (alist_get "types" co) = true ∨ ∃ ts, alist_get "types" co = Some (JArr ts)).

Lemma typesPatchable_ok j : typesPatchable j → ∃ j', addImportMetaType j = Ok j'.
Proof.
  intros (kvs & co & -> & Hco & Ht). eexists. by apply addImportMetaType_types.
Qed.

Lemma updateJson_patchable t p :
  (∃ j, readJson t p = Ok j ∧ typesPatchable j) →
  ∃ t', updateJson t p addImportMetaType = Ok t'.
Proof.
  intros (j & Hr & (j' & Hj')%typesPatchable_ok). eexists.
  apply updateJson_ok. eauto.
Qed.

(** C14 (liveness) [updateTsConfig] returns a tree whenever
    [tsconfig.json] is an object whose [references] is absent or an
    array without [null] entries and, with [inSourceTests], the file it
    patches ([tsconfig.lib.json] if present, else [tsconfig.app.json] if
    present) has an object [compilerOptions] whose [types] is absent,
    [null] or an array. *)
Theorem updateTsConfig_succeeds t o r kvs :
  readJson t (tsconfigPath r) = Ok (JObj kvs) → referencesWellShaped kvs →
  (flagSet (inSourceTests o) = true → tree_exists t (tsconfigLibPath r) = true →
     ∃ j, readJson t (tsconfigLibPath r) = Ok j ∧ typesPatchable j) →
  (flagSet (inSourceTests o) = true → tree_exists t (tsconfigLibPath r) = false →
     tree_exists t (tsconfigAppPath r) = true →
     ∃ j, readJson t (tsconfigAppPath r) = Ok j ∧ typesPatchable j) →
  ∃ t', updateTsConfig t o r = Ok t'.
Proof.
  intros Hts Hshape Hlib Happ.
  destruct (updateReferences_ensureReference _ Hshape) as (d & _ & Hd).
  assert (H1 : updateJson t (tsconfigPath r) updateReferences = Ok (writeJson t (tsconfigPath r) d))
    by (apply updateJson_ok; eauto).
  unfold updateTsConfig. fold (tsconfigPath r) (tsconfigLibPath r) (tsconfigAppPath r).
  rewrite H1. simpl.
  assert (Hex : ∀ q, tree_exists (writeJson t (tsconfigPath r) d) q = tree_exists t q)
    by (intros q; eapply tree_exists_updateJson; exact H1).
  assert (Hrd : ∀ q, tsconfigPath r ≠ q →
            readJson (writeJson t (tsconfigPath r) d) q = readJson t q)
    by (intros q; apply readJson_writeJson_ne).
  rewrite !Hex. destruct (flagSet (inSourceTests o)); [|eauto].
  destruct (tree_exists t (tsconfigLibPath r)) eqn:El.
  - apply updateJson_patchable. rewrite Hrd by apply tsconfig_ne_lib. by apply Hlib.
  - destruct (tree_exists t (tsconfigAppPath r)) eqn:Ea; [|eauto].
    apply updateJson_patchable. rewrite Hrd by apply tsconfig_ne_app. by apply Happ.
Qed.

(** ** The whole generator *)

Lemma tsconfigNames_elem : "tsconfig.json" ∈ tsconfigNames ∧
  "tsconfig.lib.json" ∈ tsconfigNames ∧ "tsconfig.app.json" ∈ tsconfigNames.
Proof. unfold tsconfigNames. split_and!; set_solver. Qed.

(** Steps that keep the tsconfig files can be added before and after an
    update of them. *)
Lemma tsconfigsUpdated_frames t0 t1 t2 t3 b r :
  frames t0 t1 → tsconfigsUpdated t1 t2 b r → frames t2 t3 → tsconfigsUpdated t0 t3 b r.
Proof.
  intros F01 (Hts & Hlib & Happ) F23. destruct tsconfigNames_elem as (N1 & N2 & N3).
  destruct (frames_readJson _ _ r _ F01 N1) as [R1 _].
  destruct (frames_readJson _ _ r _ F01 N2) as [R2 E2].
  destruct (frames_readJson _ _ r _ F01 N3) as [R3 E3].
  destruct (frames_readJson _ _ r _ F23 N1) as [S1 _].
  destruct (frames_readJson _ _ r _ F23 N2) as [S2 _].
  destruct (frames_readJson _ _ r _ F23 N3) as [S3 _].
  fold (tsconfigPath r) (tsconfigLibPath r) (tsconfigAppPath r) in *.
  unfold tsconfigsUpdated. rewrite <- E2, <- E3.
  split_and!.
  - eapply fileUpdated_frame; [eapply fileUpdated_pre; [exact R1|exact Hts]|exact S1].
  - destruct (b && _); [|by rewrite S2, Hlib, R2].
    eapply fileUpdated_frame; [eapply fileUpdated_pre; [exact R2|exact Hlib]|exact S2].
  - destruct (b && _ && _); [|by rewrite S3, Happ, R3].
    eapply fileUpdated_frame; [eapply fileUpdated_pre; [exact R3|exact Happ]|exact S3].
Qed.

(** Steps that keep the tsconfig files keep them typed. *)
Lemma frames_readJson_tsconfigs t t' r p :
  frames t t' → p ∈ [tsconfigPath r; tsconfigLibPath r; tsconfigAppPath r] →
  readJson t' p = readJson t p.
Proof.
  intros F Hp. destruct tsconfigNames_elem as (N1 & N2 & N3).
  repeat (apply elem_of_cons in Hp as [->|Hp]); [..|by apply elem_of_nil in Hp];
    [apply (frames_readJson _ _ r _ F N1)
    |apply (frames_readJson _ _ r _ F N2)
    |apply (frames_readJson _ _ r _ F N3)].
Qed.

Lemma frames_tsconfigsTyped t t' r : frames t t' → tsconfigsTyped t r → tsconfigsTyped t' r.
Proof.
  intros F Hty p j Hp. rewrite (frames_readJson_tsconfigs _ _ _ _ F Hp). by apply Hty.
Qed.

Section WholeGenerator.
Context `{Collaborators}.

(** The steps of a successful run. *)
Lemma vitestGenerator_ok t s t' k :
  vitestGenerator t s = Ok (t', k) →
  ∃ pc t1 init t2 t3 t4,
    readProjectConfiguration t (project s) = Ok pc ∧
    addOrChangeTestTarget t s (findTestTarget (targets pc)) = Ok t1 ∧
    initGenerator t1 (uiFramework s) = Ok init ∧
    (if negb (flagSet (skipViteConfig s))
     then writeViteConfig init.1 {| viteSchema := s; includeVitest := true |}
     else Ok init.1) = Ok t2 ∧
    createFiles t2 s (root pc) = Ok t3 ∧
    updateTsConfig t3 s (root pc) = Ok t4 ∧
    formatFiles t4 = Ok t' ∧
    k = runTasksInSerial [init.2].
Proof.
  unfold vitestGenerator. intros Hrun. inv_ok.
  eexists _, _, _, _, _, _. split_and!; eauto.
Qed.

(** C35 (functional) A successful run returns, as its callback, the
    [init] generator's install task run through [runTasksInSerial]:
    the callback does exactly what that task does. *)
Theorem vitestGenerator_callback t s t' k :
  vitestGenerator t s = Ok (t', k) →
  ∃ t1 init, initGenerator t1 (uiFramework s) = Ok init ∧ ∀ w, k w = init.2 w.
Proof.
  intros (pc & t1 & init & _ & _ & _ & _ & _ & Hinit & _ & _ & _ & _ & ->)%vitestGenerator_ok.
  exists t1, init. split; [done|]. intros w. apply runTasksInSerial_single.
Qed.

(** C22 (error) Without [skipViteConfig], the run calls [writeViteConfig]
    on the tree [initGenerator] returned, with the schema and
    [includeVitest: true] (lines 38-43): when that call throws, the run
    throws the same error, after the project is found and the steps before
    it succeed. *)
Theorem vitestGenerator_writeViteConfig_error t schema pc t1 t2 k e :
  readProjectConfiguration t (project schema) = Ok pc →
  addOrChangeTestTarget t schema (findTestTarget (targets pc)) = Ok t1 →
  initGenerator t1 (uiFramework schema) = Ok (t2, k) →
  flagSet (skipViteConfig schema) = false →
  writeViteConfig t2 {| viteSchema := schema; includeVitest := true |} = Err e →
  vitestGenerator t schema = Err e.
Proof.
  intros Hp Ha Hi Hs Hw. unfold vitestGenerator.
  rewrite Hp. simpl. rewrite Ha. simpl. rewrite Hi. simpl. by rewrite Hs, Hw.
Qed.

(** The steps before [formatFiles] keep the tsconfig files and the
    roots; [updateTsConfig] runs on the tree they leave. *)
Lemma vitestGenerator_prefix `{HS : !StepLaws} t s t' k :
  vitestGenerator t s = Ok (t', k) →
  ∃ pc t3 t4, readProjectConfiguration t (project s) = Ok pc ∧
    frames t t3 ∧ updateTsConfig t3 s (root pc) = Ok t4 ∧ formatFiles t4 = Ok t'.
Proof.
  intros (pc & t1 & [t1' tk] & t2 & t3 & t4 & Hpc & Ha & Hi & Hw & Hc & Hu & Hf & _)
    %vitestGenerator_ok.
  exists pc, t3, t4. split_and!; [done| |done|done].
  eapply frames_trans; [by eapply addOrChangeTestTarget_frames|].
  eapply frames_trans; [by eapply initGenerator_frames|].
  eapply frames_trans; [|by eapply generateFiles_frames].
  simpl in Hw. destruct (negb _); [by eapply writeViteConfig_frames|].
  injection Hw as <-. apply frames_refl.
Qed.

Context `{HL : !CollaboratorLaws}.

Lemma vitestGenerator_frames t s t' k :
  vitestGenerator t s = Ok (t', k) →
  ∃ pc t3 t4, readProjectConfiguration t (project s) = Ok pc ∧
    frames t t3 ∧ updateTsConfig t3 s (root pc) = Ok t4 ∧ frames t4 t'.
Proof using HL.
  intros (pc & t3 & t4 & Hpc & F1 & Hu & Hf)%vitestGenerator_prefix.
  exists pc, t3, t4. split_and!; [done|done|done|by eapply formatFiles_frames].
Qed.

Lemma vitestGenerator_effect t s t' k :
  vitestGenerator t s = Ok (t', k) →
  ∃ pc, readProjectConfiguration t (project s) = Ok pc ∧
        tsconfigsUpdated t t' (flagSet (inSourceTests s)) (root pc).
Proof using HL.
  intros (pc & t3 & t4 & Hpc & F1 & Hu & F2)%vitestGenerator_frames.
  exists pc. split; [done|].
  eapply tsconfigsUpdated_frames; [exact F1|by apply updateTsConfig_effect|exact F2].
Qed.

(** C1 (refinement) End to end: a successful run of [vitestGenerator]
    leaves the project's tsconfig files exactly as [updateTsConfig]
    makes them from the input tree ([tsconfig.json] through
    [updateReferences]; with [inSourceTests], the library's or else the
    application's tsconfig through [addImportMetaType]); the other
    steps do not interfere. *)
Theorem vitestGenerator_tsconfigs t s t' k :
  vitestGenerator t s = Ok (t', k) →
  ∃ pc, readProjectConfiguration t (project s) = Ok pc ∧
        tsconfigsUpdated t t' (flagSet (inSourceTests s)) (root pc).
Proof using HL. apply vitestGenerator_effect. Qed.

(** C34 (error, spec gap and spec section 7) A project whose
    [tsconfig.json] cannot be read, because it is absent or is not JSON,
    makes every run of the generator fail, for any collaborators that
    keep the project's tsconfig files and roots (the frame laws of
    [CollaboratorLaws]): spec section 7 treats an absent optional
    document as a no-op. *)
Theorem vitestGenerator_unreadable_tsconfig t s pc e :
  readProjectConfiguration t (project s) = Ok pc →
  readJson t (tsconfigPath (root pc)) = Err e →
  ∀ res, vitestGenerator t s ≠ Ok res.
Proof using HL.
  intros Hpc He [t' k] Hrun.
  destruct (vitestGenerator_effect _ _ _ _ Hrun) as (pc' & Hpc' & (v & _ & Hr & _) & _).
  rewrite Hpc in Hpc'. injection Hpc' as <-. congruence.
Qed.

(** C2 (refinement, spec section 4.1) End to end, a successful run
    implements the spec's Configuration Merger on the project's files:
    when [tsconfig.json] has no [references] or an array of them without
    [null], the run leaves it as [ensureReference(doc,
    './tsconfig.spec.json')] computes it; with [inSourceTests], a
    [tsconfig.lib.json] whose [compilerOptions.types] is absent or lacks
    ['vitest/importMeta'] is left as
    [ensureListedType(doc, 'compilerOptions.types', 'vitest/importMeta')]
    computes it. *)
Theorem vitestGenerator_refines_merger t s t' k pc kvs :
  vitestGenerator t s = Ok (t', k) → readProjectConfiguration t (project s) = Ok pc →
  readJson t (tsconfigPath (root pc)) = Ok (JObj kvs) → referencesWellShaped kvs →
  (∃ d, Spec.ensureReference (JObj kvs) tsconfigSpecPath = Ok d ∧
        readJson t' (tsconfigPath (root pc)) = Ok d) ∧
  (flagSet (inSourceTests s) = true →
   ∀ lkvs co, readJson t (tsconfigLibPath (root pc)) = Ok (JObj lkvs) →
   alist_get "compilerOptions" lkvs = Some (JObj co) →
   (alist_get "types" co = None ∨
    ∃ ts, alist_get "types" co = Some (JArr ts) ∧
          existsb (jval_eqb (JStr vitestImportMeta)) ts = false) →
   ∃ d, Spec.ensureListedType (JObj lkvs) ["compilerOptions"; "types"] vitestImportMeta = Ok d ∧
        readJson t' (tsconfigLibPath (root pc)) = Ok d).
Proof using HL.
  intros Hrun Hpc Hts Hshape.
  destruct (vitestGenerator_effect _ _ _ _ Hrun) as (pc' & Hpc' & (v & v' & Hv & Hu & Hv') & Hlib & _).
  rewrite Hpc in Hpc'. injection Hpc' as <-. split.
  - destruct (updateReferences_ensureReference _ Hshape) as (d & Hd & Hud).
    rewrite Hts in Hv. injection Hv as <-. rewrite Hud in Hu. injection Hu as <-. eauto.
  - intros Hflag lkvs co Hl Hco Htypes.
    rewrite Hflag, (readJson_exists _ _ _ Hl) in Hlib. simpl in Hlib.
    destruct Hlib as (w & w' & Hw & Haw & Hw'). rewrite Hl in Hw. injection Hw as <-.
    destruct (addImportMetaType_ensureListedType _ _ Hco Htypes) as (d & Hd & Had).
    rewrite Had in Haw. injection Haw as <-. eauto.
Qed.

Lemma vitestGenerator_keepsRoots t s t' k :
  vitestGenerator t s = Ok (t', k) → keepsRoots t t'.
Proof using HL.
  intros (pc & t3 & t4 & _ & [_ R1] & Hu & [_ R2])%vitestGenerator_frames.
  intros name. rewrite R2, (proj1 (updateTsConfig_frame _ _ _ _ Hu)). apply R1.
Qed.

(** C10 (idempotence and its failure, spec section 8) Running the
    generator a second time on its own output leaves [tsconfig.json] as
    the first run wrote it, but with [inSourceTests] it adds a second
    ['vitest/importMeta'] to the library's [compilerOptions.types]:
    each run adds one. *)
Theorem vitestGenerator_rerun t s t1 k1 t2 k2 :
  vitestGenerator t s = Ok (t1, k1) → vitestGenerator t1 s = Ok (t2, k2) →
  ∃ pc, readProjectConfiguration t (project s) = Ok pc ∧
    readJson t2 (tsconfigPath (root pc)) = readJson t1 (tsconfigPath (root pc)) ∧
    (flagSet (inSourceTests s) = true → tree_exists t (tsconfigLibPath (root pc)) = true →
     ∀ kvs co, readJson t (tsconfigLibPath (root pc)) = Ok (JObj kvs) →
       alist_get "compilerOptions" kvs = Some (JObj co) →
       ∃ j1 j2, readJson t1 (tsconfigLibPath (root pc)) = Ok j1 ∧
                readJson t2 (tsconfigLibPath (root pc)) = Ok j2 ∧
                importMetaCount j1 = S (importMetaCount (JObj kvs)) ∧
                importMetaCount j2 = S (importMetaCount j1)).
Proof using HL.
  intros Hrun1 Hrun2.
  destruct (vitestGenerator_effect _ _ _ _ Hrun1) as (pc & Hpc & (v & v' & Hr0 & Hu & Hr1) & Hlib1 & _).
  destruct (vitestGenerator_effect _ _ _ _ Hrun2) as (pc2 & Hpc2 & (w & w' & Hw1 & Hw & Hw2) & Hlib2 & _).
  assert (Hroot : root pc2 = root pc).
  { pose proof (vitestGenerator_keepsRoots _ _ _ _ Hrun1 (project s)) as Hk.
    unfold readProjectConfiguration in Hpc, Hpc2.
    destruct (projects t !! project s), (projects t1 !! project s); simplify_eq/=; done. }
  rewrite Hroot in Hw1, Hw2, Hlib2.
  exists pc. split_and!; [done| |].
  - rewrite Hw1 in Hr1. injection Hr1 as <-.
    rewrite (updateReferences_rerun _ _ Hu) in Hw. injection Hw as <-.
    by rewrite Hw2, Hw1.
  - intros Hflag Hex kvs co Hl Hco. rewrite Hflag, Hex in Hlib1. simpl in Hlib1.
    destruct Hlib1 as (l & l' & Hl0 & Hal & Hl1). rewrite Hl in Hl0. injection Hl0 as <-.
    rewrite Hflag, (readJson_exists _ _ _ Hl1) in Hlib2. simpl in Hlib2.
    destruct Hlib2 as (m & m' & Hm1 & Ham & Hm2). rewrite Hl1 in Hm1. injection Hm1 as <-.
    destruct (addImportMetaType_twice _ _ _ Hco Hal) as (Hc1 & j'' & Hj'' & Hc2 & _).
    rewrite Ham in Hj''. injection Hj'' as <-.
    exists l', m'. split_and!; done.
Qed.
End WholeGenerator.

(** ** A concrete host

    A small host satisfying [CollaboratorLaws], on which the theorems are
    applied to concrete runs: [addOrChangeTestTarget] registers a
    [@nrwl/vite:test] target, [init] returns a task that records
    [npm install], [writeViteConfig] writes [vite.config.ts],
    [generateFiles] writes [tsconfig.spec.json], [formatFiles] keeps the
    tree. *)
(** C15 (equivalence) With [skipViteConfig] set, the run does not call
    [writeViteConfig] (lines 38-43): replacing the host's
    [writeViteConfig] by any other function, one that throws included,
    leaves the result of [vitestGenerator] unchanged. *)
Theorem vitestGenerator_skipViteConfig `{C : Collaborators} w t schema :
  flagSet (skipViteConfig schema) = true →
  @vitestGenerator (with_writeViteConfig C w) t schema = @vitestGenerator C t schema.
Proof. intros Hs. unfold vitestGenerator. by rewrite Hs. Qed.

Module ReferenceHost.
Definition testTarget : TargetConfiguration :=
  {| executor := "@nrwl/vite:test"; targetOptions := JObj [] |}.

Definition refAddOrChangeTestTarget (t : Tree) (s : Schema) (tt : option string) : js Tree :=
  match projects t !! project s with
  | Some pc =>
      Ok (mkTree (files t)
            (<[project s := {| root := root pc;
                                targets := alist_set (default "test" tt) testTarget (targets pc) |}]>
               (projects t)))
  | None => throw (ProjectNotFound (project s))
  end.

Definition refWriteViteConfig (t : Tree) (o : ViteConfigOptions) : js Tree :=
  match projects t !! project (viteSchema o) with
  | Some pc =>
      Ok (mkTree (<[joinPathFragments [root pc; "vite.config.ts"] :=
                    FText "export default defineConfig({ test: {} });"]> (files t))
                 (projects t))
  | None => throw (ProjectNotFound (project (viteSchema o)))
  end.

#[export] Instance refCollaborators : Collaborators := {|
  World := list string;
  moduleDir := "node_modules/@nrwl/vite/src/generators/vitest";
  findTestTarget ts :=
    head (map fst (filter (λ kv, executor kv.2 = "@nrwl/vite:test") ts));
  addOrChangeTestTarget := refAddOrChangeTestTarget;
  initGenerator t ui := Ok (t, λ w, Ok ("npm install" :: w));
  writeViteConfig := refWriteViteConfig;
  generateFiles t src dst subst :=
    Ok (writeJson t (joinPathFragments [dst; "tsconfig.spec.json"])
          (JObj [("extends", JStr "./tsconfig.json")]));
  formatFiles t := Ok t
|}.

#[export] Instance refStepLaws : StepLaws.
Proof.
  split.
  - intros t s tt t'. simpl. unfold refAddOrChangeTestTarget.
    destruct (projects t !! project s) as [pc|] eqn:Hp; [|done]. intros [=<-].
    split; [by intros ???|]. intros name. simpl.
    rewrite lookup_insert. case_decide; [subst; by rewrite Hp|done].
  - intros t ui t' k [=<-]. apply frames_refl.
  - intros t o t'. simpl. unfold refWriteViteConfig.
    destruct (projects t !! _) as [pc|]; [|done]. intros [=<-].
    split; [apply insert_keepsTsconfigs; [done|]|done].
    unfold tsconfigNames. set_solver.
  - intros t dst subst t' [=<-]. split; [|done].
    apply insert_keepsTsconfigs; [done|]. unfold tsconfigNames. set_solver.
Qed.

#[export] Instance refCollaboratorLaws : CollaboratorLaws.
Proof. split; [apply _|]. intros t t' [=<-]. apply frames_refl. Qed.

(** An Nx library [ui] in [libs/ui] with a library tsconfig. *)
Definition uiTree : Tree :=
  mkTree
    {[ "libs/ui/tsconfig.json" :=
         FJson (JObj [("files", JArr []);
                      ("references", JArr [JObj [("path", JStr "./tsconfig.lib.json")]])]);
       "libs/ui/tsconfig.lib.json" :=
         FJson (JObj [("extends", JStr "./tsconfig.json");
                      ("compilerOptions", JObj [("types", JArr [JStr "node"])])]) ]}
    {[ "ui" := {| root := "libs/ui";
                  targets := [("build", {| executor := "@nrwl/vite:build";
                                           targetOptions := JObj [] |})] |} ]}.

Definition uiSchema : Schema :=
  {| project := "ui"; uiFramework := "none"; inSourceTests := Some true;
     skipViteConfig := None |}.

Definition bareTree : Tree :=
  mkTree ∅ {[ "ui" := {| root := "libs/ui"; targets := [] |} ]}.

Lemma updateTsConfig_updates_witness :
  ∃ t', updateTsConfig uiTree uiSchema "libs/ui" = Ok t' ∧
        tsconfigsUpdated uiTree t' (flagSet (inSourceTests uiSchema)) "libs/ui".
Proof.
  destruct (updateTsConfig uiTree uiSchema "libs/ui") as [t'|e] eqn:Hrun;
    [|vm_compute in Hrun; discriminate].
  exists t'. split; [reflexivity|]. exact (updateTsConfig_updates _ _ _ _ Hrun).
Defined.

Lemma vitestGenerator_callback_witness :
  ∃ t' k, vitestGenerator uiTree uiSchema = Ok (t', k) ∧
    ∃ t1 init, initGenerator t1 (uiFramework uiSchema) = Ok init ∧ ∀ w, k w = init.2 w.
Proof.
  destruct (vitestGenerator uiTree uiSchema) as [[t' k]|e] eqn:Hrun;
    [|vm_compute in Hrun; discriminate].
  exists t', k. split; [reflexivity|]. exact (vitestGenerator_callback _ _ _ _ Hrun).
Defined.

Lemma vitestGenerator_tsconfigs_witness :
  ∃ t' k, vitestGenerator uiTree uiSchema = Ok (t', k) ∧
    ∃ pc, readProjectConfiguration uiTree (project uiSchema) = Ok pc ∧
          tsconfigsUpdated uiTree t' (flagSet (inSourceTests uiSchema)) (root pc).
Proof.
  destruct (vitestGenerator uiTree uiSchema) as [[t' k]|e] eqn:Hrun;
    [|vm_compute in Hrun; discriminate].
  exists t', k. split; [reflexivity|]. exact (vitestGenerator_tsconfigs _ _ _ _ Hrun).
Defined.

Lemma vitestGenerator_unreadable_tsconfig_witness :
  readProjectConfiguration bareTree "ui" = Ok {| root := "libs/ui"; targets := [] |} ∧
  readJson bareTree (tsconfigPath "libs/ui") = Err (NotFound "libs/ui/tsconfig.json") ∧
  ∀ res, vitestGenerator bareTree {| project := "ui"; uiFramework := "none";
                                      inSourceTests := None; skipViteConfig := None |} ≠ Ok res.
Proof.
  assert (H1 : readProjectConfiguration bareTree "ui" = Ok {| root := "libs/ui"; targets := [] |})
    by reflexivity.
  assert (H2 : readJson bareTree (tsconfigPath "libs/ui") = Err (NotFound "libs/ui/tsconfig.json"))
    by (vm_compute; reflexivity).
  split; [exact H1|]. split; [exact H2|].
  exact (vitestGenerator_unreadable_tsconfig bareTree
           {| project := "ui"; uiFramework := "none"; inSourceTests := None; skipViteConfig := None |}
           _ _ H1 H2).
Defined.

Lemma vitestGenerator_rerun_witness :
  ∃ t1 k1 t2 k2,
    vitestGenerator uiTree uiSchema = Ok (t1, k1) ∧
    vitestGenerator t1 uiSchema = Ok (t2, k2) ∧
    ∃ pc, readProjectConfiguration uiTree (project uiSchema) = Ok pc ∧
      readJson t2 (tsconfigPath (root pc)) = readJson t1 (tsconfigPath (root pc)) ∧
      (flagSet (inSourceTests uiSchema) = true →
       tree_exists uiTree (tsconfigLibPath (root pc)) = true →
       ∀ kvs co, readJson uiTree (tsconfigLibPath (root pc)) = Ok (JObj kvs) →
         alist_get "compilerOptions" kvs = Some (JObj co) →
         ∃ j1 j2, readJson t1 (tsconfigLibPath (root pc)) = Ok j1 ∧
                  readJson t2 (tsconfigLibPath (root pc)) = Ok j2 ∧
                  importMetaCount j1 = S (importMetaCount (JObj kvs)) ∧
                  importMetaCount j2 = S (importMetaCount j1)).
Proof.
  destruct (vitestGenerator uiTree uiSchema) as [[t1 k1]|e] eqn:Hrun1;
    [|vm_compute in Hrun1; discriminate].
  destruct (vitestGenerator t1 uiSchema) as [[t2 k2]|e] eqn:Hrun2.
  - exists t1, k1, t2, k2. split_and!; [reflexivity|exact Hrun2|].
    exact (vitestGenerator_rerun _ _ _ _ _ _ Hrun1 Hrun2).
  - vm_compute in Hrun1. injection Hrun1 as <- _. vm_compute in Hrun2. discriminate.
Defined.

Definition uiTsconfig : list (string * jval) :=
  [("files", JArr []); ("references", JArr [JObj [("path", JStr "./tsconfig.lib.json")]])].

Lemma updateTsConfig_succeeds_witness :
  readJson uiTree (tsconfigPath "libs/ui") = Ok (JObj uiTsconfig) ∧
  referencesWellShaped uiTsconfig ∧
  (flagSet (inSourceTests uiSchema) = true → tree_exists uiTree (tsconfigLibPath "libs/ui") = true →
     ∃ j, readJson uiTree (tsconfigLibPath "libs/ui") = Ok j ∧ typesPatchable j) ∧
  (flagSet (inSourceTests uiSchema) = true → tree_exists uiTree (tsconfigLibPath "libs/ui") = false →
     tree_exists uiTree (tsconfigAppPath "libs/ui") = true →
     ∃ j, readJson uiTree (tsconfigAppPath "libs/ui") = Ok j ∧ typesPatchable j) ∧
  ∃ t', updateTsConfig uiTree uiSchema "libs/ui" = Ok t'.
Proof.
  assert (H1 : readJson uiTree (tsconfigPath "libs/ui") = Ok (JObj uiTsconfig))
    by (vm_compute; reflexivity).
  assert (H2 : referencesWellShaped uiTsconfig) by (simpl; repeat constructor; discriminate).
  assert (H3 : flagSet (inSourceTests uiSchema) = true →
               tree_exists uiTree (tsconfigLibPath "libs/ui") = true →
               ∃ j, readJson uiTree (tsconfigLibPath "libs/ui") = Ok j ∧ typesPatchable j).
  { intros _ _. eexists. split; [vm_compute; reflexivity|].
    eexists _, _. split_and!; [reflexivity|reflexivity|right; eexists; reflexivity]. }
  assert (H4 : flagSet (inSourceTests uiSchema) = true →
               tree_exists uiTree (tsconfigLibPath "libs/ui") = false →
               tree_exists uiTree (tsconfigAppPath "libs/ui") = true →
               ∃ j, readJson uiTree (tsconfigAppPath "libs/ui") = Ok j ∧ typesPatchable j).
  { intros _ Hl. vm_compute in Hl. discriminate. }
  split_and!; [exact H1|exact H2|exact H3|exact H4|].
  exact (updateTsConfig_succeeds _ _ _ _ H1 H2 H3 H4).
Defined.
Definition uiSkipSchema : Schema :=
  {| project := "ui"; uiFramework := "none"; inSourceTests := Some true;
     skipViteConfig := Some true |}.

Lemma vitestGenerator_skipViteConfig_witness :
  flagSet (skipViteConfig uiSkipSchema) = true ∧
  @vitestGenerator (with_writeViteConfig refCollaborators (λ _ _, throw (HostError "writeViteConfig")))
    uiTree uiSkipSchema = vitestGenerator uiTree uiSkipSchema.
Proof.
  split; [reflexivity|].
  exact (vitestGenerator_skipViteConfig (λ _ _, throw (HostError "writeViteConfig")) uiTree uiSkipSchema eq_refl).
Defined.

Lemma vitestGenerator_writeViteConfig_error_witness :
  @vitestGenerator (with_writeViteConfig refCollaborators (λ _ _, throw (HostError "writeViteConfig")))
    uiTree uiSchema = Err (HostError "writeViteConfig").
Proof.
  exact (@vitestGenerator_writeViteConfig_error
           (with_writeViteConfig refCollaborators (λ _ _, throw (HostError "writeViteConfig")))
           uiTree uiSchema _ _ _ _ (HostError "writeViteConfig") eq_refl eq_refl eq_refl eq_refl eq_refl).
Defined.

Lemma uiTree_typed : tsconfigsTyped uiTree "libs/ui".
Proof.
  intros p j Hp. repeat (apply elem_of_cons in Hp as [->|Hp]);
    [..|by apply elem_of_nil in Hp]; vm_compute; by intros [=<-].
Qed.

Lemma updateTsConfig_preserves_typed_witness :
  tsconfigsTyped uiTree "libs/ui" ∧
  ∃ t', updateTsConfig uiTree uiSchema "libs/ui" = Ok t' ∧ tsconfigsTyped t' "libs/ui".
Proof.
  pose proof uiTree_typed as Hty.
  split; [exact Hty|].
  destruct (updateTsConfig uiTree uiSchema "libs/ui") as [t'|e] eqn:Hrun;
    [|vm_compute in Hrun; discriminate].
  exists t'. split; [reflexivity|]. exact (updateTsConfig_preserves_typed _ _ _ _ Hty Hrun).
Defined.

(** The library's tsconfig of [uiTree]. *)
Definition uiLibTsconfig : list (string * jval) :=
  [("extends", JStr "./tsconfig.json"); ("compilerOptions", JObj [("types", JArr [JStr "node"])])].

Lemma vitestGenerator_refines_merger_witness :
  ∃ t' k pc, vitestGenerator uiTree uiSchema = Ok (t', k) ∧
    readProjectConfiguration uiTree (project uiSchema) = Ok pc ∧
    readJson uiTree (tsconfigPath (root pc)) = Ok (JObj uiTsconfig) ∧
    referencesWellShaped uiTsconfig ∧
    readJson uiTree (tsconfigLibPath (root pc)) = Ok (JObj uiLibTsconfig) ∧
    (∃ d, Spec.ensureReference (JObj uiTsconfig) tsconfigSpecPath = Ok d ∧
          readJson t' (tsconfigPath (root pc)) = Ok d) ∧
    (∃ d, Spec.ensureListedType (JObj uiLibTsconfig) ["compilerOptions"; "types"]
            vitestImportMeta = Ok d ∧
          readJson t' (tsconfigLibPath (root pc)) = Ok d).
Proof.
  destruct (vitestGenerator uiTree uiSchema) as [[t' k]|e] eqn:Hrun;
    [|vm_compute in Hrun; discriminate].
  assert (Hpc : readProjectConfiguration uiTree (project uiSchema) =
                Ok {| root := "libs/ui";
                      targets := [("build", {| executor := "@nrwl/vite:build";
                                               targetOptions := JObj [] |})] |})
    by reflexivity.
  assert (H1 : readJson uiTree (tsconfigPath "libs/ui") = Ok (JObj uiTsconfig))
    by (vm_compute; reflexivity).
  assert (H2 : referencesWellShaped uiTsconfig) by (simpl; repeat constructor; discriminate).
  assert (H3 : readJson uiTree (tsconfigLibPath "libs/ui") = Ok (JObj uiLibTsconfig))
    by (vm_compute; reflexivity).
  destruct (vitestGenerator_refines_merger _ _ _ _ _ _ Hrun Hpc H1 H2) as [Href Hlib].
  exists t', k, {| root := "libs/ui";
                   targets := [("build", {| executor := "@nrwl/vite:build";
                                            targetOptions := JObj [] |})] |}.
  split_and!; [done|exact Hpc|exact H1|exact H2|exact H3|exact Href|].
  apply (Hlib eq_refl _ [("types", JArr [JStr "node"])] H3 eq_refl).
  right. eexists. split; reflexivity.
Defined.

End ReferenceHost.
