(* ===== verification/Trace.v ===== *)
(** * The order of the collaborator calls of [vitestGenerator]

    [traced C] is the host [C] with each collaborator logging its name,
    after it returns, to a trace file of the tree ([tracePath], a JSON
    array of names).  Under [TraceFrame C], the collaborators of [C]
    leave that file alone; [updateTsConfig] only writes tsconfig files, so
    after a successful run the trace holds exactly the calls of lines
    31-48, in the source's order, each once, with [writeViteConfig] only
    when [skipViteConfig] is not set. *)

From stdpp Require Import gmap.
From S2P Require Import Prelude JsValue TsConfig Devkit Generator.
Local Set Warnings "-clear-no-such-hyp".
Local Open Scope string_scope.

(** ** The trace file *)

Definition tracePath : string := "nx-trace.json".

Definition traceOf (t : Tree) : list jval :=
  match files t !! tracePath with Some (FJson (JArr l)) => l | _ => [] end.

Definition logCall (t : Tree) (label : string) : Tree :=
  writeJson t tracePath (JArr (traceOf t ++ [JStr label])%list).

(** ** The traced host *)

Definition traced (C : Collaborators) : Collaborators := {|
  World := @World C;
  moduleDir := @moduleDir C;
  findTestTarget := @findTestTarget C;
  addOrChangeTestTarget t s tt :=
    t' <- @addOrChangeTestTarget C t s tt ;; Ok (logCall t' "addOrChangeTestTarget");
  initGenerator t ui :=
    r <- @initGenerator C t ui ;; Ok (logCall r.1 "initGenerator", r.2);
  writeViteConfig t o :=
    t' <- @writeViteConfig C t o ;; Ok (logCall t' "writeViteConfig");
  generateFiles t src dst subst :=
    t' <- @generateFiles C t src dst subst ;; Ok (logCall t' "generateFiles");
  formatFiles t :=
    t' <- @formatFiles C t ;; Ok (logCall t' "formatFiles")
|}.

(** The calls the source makes, in order (lines 31, 33, 39, 45 through
    [createFiles], 48). *)
Definition expectedCalls (s : Schema) : list string :=
  (["addOrChangeTestTarget"; "initGenerator"] ++
   (if flagSet (skipViteConfig s) then [] else ["writeViteConfig"]) ++
   ["generateFiles"; "formatFiles"])%list.

(** What the trace needs of a host: its collaborators do not write the
    trace file. *)
Class TraceFrame (C : Collaborators) := {
  addOrChangeTestTarget_trace t s tt t' :
    @addOrChangeTestTarget C t s tt = Ok t' → traceOf t' = traceOf t;
  initGenerator_trace t ui t' k :
    @initGenerator C t ui = Ok (t', k) → traceOf t' = traceOf t;
  writeViteConfig_trace t o t' :
    @writeViteConfig C t o = Ok t' → traceOf t' = traceOf t;
  generateFiles_trace t src dst subst t' :
    @generateFiles C t src dst subst = Ok t' → traceOf t' = traceOf t;
  formatFiles_trace t t' :
    @formatFiles C t = Ok t' → traceOf t' = traceOf t
}.

(** ** Lemmas *)

Lemma traceOf_logCall t l : traceOf (logCall t l) = (traceOf t ++ [JStr l])%list.
Proof. unfold traceOf at 1, logCall, writeJson. simpl. by rewrite lookup_insert_eq. Qed.

Lemma traceOf_writeJson_ne t p v : p ≠ tracePath → traceOf (writeJson t p v) = traceOf t.
Proof. intros Hp. unfold traceOf. by rewrite files_writeJson_ne. Qed.

Lemma tracePath_no_slash : no_slash tracePath = true.
Proof. reflexivity. Qed.

(** A file [a] of any root is not the trace file. *)
Lemma joinPathFragments_ne_trace r a :
  plain_name a = true → a ≠ tracePath → joinPathFragments [r; a] ≠ tracePath.
Proof.
  intros Ha Hne Heq. apply Hne.
  pose proof (joinPathFragments_basename r a Ha) as Hb.
  rewrite Heq, split_slash_no_slash in Hb by apply tracePath_no_slash. simpl in Hb. congruence.
Qed.

Lemma updateTsConfig_trace `{Collaborators} t o r t' :
  updateTsConfig t o r = Ok t' → traceOf t' = traceOf t.
Proof.
  intros [_ Hf]%updateTsConfig_frame. unfold traceOf.
  rewrite Hf; [done|..]; (apply not_eq_sym, joinPathFragments_ne_trace; [reflexivity|discriminate]).
Qed.

(** Rewrite the trace of a tree back through the calls that made it. *)
Ltac trace_rw :=
  repeat first
    [ rewrite traceOf_logCall
    | match goal with
      | H : formatFiles _ = Ok _ |- _ => rewrite (formatFiles_trace _ _ H); clear H
      | H : updateTsConfig _ _ _ = Ok _ |- _ => rewrite (updateTsConfig_trace _ _ _ _ H); clear H
      | H : generateFiles _ _ _ _ = Ok _ |- _ => rewrite (generateFiles_trace _ _ _ _ _ H); clear H
      | H : writeViteConfig _ _ = Ok _ |- _ => rewrite (writeViteConfig_trace _ _ _ H); clear H
      | H : initGenerator _ _ = Ok (_, _) |- _ => rewrite (initGenerator_trace _ _ _ _ H); clear H
      | H : addOrChangeTestTarget _ _ _ = Ok _ |- _ =>
          rewrite (addOrChangeTestTarget_trace _ _ _ _ H); clear H
      end ].

(** ** The call order *)

Section CallOrder.
Context (C : Collaborators) `{HT : !TraceFrame C}.

(** C16 (safety) A successful run calls the collaborators in the order of
    lines 31-48, each once: [addOrChangeTestTarget], the [init]
    generator, [writeViteConfig] exactly when [skipViteConfig] is not set,
    [generateFiles] (through [createFiles]) and [formatFiles]; the trace
    the traced host leaves in the tree is the input's trace followed by
    these names. *)
Theorem vitestGenerator_call_order t s t' k :
  @vitestGenerator (traced C) t s = Ok (t', k) →
  traceOf t' = (traceOf t ++ map JStr (expectedCalls s))%list.
Proof using HT.
  unfold vitestGenerator. simpl. intros H. inv_ok.
  match goal with H : initGenerator _ _ = Ok ?r |- _ => destruct r end.
  unfold expectedCalls. destruct (flagSet (skipViteConfig s)); simpl in *; inv_ok;
    trace_rw; by rewrite <- !app_assoc.
Qed.
End CallOrder.

(** ** The reference host keeps the trace file *)

Module ReferenceTrace.
Import ReferenceHost.

#[export] Instance refTraceFrame : TraceFrame refCollaborators.
Proof.
  split.
  - intros t s tt t'. simpl. unfold refAddOrChangeTestTarget.
    destruct (projects t !! project s); [|done]. by intros [=<-].
  - by intros t ui t' k [=<-].
  - intros t o t'. simpl. unfold refWriteViteConfig.
    destruct (projects t !! _) as [pc|]; [|done]. intros [=<-].
    unfold traceOf. simpl. rewrite lookup_insert_ne; [done|].
    by apply joinPathFragments_ne_trace.
  - intros t src dst subst t' [=<-]. apply traceOf_writeJson_ne.
    by apply joinPathFragments_ne_trace.
  - by intros t t' [=<-].
Qed.

Lemma vitestGenerator_call_order_witness :
  ∃ t' k, @vitestGenerator (traced refCollaborators) uiTree uiSchema = Ok (t', k) ∧
          traceOf t' = map JStr (expectedCalls uiSchema).
Proof.
  destruct (@vitestGenerator (traced refCollaborators) uiTree uiSchema) as [[t' k]|e] eqn:Hrun;
    [|vm_compute in Hrun; discriminate].
  exists t', k. split; [reflexivity|].
  exact (vitestGenerator_call_order refCollaborators uiTree uiSchema t' k Hrun).
Defined.
End ReferenceTrace.
