(* ===== verification/Mutable.v ===== *)
(** * The generator over Nx's mutable tree

    In the source, [tree] is a mutable object: [updateJson], the
    collaborators and [generateFiles] write into it as they run, and an
    exception leaves in it every write made before the throw.  The host
    flushes the tree to disk only when the generator returns (spec
    section 7: "no partial writes").  This file translates lines 22-93
    a second time, over that mutable tree: [mut A] is a state monad
    whose exceptions keep the state; each host call is atomic ([call]:
    [updateJson] writes only after its callback returned).

    [discard] is the host's policy: the tree on success, nothing on an
    exception.  The lemma [vitestGenerator_discard] says that the
    result-monad model of [Generator] is the mutable model followed by
    [discard]; through it, a mutable run that returns leaves the
    tsconfig files as lines 53-93 update them.  The theorems on
    exceptions say what [discard] hides: when a run throws, the tsconfig
    files are in one of three states, and the partial one is reached
    when the library's types update throws after [tsconfig.json] has
    been rewritten. *)

From stdpp Require Import gmap.
From S2P Require Import Prelude JsValue TsConfig Devkit Generator.
Local Set Warnings "-clear-no-such-hyp".

(** ** The state-and-exception monad *)

(** A computation on the mutable tree: the tree when it returns or
    throws, with its value or its exception. *)
Definition mut (A : Type) : Type := Tree → Tree * js A.

Definition mut_ret {A} (a : A) : mut A := λ t, (t, Ok a).

Definition mut_bind {A B} (m : mut A) (f : A → mut B) : mut B :=
  λ t, match m t with (t1, Ok a) => f a t1 | (t1, Err e) => (t1, Err e) end.

(** Read the current tree. *)
Definition mut_get : mut Tree := λ t, (t, Ok t).

(** A value or exception computed without touching the tree. *)
Definition mut_lift {A} (r : js A) : mut A := λ t, (t, r).

(** A host call that returns a new tree and a value; a throw leaves the
    tree as it was. *)
Definition call_with {A} (f : Tree → js (Tree * A)) : mut A :=
  λ t, match f t with Ok (t', a) => (t', Ok a) | Err e => (t, Err e) end.

Definition call (f : Tree → js Tree) : mut () := call_with (λ t, (λ t', (t', ())) <$> f t).

Declare Scope mut_scope.
Delimit Scope mut_scope with mut.
Notation "x <~ m ;; k" := (mut_bind m (λ x, k))
  (at level 100, m at next level, right associativity) : mut_scope.
Notation "m ;;; k" := (mut_bind m (λ _, k))
  (at level 100, right associativity) : mut_scope.
Local Open Scope mut_scope.

(** What the host keeps: the tree of a run that returned, nothing of one
    that threw. *)
Definition discard {A} (r : Tree * js A) : js (Tree * A) :=
  match r with (t, Ok a) => Ok (t, a) | (_, Err e) => Err e end.

(** ** Lines 53-93 and 22-51 over the mutable tree *)

Section Mutable.
Context `{Collaborators}.

(** Lines 53-93: the [tree.exists] tests read the tree as the first
    [updateJson] left it. *)
Definition updateTsConfig_m (options : Schema) (projectRoot : string) : mut () :=
  call (λ t, updateJson t (joinPathFragments [projectRoot; "tsconfig.json"]) updateReferences) ;;;
  if flagSet (inSourceTests options) then
    let tsconfigLibPath := joinPathFragments [projectRoot; "tsconfig.lib.json"] in
    let tsconfigAppPath := joinPathFragments [projectRoot; "tsconfig.app.json"] in
    t <~ mut_get ;;
    if tree_exists t tsconfigLibPath then
      call (λ t, updateJson t (joinPathFragments [projectRoot; "tsconfig.lib.json"]) addImportMetaType)
    else if tree_exists t tsconfigAppPath then
      call (λ t, updateJson t (joinPathFragments [projectRoot; "tsconfig.app.json"]) addImportMetaType)
    else mut_ret ()
  else mut_ret ().

(** Lines 22-51. *)
Definition vitestGenerator_m (schema : Schema) : mut (task World) :=
  t <~ mut_get ;;
  pc <~ mut_lift (readProjectConfiguration t (project schema)) ;;
  call (λ t, addOrChangeTestTarget t schema (findTestTarget (targets pc))) ;;;
  init <~ call_with (λ t, initGenerator t (uiFramework schema)) ;;
  (if negb (flagSet (skipViteConfig schema))
   then call (λ t, writeViteConfig t {| viteSchema := schema; includeVitest := true |})
   else mut_ret ()) ;;;
  call (λ t, createFiles t schema (root pc)) ;;;
  updateTsConfig_m schema (root pc) ;;;
  call formatFiles ;;;
  mut_ret (runTasksInSerial [init]).
End Mutable.

(** ** Lemmas *)

Lemma discard_bind {A B} (m : mut A) (f : A → mut B) t :
  discard (mut_bind m f t) = res_bind (discard (m t)) (λ p, discard (f p.2 p.1)).
Proof. unfold mut_bind. by destruct (m t) as [t1 [a|e]]. Qed.

Lemma discard_call_with {A} (f : Tree → js (Tree * A)) t : discard (call_with f t) = f t.
Proof. unfold call_with. by destruct (f t) as [[t' a]|e]. Qed.

Lemma discard_call f t : discard (call f t) = (λ t', (t', ())) <$> f t.
Proof. unfold call. rewrite discard_call_with. done. Qed.



Lemma mut_bind_Ok {A B} (m : mut A) (k : A → mut B) t t' a :
  m t = (t', Ok a) → mut_bind m k t = k a t'.
Proof. intros E. unfold mut_bind. by rewrite E. Qed.

Lemma mut_bind_Err {A B} (m : mut A) (k : A → mut B) t t' e :
  m t = (t', Err e) → mut_bind m k t = (t', Err e).
Proof. intros E. unfold mut_bind. by rewrite E. Qed.

Lemma mut_bind_get {B} (k : Tree → mut B) t : mut_bind mut_get k t = k t t.
Proof. done. Qed.

Lemma mut_bind_ret {A B} (a : A) (k : A → mut B) t : mut_bind (mut_ret a) k t = k a t.
Proof. done. Qed.

Lemma mut_bind_lift_Ok {A B} (a : A) (k : A → mut B) t : mut_bind (mut_lift (Ok a)) k t = k a t.
Proof. done. Qed.

Lemma call_with_Ok {A} (f : Tree → js (Tree * A)) t p : f t = Ok p → call_with f t = (p.1, Ok p.2).
Proof. intros E. unfold call_with. rewrite E. by destruct p. Qed.

Lemma call_with_Err {A} (f : Tree → js (Tree * A)) t e : f t = Err e → call_with f t = (t, Err e).
Proof. intros E. unfold call_with. by rewrite E. Qed.

Lemma call_Ok f t t' : f t = Ok t' → call f t = (t', Ok ()).
Proof. intros E. unfold call. apply (call_with_Ok _ _ (t', ())). by rewrite E. Qed.

Lemma call_Err f t e : f t = Err e → call f t = (t, Err e).
Proof. intros E. unfold call. apply call_with_Err. by rewrite E. Qed.

#[export] Hint Rewrite @discard_bind @discard_call_with discard_call : vitest_rw.

(** ** The result model is the mutable model seen through the host *)

Section Equivalence.
Context `{Collaborators}.

Lemma updateTsConfig_discard t o r :
  (λ t', (t', ())) <$> updateTsConfig t o r = discard (updateTsConfig_m o r t).
Proof.
  unfold updateTsConfig, updateTsConfig_m. rewrite discard_bind, discard_call.
  destruct (updateJson t _ updateReferences) as [t1|e]; [simpl|done].
  destruct (flagSet _); [|done]. rewrite discard_bind. simpl.
  destruct (tree_exists t1 _); [by rewrite discard_call|].
  destruct (tree_exists t1 _); [by rewrite discard_call|done].
Qed.


Lemma updateTsConfig_of_m t o r t' :
  updateTsConfig_m o r t = (t', Ok ()) → updateTsConfig t o r = Ok t'.
Proof.
  intros E. pose proof (updateTsConfig_discard t o r) as Hd. rewrite E in Hd.
  destruct (updateTsConfig t o r); simpl in Hd; congruence.
Qed.



End Equivalence.

(** ** A run that returns *)

Section Returns.
Context `{HL : CollaboratorLaws}.

End Returns.

(** ** Partial writes *)

(** [updateJson] throws what its callback throws, before writing. *)
Lemma updateJson_callback_err t p f v e :
  readJson t p = Ok v → f v = Err e → updateJson t p f = Err e.
Proof. intros Hr Hf. unfold updateJson. by rewrite Hr, bind_Ok, Hf. Qed.

(** C18 (error, spec section 7) The mutable tree keeps a partial update:
    with [inSourceTests], when [tsconfig.json] is rewritten (line 58) and
    the callback of line 78 then throws on [tsconfig.lib.json] (for
    instance when it has no [compilerOptions]), [updateTsConfig] reports
    the callback's exception, while the tree the source mutates already
    holds the rewritten [tsconfig.json].  "No partial writes" holds only
    because the host does not flush the tree of a run that threw. *)
Theorem updateTsConfig_m_partial_write t o r v v' w e :
  readJson t (tsconfigPath r) = Ok v → updateReferences v = Ok v' →
  flagSet (inSourceTests o) = true →
  readJson t (tsconfigLibPath r) = Ok w → addImportMetaType w = Err e →
  updateTsConfig t o r = Err e ∧
  updateTsConfig_m o r t = (writeJson t (tsconfigPath r) v', Err e).
Proof.
  intros Hv Hu Hflag Hw Hadd.
  assert (Hm : updateTsConfig_m o r t = (writeJson t (tsconfigPath r) v', Err e)).
  { unfold updateTsConfig_m.
    erewrite mut_bind_Ok by (apply call_Ok, updateJson_ok; eauto).
    rewrite Hflag. cbv zeta. rewrite mut_bind_get, tree_exists_writeJson,
      (readJson_exists _ (joinPathFragments [r; "tsconfig.lib.json"]) _ Hw), orb_true_r.
    apply call_Err. apply (updateJson_callback_err _ _ _ w); [|done].
    by rewrite readJson_writeJson_ne by apply tsconfig_ne_lib. }
  split; [|done].
  pose proof (updateTsConfig_discard t o r) as Hd. rewrite Hm in Hd.
  destruct (updateTsConfig t o r); simpl in Hd; congruence.
Qed.

(** The three tsconfig files of root [r] read in [t'] as in [t]. *)
Definition tsconfigsKept (t t' : Tree) (r : string) : Prop :=
  ∀ p, p ∈ [tsconfigPath r; tsconfigLibPath r; tsconfigAppPath r] → readJson t' p = readJson t p.

(** [tsconfig.json] of root [r] updated by the callback of lines 58-68,
    the two others as they were. *)
Definition onlyReferencesUpdated (t t' : Tree) (r : string) : Prop :=
  fileUpdated t t' (tsconfigPath r) updateReferences ∧
  readJson t' (tsconfigLibPath r) = readJson t (tsconfigLibPath r) ∧
  readJson t' (tsconfigAppPath r) = readJson t (tsconfigAppPath r).

Lemma onlyReferencesUpdated_frames t0 t1 t2 r :
  frames t0 t1 → onlyReferencesUpdated t1 t2 r → onlyReferencesUpdated t0 t2 r.
Proof.
  intros F (Hts & Hlib & Happ). destruct tsconfigNames_elem as (N1 & N2 & N3).
  split_and!.
  - eapply fileUpdated_pre; [apply (frames_readJson _ _ r _ F N1)|exact Hts].
  - rewrite Hlib. apply (frames_readJson _ _ r _ F N2).
  - rewrite Happ. apply (frames_readJson _ _ r _ F N3).
Qed.

(** Lines 53-93 throw either before their first write or after
    rewriting [tsconfig.json] alone. *)
Lemma updateTsConfig_m_throw t o r t' e :
  updateTsConfig_m o r t = (t', Err e) → t' = t ∨ onlyReferencesUpdated t t' r.
Proof.
  unfold updateTsConfig_m. intros Hrun.
  destruct (updateJson t (tsconfigPath r) updateReferences) as [t1|e1] eqn:E1;
    [erewrite mut_bind_Ok in Hrun by (apply call_Ok; exact E1)
    |erewrite mut_bind_Err in Hrun by (apply call_Err; exact E1); left; congruence].
  right. assert (Hlib : ∀ q, tsconfigPath r ≠ q → readJson t1 q = readJson t q)
    by (intros q; apply (readJson_updateJson_ne _ _ _ _ _ E1)).
  assert (Hu : onlyReferencesUpdated t t1 r)
    by (split_and!; [by apply fileUpdated_updateJson|apply Hlib, tsconfig_ne_lib
                    |apply Hlib, tsconfig_ne_app]).
  destruct (flagSet _); [|done]. cbv zeta in Hrun. rewrite mut_bind_get in Hrun.
  destruct (tree_exists t1 _); [|destruct (tree_exists t1 _); [|done]];
    match type of Hrun with
    | call ?f t1 = _ => destruct (f t1) eqn:E2;
        [rewrite (call_Ok _ _ _ E2) in Hrun|rewrite (call_Err _ _ _ E2) in Hrun]; congruence
    end.
Qed.

Lemma frames_tsconfigsKept t t' r : frames t t' → tsconfigsKept t t' r.
Proof. intros F p. by apply frames_readJson_tsconfigs. Qed.

(** One step of lines 31-45 on the mutable tree: a throw leaves the
    tree of the step before, which frames the input. *)
Ltac throw_step H e x F Fx :=
  let E := fresh "E" in
  destruct e as [x|?] eqn:E;
  [ erewrite mut_bind_Ok in H by (apply call_Ok; exact E);
    assert (frames _ x) as Fx by (eapply frames_trans; [exact F|by eauto with vitest])
  | erewrite mut_bind_Err in H by (apply call_Err; exact E);
    injection H as <- _; left; by apply frames_tsconfigsKept ].

Section Throw.
Context `{HS : StepLaws}.
#[local] Hint Resolve addOrChangeTestTarget_frames writeViteConfig_frames
  generateFiles_frames : vitest.

Lemma createFiles_frames t o r t' : createFiles t o r = Ok t' → frames t t'.
Proof using HS. apply generateFiles_frames. Qed.
#[local] Hint Resolve createFiles_frames : vitest.

(** C17 (safety, spec section 7) What the mutable tree holds when a run
    throws: the project's tsconfig files are either as in the input (a
    collaborator threw, or reading [tsconfig.json] failed), or only
    [tsconfig.json] rewritten by the callback of lines 58-68 (the types
    callback threw), or all of them updated as lines 53-93 say
    ([formatFiles] threw).  No exception leaves [tsconfig.lib.json] or
    [tsconfig.app.json] changed while [tsconfig.json] is not. *)
Theorem vitestGenerator_m_throw_states t s pc t' e :
  readProjectConfiguration t (project s) = Ok pc →
  vitestGenerator_m s t = (t', Err e) →
  tsconfigsKept t t' (root pc) ∨ onlyReferencesUpdated t t' (root pc) ∨
  tsconfigsUpdated t t' (flagSet (inSourceTests s)) (root pc).
Proof using HS.
  intros Hpc Hrun. unfold vitestGenerator_m in Hrun.
  rewrite mut_bind_get, Hpc, mut_bind_lift_Ok in Hrun.
  pose proof (frames_refl t) as F0.
  throw_step Hrun (addOrChangeTestTarget t s (findTestTarget (targets pc))) t1 F0 F1.
  destruct (initGenerator t1 (uiFramework s)) as [[t2 k]|?] eqn:E2;
    [erewrite mut_bind_Ok in Hrun by (apply (call_with_Ok _ _ (t2, k)); exact E2); simpl in Hrun;
     assert (frames t t2) as F2 by (eapply frames_trans; [exact F1|by eapply initGenerator_frames])
    |erewrite mut_bind_Err in Hrun by (apply call_with_Err; exact E2);
     injection Hrun as <- _; left; by apply frames_tsconfigsKept].
  destruct (negb _);
    [throw_step Hrun (writeViteConfig t2 {| viteSchema := s; includeVitest := true |}) t3 F2 F3
    |rewrite mut_bind_ret in Hrun; rename t2 into t3; rename F2 into F3].
  all: throw_step Hrun (createFiles t3 s (root pc)) t4 F3 F4;
    destruct (updateTsConfig_m s (root pc) t4) as [t5 [[]|e5]] eqn:E5;
    [erewrite mut_bind_Ok in Hrun by exact E5
    |erewrite mut_bind_Err in Hrun by exact E5; injection Hrun as -> _;
     apply updateTsConfig_m_throw in E5 as [->|Ho];
       [left; by apply frames_tsconfigsKept|right; left; by eapply onlyReferencesUpdated_frames]];
    (destruct (formatFiles t5) eqn:E6;
     [by erewrite mut_bind_Ok in Hrun by (apply call_Ok; exact E6)
     |erewrite mut_bind_Err in Hrun by (apply call_Err; exact E6); injection Hrun as <- _]);
    right; right; eapply tsconfigsUpdated_frames; [exact F4| |apply frames_refl];
    by apply updateTsConfig_effect, updateTsConfig_of_m.
Qed.
End Throw.

Module ReferenceMutable.
Import ReferenceHost.

(** [libs/ui] whose [tsconfig.lib.json] has no [compilerOptions]. *)
Definition bareLibTree : Tree :=
  mkTree
    {[ "libs/ui/tsconfig.json" := FJson (JObj [("references", JArr [])]);
       "libs/ui/tsconfig.lib.json" := FJson (JObj [("extends", JStr "./tsconfig.json")]) ]}
    (projects uiTree).

Lemma updateTsConfig_m_partial_write_witness :
  ∃ v v' w e,
    readJson bareLibTree (tsconfigPath "libs/ui") = Ok v ∧ updateReferences v = Ok v' ∧
    flagSet (inSourceTests uiSchema) = true ∧
    readJson bareLibTree (tsconfigLibPath "libs/ui") = Ok w ∧ addImportMetaType w = Err e ∧
    updateTsConfig bareLibTree uiSchema "libs/ui" = Err e ∧
    updateTsConfig_m uiSchema "libs/ui" bareLibTree =
      (writeJson bareLibTree (tsconfigPath "libs/ui") v', Err e).
Proof.
  do 4 eexists.
  assert (Hv : readJson bareLibTree (tsconfigPath "libs/ui") = Ok (JObj [("references", JArr [])]))
    by reflexivity.
  assert (Hu : updateReferences (JObj [("references", JArr [])]) =
               Ok (JObj [("references", JArr [specReference])]))
    by reflexivity.
  assert (Hw : readJson bareLibTree (tsconfigLibPath "libs/ui") =
               Ok (JObj [("extends", JStr "./tsconfig.json")])) by reflexivity.
  assert (Ha : addImportMetaType (JObj [("extends", JStr "./tsconfig.json")]) =
               Err (TypeError (ReadOfNullish "types"))) by reflexivity.
  split_and!; [exact Hv|exact Hu|reflexivity|exact Hw|exact Ha|..];
    apply (updateTsConfig_m_partial_write _ uiSchema _ _ _ _ _ Hv Hu eq_refl Hw Ha).
Defined.

Lemma vitestGenerator_m_throw_states_witness :
  ∃ pc t' e, readProjectConfiguration bareLibTree (project uiSchema) = Ok pc ∧
    vitestGenerator_m uiSchema bareLibTree = (t', Err e) ∧
    (tsconfigsKept bareLibTree t' (root pc) ∨ onlyReferencesUpdated bareLibTree t' (root pc) ∨
     tsconfigsUpdated bareLibTree t' (flagSet (inSourceTests uiSchema)) (root pc)).
Proof.
  destruct (readProjectConfiguration bareLibTree (project uiSchema)) as [pc|?] eqn:Hpc;
    [|vm_compute in Hpc; discriminate].
  destruct (vitestGenerator_m uiSchema bareLibTree) as [t' [k|e]] eqn:Hrun;
    [vm_compute in Hrun; discriminate|].
  exists pc, t', e. split_and!; [reflexivity|reflexivity|].
  exact (vitestGenerator_m_throw_states _ _ _ _ _ Hpc Hrun).
Defined.

End ReferenceMutable.
