(* ===== verification/Format.v ===== *)
(** * Formatters that reorder keys

    [formatFiles] (line 48) runs the host's formatter over the tree.  The
    exact frame law of [CollaboratorLaws] asks it to keep the parsed
    tsconfig files as they are; a formatter that sorts or moves keys
    breaks that law but changes no configuration.  [FormatUpTo] asks
    only that the tsconfig files be kept up to key order ([jequiv] of
    [JsonEquiv]); under it and the [StepLaws] of the other collaborators,
    a successful run leaves the tsconfig files equal, up to key order, to
    a tree in which [updateTsConfig]'s updates hold exactly.
    [keyOrderFormatter], which moves [compilerOptions] to the front of
    every JSON object file, satisfies [FormatUpTo] and not the exact law. *)

From stdpp Require Import gmap.
From S2P Require Import Prelude JsValue TsConfig JsonEquiv Devkit Generator.
Local Set Warnings "-clear-no-such-hyp".

(** ** The relaxed law *)

(** [t'] has the tsconfig files of [t], up to the order of object keys. *)
Definition keepsTsconfigsUpTo (t t' : Tree) : Prop :=
  ∀ r name, name ∈ tsconfigNames →
    res_rel (≡) (readJson t' (joinPathFragments [r; name]))
                (readJson t (joinPathFragments [r; name])).

Class FormatUpTo `{Collaborators} := {
  formatFiles_upto t t' :
    formatFiles t = Ok t' → keepsTsconfigsUpTo t t' ∧ keepsRoots t t'
}.

(** The exact law is a special case. *)
#[export] Instance collaboratorLaws_formatUpTo `{Collaborators} `{!CollaboratorLaws} :
  FormatUpTo.
Proof.
  split. intros t t' [Hk Hr]%formatFiles_frames. split; [|done].
  intros r name Hn. unfold readJson. rewrite Hk by done. reflexivity.
Qed.

(** ** The end-to-end theorem *)

Section UpTo.
Context `{Collaborators} `{HS : !StepLaws} `{HF : !FormatUpTo}.

(** C3 (refinement up to key order) With collaborators that keep the
    tsconfig files before [formatFiles] and a [formatFiles] that may
    reorder keys, a successful run leaves the project's three tsconfig
    files equal, up to key order, to those of a tree [t4] in which the
    updates of lines 53-93 hold exactly: [tsconfig.json] through
    [updateReferences], with [inSourceTests] the library's or else the
    application's tsconfig through [addImportMetaType]. *)
Theorem vitestGenerator_tsconfigs_upto t s t' k :
  vitestGenerator t s = Ok (t', k) →
  ∃ pc t4, readProjectConfiguration t (project s) = Ok pc ∧
    tsconfigsUpdated t t4 (flagSet (inSourceTests s)) (root pc) ∧
    ∀ name, name ∈ tsconfigNames →
      res_rel (≡) (readJson t' (joinPathFragments [root pc; name]))
                  (readJson t4 (joinPathFragments [root pc; name])).
Proof using HS HF.
  intros (pc & t3 & t4 & Hpc & F1 & Hu & Hf)%vitestGenerator_prefix.
  destruct (formatFiles_upto _ _ Hf) as [Hk _].
  exists pc, t4. split_and!; [done| |intros name Hn; by apply Hk].
  eapply tsconfigsUpdated_frames; [exact F1|by apply updateTsConfig_effect|apply frames_refl].
Qed.
End UpTo.

(** ** A formatter that moves [compilerOptions] first *)

Definition frontKey (k : string) (kvs : list (string * jval)) : list (string * jval) :=
  match alist_get k kvs with
  | Some v => (k, v) :: filter (λ kv, kv.1 ≠ k) kvs
  | None => kvs
  end.

Definition formatFile (f : file) : file :=
  match f with FJson (JObj kvs) => FJson (JObj (frontKey "compilerOptions" kvs)) | _ => f end.

Definition keyOrderFormatter (t : Tree) : js Tree :=
  Ok (mkTree (formatFile <$> files t) (projects t)).

(** Host [C] with its [formatFiles] replaced by [f]. *)
Definition with_formatFiles (C : Collaborators) (f : Tree → js Tree) : Collaborators := {|
  World := @World C;
  moduleDir := @moduleDir C;
  findTestTarget := @findTestTarget C;
  addOrChangeTestTarget := @addOrChangeTestTarget C;
  initGenerator := @initGenerator C;
  writeViteConfig := @writeViteConfig C;
  generateFiles := @generateFiles C;
  formatFiles := f
|}.

#[export] Instance with_formatFiles_steps (C : Collaborators) f :
  @StepLaws C → @StepLaws (with_formatFiles C f).
Proof. intros []. by split. Qed.

Lemma alist_get_filter_ne {V} k k' (kvs : list (string * V)) :
  k' ≠ k → alist_get k' (filter (λ kv, kv.1 ≠ k) kvs) = alist_get k' kvs.
Proof.
  intros Hne. induction kvs as [|[k0 v0] rest IH]; [done|].
  rewrite filter_cons. simpl. case_decide as Hk0; simpl.
  - by rewrite IH.
  - subst k0. by rewrite (proj2 (String.eqb_neq _ _) Hne).
Qed.

Lemma alist_get_frontKey k k' kvs : alist_get k' (frontKey k kvs) = alist_get k' kvs.
Proof.
  unfold frontKey. destruct (alist_get k kvs) as [v|] eqn:Hk; [|done]. simpl.
  destruct (String.eqb_spec k' k) as [->|Hne]; [done|]. by apply alist_get_filter_ne.
Qed.

Lemma formatFile_equiv kvs :
  JObj (frontKey "compilerOptions" kvs) ≡ JObj kvs.
Proof. constructor. intros k'. rewrite alist_get_frontKey. destruct (alist_get k' kvs); by constructor. Qed.

#[export] Instance keyOrderFormatter_upto (C : Collaborators) :
  @FormatUpTo (with_formatFiles C keyOrderFormatter).
Proof.
  split. intros t t' [=<-]. split; [|done].
  intros r name _. unfold readJson. simpl. rewrite lookup_fmap.
  destruct (files t !! _) as [[[| | | | |kvs]|x]|]; simpl; constructor; try reflexivity.
  apply formatFile_equiv.
Qed.

(** ** The reference host with the key-order formatter *)

Module ReferenceFormat.
Import ReferenceHost.

(** The relaxed law is strictly weaker: on [uiTree], whose
    [tsconfig.lib.json] starts with [extends], the formatter moves
    [compilerOptions] first, so it breaks the exact frame law. *)
Lemma keyOrderFormatter_not_exact : ¬ (∀ t t', keyOrderFormatter t = Ok t' → frames t t').
Proof.
  intros Hex. destruct (Hex uiTree _ eq_refl) as [Hk _].
  specialize (Hk "libs/ui" "tsconfig.lib.json" ltac:(unfold tsconfigNames; set_solver)).
  vm_compute in Hk. discriminate.
Qed.

Lemma vitestGenerator_tsconfigs_upto_witness :
  ∃ t' k, @vitestGenerator (with_formatFiles refCollaborators keyOrderFormatter)
            uiTree uiSchema = Ok (t', k) ∧
    ∃ pc t4, readProjectConfiguration uiTree (project uiSchema) = Ok pc ∧
      tsconfigsUpdated uiTree t4 (flagSet (inSourceTests uiSchema)) (root pc) ∧
      ∀ name, name ∈ tsconfigNames →
        res_rel (≡) (readJson t' (joinPathFragments [root pc; name]))
                    (readJson t4 (joinPathFragments [root pc; name])).
Proof.
  destruct (@vitestGenerator (with_formatFiles refCollaborators keyOrderFormatter)
              uiTree uiSchema) as [[t' k]|e] eqn:Hrun; [|vm_compute in Hrun; discriminate].
  exists t', k. split; [reflexivity|]. exact (vitestGenerator_tsconfigs_upto _ _ _ _ Hrun).
Defined.
End ReferenceFormat.
