(* ===== verification/Runs.v ===== *)
(** * Repeated runs of the generator

    The generator is meant to be run again on a workspace it already
    set up (spec section 8 asks the merge to be idempotent).  [run_step]
    is one successful run of [vitestGenerator] with a fixed schema, a
    relation on trees; stdpp's [tc] and [nsteps] are any positive number
    of runs and exactly [n] runs.  The theorems carry invariants of the
    project's tsconfig files along runs by induction on those relations:
    [tsconfig.json] settles after the first run with exactly
    [max 1 c] spec references, while each run adds one more
    ['vitest/importMeta'] to [tsconfig.lib.json]. *)

From stdpp Require Import gmap relations.
From S2P Require Import Prelude JsValue TsConfig TsTypes Devkit Generator.
Local Set Warnings "-clear-no-such-hyp".

Section Runs.
Context `{HL : CollaboratorLaws} (s : Schema).

(** ** The step relation *)

(** One successful run of [vitestGenerator] (lines 22-51) with schema [s]. *)
Inductive run_step : relation Tree :=
| run_step_ok t t' k : vitestGenerator t s = Ok (t', k) → run_step t t'.

(** The project of [s] lives at root [r]. *)
Definition rootIs (r : string) (t : Tree) : Prop :=
  root <$> projects t !! project s = Some r.

(** [tsconfig.json] of root [r] is an object whose [references] array
    refers [c] times to [./tsconfig.spec.json]. *)
Definition refsCount (r : string) (c : nat) (t : Tree) : Prop :=
  ∃ kvs refs, readJson t (tsconfigPath r) = Ok (JObj kvs) ∧
    alist_get "references" kvs = Some (JArr refs) ∧ specRefCount refs = c.

(** [tsconfig.lib.json] of root [r] is an object with an object
    [compilerOptions] whose [types] lists ['vitest/importMeta'] [c] times. *)
Definition libTypes (r : string) (c : nat) (t : Tree) : Prop :=
  ∃ kvs co, readJson t (tsconfigLibPath r) = Ok (JObj kvs) ∧
    alist_get "compilerOptions" kvs = Some (JObj co) ∧ importMetaCount (JObj kvs) = c.

(** ** One run *)

Lemma run_step_root r t t' : run_step t t' → rootIs r t → rootIs r t'.
Proof using HL.
  intros [? ? k Hrun] Hr. unfold rootIs. by rewrite (vitestGenerator_keepsRoots _ _ _ _ Hrun).
Qed.

Lemma run_step_effect r t t' :
  run_step t t' → rootIs r t → tsconfigsUpdated t t' (flagSet (inSourceTests s)) r.
Proof using HL.
  intros [? ? k Hrun] Hr. destruct (vitestGenerator_effect _ _ _ _ Hrun) as (pc & Hpc & Hu).
  unfold readProjectConfiguration, rootIs in *.
  by destruct (projects _ !! project s); simplify_eq/=.
Qed.

Lemma run_step_refsCount r c t t' :
  run_step t t' → rootIs r t → refsCount r c t → refsCount r (max 1 c) t'.
Proof using HL.
  intros Hs Hr (kvs & refs & Hts & Hrefs & <-).
  destruct (run_step_effect r t t' Hs Hr) as [(v & v' & Hv & Hu & Hv') _].
  rewrite Hts in Hv. injection Hv as <-.
  destruct (updateReferences_count _ _ _ Hrefs Hu) as (refs' & -> & Hc).
  exists (alist_set "references" (JArr refs') kvs), refs'. by rewrite alist_get_set_eq.
Qed.

Lemma run_step_libTypes r c t t' :
  flagSet (inSourceTests s) = true →
  run_step t t' → rootIs r t → libTypes r c t → libTypes r (S c) t'.
Proof using HL.
  intros Hflag Hs Hr (kvs & co & Hlib & Hco & <-).
  destruct (run_step_effect r t t' Hs Hr) as (_ & Hl & _).
  rewrite Hflag, (readJson_exists _ _ _ Hlib) in Hl. simpl in Hl.
  destruct Hl as (v & v' & Hv & Hu & Hv'). rewrite Hlib in Hv. injection Hv as <-.
  destruct (addImportMetaType_adds_one _ _ _ Hco Hu) as [Hc (ts & ->)].
  do 2 eexists. split_and!; [exact Hv'| |exact Hc].
  unfold withTypes. by rewrite alist_get_set_eq.
Qed.

Lemma run_step_typed r t t' :
  run_step t t' → rootIs r t → tsconfigsTyped t r → tsconfigsTyped t' r.
Proof using HL.
  intros [? ? k Hrun] Hr Hty.
  destruct (vitestGenerator_frames _ _ _ _ Hrun) as (pc & t3 & t4 & Hpc & F1 & Hu & F2).
  unfold readProjectConfiguration, rootIs in *.
  destruct (projects _ !! project s) as [pc'|]; simplify_eq/=.
  eapply frames_tsconfigsTyped; [exact F2|].
  eapply updateTsConfig_typed; [|exact Hu]. by eapply frames_tsconfigsTyped.
Qed.

(** ** Any number of runs *)

(** C13 (invariant, by rule induction on [rtc]) Every tree reachable by
    successful runs from a tree whose three tsconfig files have their
    declared types ([TsTypes]) has them typed too: no run, however
    often repeated, writes a [references] entry without a string [path]
    or a non-string into [compilerOptions.types]. *)
Theorem runs_preserve_typed r t t' :
  rtc run_step t t' → rootIs r t → tsconfigsTyped t r → tsconfigsTyped t' r.
Proof using HL.
  induction 1 as [t|t t1 t' Hs _ IH]; intros Hr Hty; [done|].
  apply IH; [by eapply run_step_root|by eapply run_step_typed].
Qed.

(** C12 (invariant, spec sections 3 and 8) Along any positive number of
    successful runs, [tsconfig.json] keeps a [references] array that
    refers [max 1 c] times to [./tsconfig.spec.json] when the input's
    referred to it [c] times: the first run adds the reference if it is
    missing, and later runs leave the count as it is. *)
Theorem runs_spec_reference_count r c t t' :
  tc run_step t t' → rootIs r t → refsCount r c t → refsCount r (max 1 c) t'.
Proof using HL.
  intros Hsteps. revert c. induction Hsteps as [t t' Hs|t t1 t' Hs _ IH]; intros c Hr Hc.
  - by eapply run_step_refsCount.
  - replace (max 1 c) with (max 1 (max 1 c)) by lia.
    apply IH; [by eapply run_step_root|by eapply run_step_refsCount].
Qed.

(** C11 (bounds, spec section 8) With [inSourceTests], [n] successful runs
    on a project whose [tsconfig.lib.json] has an object
    [compilerOptions] add exactly [n] copies of ['vitest/importMeta'] to
    its [types]: the number of entries grows without bound with the
    number of runs, where the spec's [ensureListedType] keeps one. *)
Theorem runs_add_import_meta r n c t t' :
  flagSet (inSourceTests s) = true →
  nsteps run_step n t t' → rootIs r t → libTypes r c t → libTypes r (c + n) t'.
Proof using HL.
  intros Hflag Hsteps. revert c. induction Hsteps as [t|n t t1 t' Hs _ IH]; intros c Hr Hl.
  - by rewrite Nat.add_0_r.
  - replace (c + S n) with (S c + n) by lia.
    apply IH; [by eapply run_step_root|by eapply run_step_libTypes].
Qed.
End Runs.

(** ** Two runs on the reference host *)

Module ReferenceRuns.
Import ReferenceHost.

(** The tree a run of the reference host leaves. *)
Definition runOnce (t : Tree) : Tree :=
  match vitestGenerator t uiSchema with Ok r => r.1 | Err _ => t end.

Lemma run_step_runOnce t t' k :
  vitestGenerator t uiSchema = Ok (t', k) → run_step uiSchema t (runOnce t).
Proof. intros Hrun. apply (run_step_ok _ _ _ k). unfold runOnce. by rewrite Hrun. Qed.

Lemma run_step_uiTree : run_step uiSchema uiTree (runOnce uiTree).
Proof.
  destruct (vitestGenerator uiTree uiSchema) as [[t' k]|e] eqn:Hrun;
    [exact (run_step_runOnce _ _ _ Hrun)|vm_compute in Hrun; discriminate].
Qed.

Lemma run_step_uiTree2 : run_step uiSchema (runOnce uiTree) (runOnce (runOnce uiTree)).
Proof.
  destruct (vitestGenerator (runOnce uiTree) uiSchema) as [[t' k]|e] eqn:Hrun;
    [exact (run_step_runOnce _ _ _ Hrun)|vm_compute in Hrun; discriminate].
Qed.

Lemma runs_spec_reference_count_witness :
  tc (run_step uiSchema) uiTree (runOnce (runOnce uiTree)) ∧
  rootIs uiSchema "libs/ui" uiTree ∧ refsCount "libs/ui" 0 uiTree ∧
  refsCount "libs/ui" 1 (runOnce (runOnce uiTree)).
Proof.
  assert (Hsteps : tc (run_step uiSchema) uiTree (runOnce (runOnce uiTree)))
    by (eapply tc_l; [apply run_step_uiTree|apply tc_once, run_step_uiTree2]).
  assert (Hr : rootIs uiSchema "libs/ui" uiTree) by reflexivity.
  assert (Hc : refsCount "libs/ui" 0 uiTree) by (do 2 eexists; split_and!; reflexivity).
  split_and!; [exact Hsteps|exact Hr|exact Hc|].
  exact (runs_spec_reference_count uiSchema "libs/ui" 0 _ _ Hsteps Hr Hc).
Defined.

Lemma runs_add_import_meta_witness :
  flagSet (inSourceTests uiSchema) = true ∧
  nsteps (run_step uiSchema) 2 uiTree (runOnce (runOnce uiTree)) ∧
  rootIs uiSchema "libs/ui" uiTree ∧ libTypes "libs/ui" 0 uiTree ∧
  libTypes "libs/ui" 2 (runOnce (runOnce uiTree)).
Proof.
  assert (Hsteps : nsteps (run_step uiSchema) 2 uiTree (runOnce (runOnce uiTree)))
    by (eapply nsteps_l; [apply run_step_uiTree|];
        eapply nsteps_l; [apply run_step_uiTree2|apply nsteps_O]).
  assert (Hr : rootIs uiSchema "libs/ui" uiTree) by reflexivity.
  assert (Hl : libTypes "libs/ui" 0 uiTree) by (do 2 eexists; split_and!; reflexivity).
  split_and!; [reflexivity|exact Hsteps|exact Hr|exact Hl|].
  exact (runs_add_import_meta uiSchema "libs/ui" 2 0 _ _ eq_refl Hsteps Hr Hl).
Defined.
Lemma runs_preserve_typed_witness :
  rtc (run_step uiSchema) uiTree (runOnce (runOnce uiTree)) ∧
  rootIs uiSchema "libs/ui" uiTree ∧ tsconfigsTyped uiTree "libs/ui" ∧
  tsconfigsTyped (runOnce (runOnce uiTree)) "libs/ui".
Proof.
  assert (Hsteps : rtc (run_step uiSchema) uiTree (runOnce (runOnce uiTree)))
    by (eapply rtc_l; [apply run_step_uiTree|apply rtc_once, run_step_uiTree2]).
  assert (Hr : rootIs uiSchema "libs/ui" uiTree) by reflexivity.
  split_and!; [exact Hsteps|exact Hr|exact uiTree_typed|].
  exact (runs_preserve_typed uiSchema "libs/ui" _ _ Hsteps Hr uiTree_typed).
Defined.
End ReferenceRuns.
